(** * ea-agent: availability engine, thread store and booking reconciliation

    A shallow embedding of the scheduling core of the repository:

    - [src/db/index.ts]        preference store and thread store (SQLite);
    - [src/tools/*.ts]         the tool wrappers ([toolSetPreference],
                               [toolUpdateThreadState], [computeFreeSlots], ...);
    - [src/agent.ts]           [executeTool], the dispatcher of the tool loop.

    Conventions of the embedding.

    - A JavaScript [number] is an [option Z]: an integer, or [None] for [NaN].
    - A [Date] is its time value (milliseconds since the epoch), [None] being
      the Invalid Date.
    - [T | null | undefined] is [option T]; a thrown exception is [Throw].
    - The SQLite file is a record of finite maps, threaded through a small
      state-and-exception monad.
    - JSON text held in a column is represented by the value it encodes. *)

From Stdlib Require Import ZArith Bool List Lia Ascii String Sorted.
From stdpp Require Import gmap strings list fin_maps.

Import ListNotations.
Local Open Scope string_scope.
Local Open Scope Z_scope.

(* ===================================================================== *)
(** ** JavaScript values, exceptions and the effect monad                 *)
(* ===================================================================== *)

Module Js.

(** What a [throw] carries. *)
Inductive exn : Type :=
| Error (message : string)        (* throw new Error(message) *)
| RangeError                      (* Date.prototype.toISOString on an Invalid Date *)
| SyntaxError                     (* JSON.parse on malformed text *)
| SqliteError (message : string)  (* a constraint failure raised by the store *)
| ApiError.                       (* a rejected call to an external provider *)

(** The outcome of running a piece of code. [OutOfFuel] is an artefact of
    bounded loops in the model, and is proved unreachable. *)
Inductive result (A : Type) : Type :=
| Ok (a : A)
| Throw (e : exn)
| OutOfFuel.
Arguments Ok {A} a.
Arguments Throw {A} e.
Arguments OutOfFuel {A}.

(** State-and-exception monad. A throw keeps the state reached so far. *)
Definition M (S A : Type) : Type := S -> result A * S.

Definition ret {S A} (a : A) : M S A := fun s => (Ok a, s).
Definition throw {S A} (e : exn) : M S A := fun s => (Throw e, s).
Definition bind {S A B} (m : M S A) (k : A -> M S B) : M S B :=
  fun s =>
    match m s with
    | (Ok a, s') => k a s'
    | (Throw e, s') => (Throw e, s')
    | (OutOfFuel, s') => (OutOfFuel, s')
    end.
(** [try { m } catch (err) { h err }] *)
Definition try_catch {S A} (m : M S A) (h : exn -> M S A) : M S A :=
  fun s =>
    match m s with
    | (Throw e, s') => h e s'
    | r => r
    end.

(** [number]: an integer or NaN. *)
Definition number : Type := option Z.

(** Relational operators: every comparison with NaN is false. *)
Definition lt (a b : number) : bool :=
  match a, b with Some x, Some y => x <? y | _, _ => false end.
Definition le (a b : number) : bool :=
  match a, b with Some x, Some y => x <=? y | _, _ => false end.
Definition gt (a b : number) : bool := lt b a.
Definition ge (a b : number) : bool := le b a.
Definition sub (a b : number) : number :=
  match a, b with Some x, Some y => Some (x - y) | _, _ => None end.
Definition mul (a b : number) : number :=
  match a, b with Some x, Some y => Some (x * y) | _, _ => None end.

(** Truthiness of an optional string: [undefined], [null] and [""] are falsy. *)
Definition truthy (s : option string) : bool :=
  match s with
  | Some v => negb (String.eqb v "")
  | None => false
  end.

(** [a ?? b] *)
Definition nullish {A} (a b : option A) : option A :=
  match a with Some _ => a | None => b end.

End Js.

Import Js.

Declare Scope js_scope.
Delimit Scope js_scope with js.
Notation "x <- m ;; k" := (Js.bind m (fun x => k))
  (at level 100, m at next level, right associativity) : js_scope.
Notation "m ;;; k" := (Js.bind m (fun _ => k))
  (at level 100, right associativity) : js_scope.

(* ===================================================================== *)
(** ** [src/types.ts]                                                     *)
(* ===================================================================== *)

(** [TimeSlot]: two ISO 8601 strings. *)
Record TimeSlot : Type := { start : string; end_ : string }.

(** [Preferences], with the [customRules] entry that [getPreferences]
    returns. *)
Record Preferences : Type := {
  workingHoursStart : string;
  workingHoursEnd : string;
  timezone : string;
  defaultMeetingDurationMinutes : number;
  bufferBeforeMinutes : number;
  bufferAfterMinutes : number;
  preferredPlatform : string;
  maxMeetingsPerDay : number;
  noMeetingDays : list Z;
  customRules : string;
}.

(** [Thread], as [rowToThread] builds it. [state] is the text of the column:
    the [ThreadState] union is erased at run time. *)
Module Thread.
Record t : Type := {
  id : Z;
  threadId : string;
  state : string;
  proposedSlots : option (list TimeSlot);
  requesterEmail : string;
  requesterName : option string;
  attendeeEmail : option string;
  meetingTitle : option string;
  meetingDurationMinutes : option Z;
  calendarEventId : option string;
  createdAt : string;
  updatedAt : string;
}.
End Thread.

(** The four members of [ThreadState]. *)
Definition ThreadState : list string :=
  ["new"; "awaiting_confirmation"; "booked"; "cancelled"].

(* ===================================================================== *)
(** ** [src/db/index.ts]                                                  *)
(* ===================================================================== *)

(** A row of table [threads]. *)
Module Row.
Record t : Type := {
  id : Z;
  thread_id : string;
  state : string;
  proposed_slots : option (list TimeSlot);
  requester_email : string;
  requester_name : option string;
  attendee_email : option string;
  meeting_title : option string;
  meeting_duration_minutes : option Z;
  calendar_event_id : option string;
  created_at : string;
  updated_at : string;
}.
End Row.

(** The database file: table [preferences] (key -> value), table [threads]
    (one row per [thread_id], which is UNIQUE) and the AUTOINCREMENT
    counter of [threads.id]. *)
Record Database : Type := {
  preferences : gmap string string;
  threads : gmap string Row.t;
  threads_seq : Z;
}.

(** The argument object of [upsertThread]. [threadId] and [state] are
    mandatory in the TypeScript signature; they are optional here because
    [executeTool] forwards [toolInput.state as any] unchecked, so a missing
    value can reach the statement. *)
Module Params.
Record t : Type := {
  threadId : option string;
  state : option string;
  requesterEmail : option string;
  requesterName : option string;
  attendeeEmail : option string;
  meetingTitle : option string;
  meetingDurationMinutes : option Z;
  proposedSlots : option (list TimeSlot);
  calendarEventId : option string;
}.
End Params.

Definition rowToThread (row : Row.t) : Thread.t :=
  {| Thread.id := Row.id row;
     Thread.threadId := Row.thread_id row;
     Thread.state := Row.state row;
     Thread.proposedSlots := Row.proposed_slots row;
     Thread.requesterEmail := Row.requester_email row;
     Thread.requesterName := Row.requester_name row;
     Thread.attendeeEmail := Row.attendee_email row;
     Thread.meetingTitle := Row.meeting_title row;
     Thread.meetingDurationMinutes := Row.meeting_duration_minutes row;
     Thread.calendarEventId := Row.calendar_event_id row;
     Thread.createdAt := Row.created_at row;
     Thread.updatedAt := Row.updated_at row |}.

(** [SELECT * FROM threads WHERE thread_id = ?] *)
Definition getThread (threadId : string) : M Database (option Thread.t) :=
  fun db => (Ok (rowToThread <$> threads db !! threadId), db).

(** SQL [COALESCE(excluded.c, c)] *)
Definition COALESCE {A} (excluded old : option A) : option A :=
  match excluded with Some _ => excluded | None => old end.

Section Store.

(** [datetime('now')] at the time of the statement. *)
Variable now : string.

(** The row proposed by the VALUES clause of the INSERT. *)
Definition excluded_row (db : Database) (threadId state : string)
    (params : Params.t) : Row.t :=
  {| Row.id := threads_seq db + 1;
     Row.thread_id := threadId;
     Row.state := state;
     Row.proposed_slots := Params.proposedSlots params;
     Row.requester_email := default "" (Params.requesterEmail params);
     Row.requester_name := Params.requesterName params;
     Row.attendee_email := Params.attendeeEmail params;
     Row.meeting_title := Params.meetingTitle params;
     Row.meeting_duration_minutes := Params.meetingDurationMinutes params;
     Row.calendar_event_id := Params.calendarEventId params;
     Row.created_at := now;
     Row.updated_at := now |}.

(** [ON CONFLICT(thread_id) DO UPDATE SET ...] *)
Definition do_update (old excluded : Row.t) : Row.t :=
  {| Row.id := Row.id old;
     Row.thread_id := Row.thread_id old;
     Row.state := Row.state excluded;
     Row.proposed_slots := Row.proposed_slots excluded;
     Row.requester_email := Row.requester_email old;
     Row.requester_name :=
       COALESCE (Row.requester_name excluded) (Row.requester_name old);
     Row.attendee_email :=
       COALESCE (Row.attendee_email excluded) (Row.attendee_email old);
     Row.meeting_title :=
       COALESCE (Row.meeting_title excluded) (Row.meeting_title old);
     Row.meeting_duration_minutes :=
       COALESCE (Row.meeting_duration_minutes excluded)
                (Row.meeting_duration_minutes old);
     Row.calendar_event_id :=
       COALESCE (Row.calendar_event_id excluded) (Row.calendar_event_id old);
     Row.created_at := Row.created_at old;
     Row.updated_at := now |}.

(** The INSERT ... ON CONFLICT statement. Columns [thread_id] and [state]
    are NOT NULL: a missing value aborts the statement, whether or not
    the row exists, and nothing is written. [id] is AUTOINCREMENT: the
    identifier allocated for the INSERT is recorded in [sqlite_sequence]
    also when ON CONFLICT turns the statement into an UPDATE, so the
    counter advances on every statement that goes through. *)
Definition run_upsert (params : Params.t) : M Database unit :=
  fun db =>
    match Params.threadId params, Params.state params with
    | None, _ =>
        (Throw (SqliteError "NOT NULL constraint failed: threads.thread_id"), db)
    | Some _, None =>
        (Throw (SqliteError "NOT NULL constraint failed: threads.state"), db)
    | Some tid, Some st =>
        let excluded := excluded_row db tid st params in
        match threads db !! tid with
        | Some old =>
            (Ok tt, {| preferences := preferences db;
                       threads := <[tid := do_update old excluded]> (threads db);
                       threads_seq := threads_seq db + 1 |})
        | None =>
            (Ok tt, {| preferences := preferences db;
                       threads := <[tid := excluded]> (threads db);
                       threads_seq := threads_seq db + 1 |})
        end
    end.

(** [upsertThread]: run the statement, then [getThread(params.threadId)!]. *)
Definition upsertThread (params : Params.t) : M Database (option Thread.t) :=
  (run_upsert params ;;;
   getThread (default "" (Params.threadId params)))%js.

End Store.

(* ===================================================================== *)
(** ** The host: what the process inherits from its environment          *)
(* ===================================================================== *)

(** Everything the code obtains from the JavaScript runtime and the process
    environment rather than from its own text. The development is
    parametric in the host; [utcHost] below is a concrete one.

    The local time zone of the process is a fixed offset from UTC: zones
    with daylight-saving transitions are outside the model. *)
Class Host : Type := {
  OWNER_TIMEZONE : option string;     (* process.env.OWNER_TIMEZONE *)
  tzOffsetMs : Z;                     (* local time = UTC + tzOffsetMs *)
  Date_parse : string -> number;      (* new Date(s).getTime() *)
  Date_toISOString : Z -> string;     (* toISOString() of a valid time value *)
  Number : string -> number;          (* Number(s), NaN being None *)
  JSON_parse : string -> option (list Z);  (* JSON.parse(s); None: SyntaxError *)
}.

(* ===================================================================== *)
(** ** [src/db/index.ts], preferences                                    *)
(* ===================================================================== *)

Section PreferenceStore.

Context `{Host}.

Definition DEFAULT_PREFERENCES : list (string * string) :=
  [ ("workingHoursStart", "09:00");
    ("workingHoursEnd", "18:00");
    ("timezone", default "America/Los_Angeles" OWNER_TIMEZONE);
    ("defaultMeetingDurationMinutes", "30");
    ("bufferBeforeMinutes", "5");
    ("bufferAfterMinutes", "5");
    ("preferredPlatform", "Google Meet");
    ("maxMeetingsPerDay", "6");
    ("noMeetingDays", "[0,6]");
    ("customRules", "") ].

(** [INSERT OR IGNORE INTO preferences (key, value) VALUES (?, ?)] *)
Definition insert_or_ignore (key value : string) (m : gmap string string)
    : gmap string string :=
  match m !! key with
  | Some _ => m
  | None => <[key := value]> m
  end.

Definition seedDefaultPreferences (db : Database) : Database :=
  {| preferences :=
       fold_left (fun m kv => insert_or_ignore (fst kv) (snd kv) m)
                 DEFAULT_PREFERENCES (preferences db);
     threads := threads db;
     threads_seq := threads_seq db |}.

(** The file right after [migrate] on a fresh disk. *)
Definition freshDatabase : Database :=
  seedDefaultPreferences
    {| preferences := ∅; threads := ∅; threads_seq := 0 |}.

(** [Number(map.key ?? dflt)] *)
Definition numberOr (m : gmap string string) (key : string) (dflt : Z) : number :=
  match m !! key with
  | Some v => Number v
  | None => Some dflt
  end.

Definition getPreferences : M Database Preferences :=
  fun db =>
    let map := preferences db in
    match JSON_parse (default "[0,6]" (map !! "noMeetingDays")) with
    | None => (Throw SyntaxError, db)
    | Some days =>
        (Ok {| workingHoursStart := default "09:00" (map !! "workingHoursStart");
               workingHoursEnd := default "18:00" (map !! "workingHoursEnd");
               timezone := default "America/Los_Angeles" (map !! "timezone");
               defaultMeetingDurationMinutes :=
                 numberOr map "defaultMeetingDurationMinutes" 30;
               bufferBeforeMinutes := numberOr map "bufferBeforeMinutes" 5;
               bufferAfterMinutes := numberOr map "bufferAfterMinutes" 5;
               preferredPlatform := default "Google Meet" (map !! "preferredPlatform");
               maxMeetingsPerDay := numberOr map "maxMeetingsPerDay" 6;
               noMeetingDays := days;
               customRules := default "" (map !! "customRules") |}, db)
    end.

(** [INSERT OR REPLACE INTO preferences (key, value) VALUES (?, ?)] *)
Definition setPreference (key value : string) : M Database unit :=
  fun db =>
    (Ok tt, {| preferences := <[key := value]> (preferences db);
               threads := threads db;
               threads_seq := threads_seq db |}).

(* ------------------------------------------------------------------- *)
(** *** [src/tools/preferences.ts]                                      *)

Definition toolGetPreferences : M Database Preferences := getPreferences.

Definition validKeys : list string :=
  [ "workingHoursStart";
    "workingHoursEnd";
    "timezone";
    "defaultMeetingDurationMinutes";
    "bufferBeforeMinutes";
    "bufferAfterMinutes";
    "preferredPlatform";
    "maxMeetingsPerDay";
    "noMeetingDays" ].

(** [validKeys.includes(key)] *)
Definition includes_key (keys : list string) (key : string) : bool :=
  existsb (String.eqb key) keys.

(** Returns [{ success: true }], here [tt]. *)
Definition toolSetPreference (key value : string) : M Database unit :=
  if negb (includes_key validKeys key)
  then throw (Error ("Unknown preference key: " ++ key))
  else setPreference key value.

End PreferenceStore.

(** The field names of the preference record that [getPreferences] returns. *)
Definition preferenceFields : list string :=
  [ "workingHoursStart"; "workingHoursEnd"; "timezone";
    "defaultMeetingDurationMinutes"; "bufferBeforeMinutes";
    "bufferAfterMinutes"; "preferredPlatform"; "maxMeetingsPerDay";
    "noMeetingDays"; "customRules" ].

(* ===================================================================== *)
(** ** [src/tools/threads.ts]                                            *)
(* ===================================================================== *)

Section ThreadTools.

Variable now : string.

Definition toolGetThread (threadId : string) : M Database (option Thread.t) :=
  getThread threadId.

Definition toolUpdateThreadState (params : Params.t)
    : M Database (option Thread.t) :=
  upsertThread now params.

End ThreadTools.

(* ===================================================================== *)
(** ** [src/tools/calendar.ts]: the availability engine                  *)
(* ===================================================================== *)

(** A [Date] object, by its time value. *)
Definition Date : Type := number.

Definition msPerMinute : Z := 60000.
Definition msPerHour : Z := 3600000.
Definition msPerDay : Z := 86400000.

(** ECMAScript [TimeClip]: time values beyond 8.64e15 ms are invalid. *)
Definition maxTimeValue : Z := 8640000000000000.
Definition TimeClip (t : Z) : Date :=
  if Z.abs t <=? maxTimeValue then Some t else None.

(** The anonymous [{ start: Date, end: Date }] objects of [blocked]. *)
Module Block.
Record t : Type := { start : Date; end_ : Date }.
End Block.

(** The argument object of [computeFreeSlots]. *)
Module FreeSlots.
Record params : Type := {
  busyBlocks : list TimeSlot;
  startDate : string;
  endDate : string;
  prefs : Preferences;
  durationMinutes : number;
}.
End FreeSlots.

(** [s.split(sep)] for a one-character separator. *)
Fixpoint split (sep : ascii) (s : string) : list string :=
  match s with
  | EmptyString => [EmptyString]
  | String c s' =>
      if Ascii.eqb c sep then EmptyString :: split sep s'
      else match split sep s' with
           | p :: ps => String c p :: ps
           | [] => [String c EmptyString]
           end
  end.

Section Availability.

Context `{Host}.

(** [d.getDay()]: the weekday of the local calendar date, 0 = Sunday.
    1 January 1970 was a Thursday. *)
Definition getDay (d : Date) : number :=
  match d with
  | Some t => Some (((t + tzOffsetMs) / msPerDay + 4) mod 7)
  | None => None
  end.

(** [d.setDate(d.getDate() + 1)]: the same local time on the next local
    calendar date. *)
Definition setDate_next (d : Date) : Date :=
  match d with
  | Some t => TimeClip (t + msPerDay)
  | None => None
  end.

(** [d.setHours(hour, min, 0, 0)]: the given local time on the local
    calendar date of [d]. Out-of-range arguments carry over; a NaN (or
    [undefined]) argument invalidates the date. *)
Definition setHours (d : Date) (hour min : number) : Date :=
  match d, hour, min with
  | Some t, Some h, Some m =>
      TimeClip ((t + tzOffsetMs) / msPerDay * msPerDay
                + (h * msPerHour + m * msPerMinute) - tzOffsetMs)
  | _, _, _ => None
  end.

(** [d.toISOString()] throws on an Invalid Date. *)
Definition toISOString (d : Date) : result string :=
  match d with
  | Some t => Ok (Date_toISOString t)
  | None => Throw RangeError
  end.

(** [const [hour, min] = s.split(":").map(Number)]; a missing second
    part is [undefined], which [setHours] reads as NaN. *)
Definition splitHourMin (s : string) : number * number :=
  let parts := map Number (split ":" s) in
  (nth 0 parts None, nth 1 parts None).

(** [noMeetingDays.includes(day.getDay())] *)
Definition includes_day (days : list Z) (d : number) : bool :=
  match d with
  | Some v => existsb (Z.eqb v) days
  | None => false
  end.

(** [.map((b) => ({ start: new Date(b.start), end: new Date(b.end) }))] *)
Definition toDates (b : TimeSlot) : Block.t :=
  {| Block.start := Date_parse (start b); Block.end_ := Date_parse (end_ b) |}.

(** [.filter((b) => b.start < dayEnd && b.end > dayStart)] *)
Definition overlapsDay (dayStart dayEnd : Date) (b : Block.t) : bool :=
  lt (Block.start b) dayEnd && gt (Block.end_ b) dayStart.

(** The clamp to working hours. *)
Definition clamp (dayStart dayEnd : Date) (b : Block.t) : Block.t :=
  {| Block.start := if lt (Block.start b) dayStart then dayStart else Block.start b;
     Block.end_ := if gt (Block.end_ b) dayEnd then dayEnd else Block.end_ b |}.

(** [.sort((a, b) => a.start.getTime() - b.start.getTime())]: the sort is
    stable, and [b] goes before [a] only when the comparator is positive. *)
Definition compareStart (a b : Block.t) : number :=
  sub (Block.start a) (Block.start b).

Fixpoint insertByStart (x : Block.t) (l : list Block.t) : list Block.t :=
  match l with
  | [] => [x]
  | y :: l' =>
      if gt (compareStart x y) (Some 0)
      then y :: insertByStart x l'
      else x :: y :: l'
  end.

Fixpoint sortByStart (l : list Block.t) : list Block.t :=
  match l with
  | [] => []
  | x :: l' => insertByStart x (sortByStart l')
  end.

Definition blockedOfDay (busyBlocks : list TimeSlot) (dayStart dayEnd : Date)
    : list Block.t :=
  sortByStart
    (map (clamp dayStart dayEnd)
         (List.filter (overlapsDay dayStart dayEnd)
                      (map toDates busyBlocks))).

(** [const minWindowMs = durationMinutes * 60 * 1000] *)
Definition minWindowMs (durationMinutes : number) : number :=
  mul (mul durationMinutes (Some 60)) (Some 1000).

(** [if (windowMs >= minWindowMs) freeWindows.push({ start: a.toISOString(),
    end: b.toISOString() })] with [windowMs = b.getTime() - a.getTime()]. *)
Definition pushIfLongEnough (minWindowMs : number) (a b : Date)
    (freeWindows : list TimeSlot) : result (list TimeSlot) :=
  let windowMs := sub b a in
  if ge windowMs minWindowMs then
    match toISOString a with
    | Ok s =>
        match toISOString b with
        | Ok e => Ok (freeWindows ++ [{| start := s; end_ := e |}])%list
        | Throw x => Throw x
        | OutOfFuel => OutOfFuel
        end
    | Throw x => Throw x
    | OutOfFuel => OutOfFuel
    end
  else Ok freeWindows.

(** [for (const block of blocked) { ... }]: returns the final cursor and
    the grown [freeWindows]. *)
Fixpoint walkGaps (minWindowMs : number) (blocked : list Block.t)
    (cursor : Date) (freeWindows : list TimeSlot)
    : result (Date * list TimeSlot) :=
  match blocked with
  | [] => Ok (cursor, freeWindows)
  | block :: rest =>
      match (if lt cursor (Block.start block)
             then pushIfLongEnough minWindowMs cursor (Block.start block) freeWindows
             else Ok freeWindows) with
      | Ok freeWindows' =>
          walkGaps minWindowMs rest
            (if gt (Block.end_ block) cursor then Block.end_ block else cursor)
            freeWindows'
      | Throw x => Throw x
      | OutOfFuel => OutOfFuel
      end
  end.

(** The body of the day loop once the weekday test has passed. *)
Definition dayWindows (busyBlocks : list TimeSlot)
    (startHour startMin endHour endMin minWindowMs : number)
    (day : Date) (freeWindows : list TimeSlot) : result (list TimeSlot) :=
  let dayStart := setHours day startHour startMin in
  let dayEnd := setHours day endHour endMin in
  let blocked := blockedOfDay busyBlocks dayStart dayEnd in
  match walkGaps minWindowMs blocked dayStart freeWindows with
  | Ok (cursor, freeWindows') =>
      if lt cursor dayEnd
      then pushIfLongEnough minWindowMs cursor dayEnd freeWindows'
      else Ok freeWindows'
  | Throw x => Throw x
  | OutOfFuel => OutOfFuel
  end.

(** [for (day = new Date(start); day <= end; day.setDate(day.getDate() + 1))] *)
Fixpoint dayLoop (fuel : nat) (busyBlocks : list TimeSlot)
    (noMeeting : list Z)
    (startHour startMin endHour endMin minWindowMs : number)
    (day end' : Date) (freeWindows : list TimeSlot) : result (list TimeSlot) :=
  if le day end' then
    match fuel with
    | O => OutOfFuel
    | S fuel' =>
        if includes_day noMeeting (getDay day)
        then dayLoop fuel' busyBlocks noMeeting
               startHour startMin endHour endMin minWindowMs
               (setDate_next day) end' freeWindows
        else
          match dayWindows busyBlocks startHour startMin endHour endMin
                           minWindowMs day freeWindows with
          | Ok freeWindows' =>
              dayLoop fuel' busyBlocks noMeeting
                startHour startMin endHour endMin minWindowMs
                (setDate_next day) end' freeWindows'
          | Throw x => Throw x
          | OutOfFuel => OutOfFuel
          end
    end
  else Ok freeWindows.

(** Fuel for the day loop: the number of days from [start] to [end]. *)
Definition daysBetween (start' end' : Date) : nat :=
  match start', end' with
  | Some s, Some e => Z.to_nat ((e - s) / msPerDay + 1)
  | _, _ => O
  end.

Definition computeFreeSlots (params : FreeSlots.params) : result (list TimeSlot) :=
  let prefs := FreeSlots.prefs params in
  let '(startHour, startMin) := splitHourMin (workingHoursStart prefs) in
  let '(endHour, endMin) := splitHourMin (workingHoursEnd prefs) in
  let minWindowMs := minWindowMs (FreeSlots.durationMinutes params) in
  let start' := Date_parse (FreeSlots.startDate params ++ "T00:00:00") in
  let end' := Date_parse (FreeSlots.endDate params ++ "T00:00:00") in
  dayLoop (daysBetween start' end') (FreeSlots.busyBlocks params)
    (noMeetingDays prefs) startHour startMin endHour endMin minWindowMs
    start' end' [].

End Availability.

(* ===================================================================== *)
(** ** External providers                                                *)
(* ===================================================================== *)

Record BookingResult : Type := {
  eventId : string;
  eventLink : string;
  meetLink : option string;
}.

(** A property value of [toolInput: Record<string, unknown>]. *)
Inductive Value : Type :=
| VString (s : string)
| VNumber (n : number)
| VSlots (slots : list TimeSlot).

(** What [executeTool] resolves to. *)
Inductive ToolOutput : Type :=
| OutPreferences (prefs : Preferences)
| OutSuccess                                  (* { success: true } *)
| OutThread (thread : option Thread.t)
| OutBooking (booking : BookingResult)
| OutVoid                                     (* undefined *)
| OutRemote (json : string).                  (* the answer of a read-only provider call *)

(** The request body of [calendar.events.patch]. *)
Module Patch.
Record body : Type := {
  summary : option string;
  description : option string;
  start : option string;
  end_ : option string;
}.
End Patch.

(** The request of [calendar.events.insert]. *)
Module Insert.
Record body : Type := {
  summary : option string;
  description : option string;
  start : option string;
  end_ : option string;
  attendeeEmail : option string;
  attendeeName : option string;
  conference : bool;
}.
(** The part of the response that the code reads. *)
Record response : Type := {
  id : string;
  htmlLink : string;
  videoEntryPoint : option string;
}.
End Insert.

(** The calls that write to the calendar, in order. *)
Inductive CalendarCall : Type :=
| CallPatch (eventId : string) (body : Patch.body)
| CallInsert (body : Insert.body)
| CallCancel (eventId : string).

(** How the providers answer. A rejected promise is [false], [None] or
    [Throw]. [remote_tool] stands for the three cases of [executeTool] that
    only read from the providers or send mail ([get_availability],
    [send_email], [list_events]): they touch neither the database nor the
    calendar's events, and their answers are left open. *)
Class Services : Type := {
  events_patch : string -> Patch.body -> bool;
  events_insert : Insert.body -> option Insert.response;
  events_cancel : string -> bool;
  remote_tool : string -> gmap string Value -> Preferences -> result ToolOutput;
}.

(** The state that a tool call can change: the database file and the
    calendar, the latter seen through the write calls made to it. *)
Record World : Type := {
  db : Database;
  calendarCalls : list CalendarCall;
}.

Definition liftDb {A} (m : M Database A) : M World A :=
  fun w =>
    match m (db w) with
    | (r, db') => (r, {| db := db'; calendarCalls := calendarCalls w |})
    end.

Definition call (c : CalendarCall) : M World unit :=
  fun w => (Ok tt, {| db := db w; calendarCalls := (calendarCalls w ++ [c])%list |}).

Module UpdateEvent.
Record params : Type := {
  start : option string;
  end_ : option string;
  title : option string;
  description : option string;
}.
End UpdateEvent.

Module CreateEvent.
Record params : Type := {
  title : option string;
  start : option string;
  end_ : option string;
  attendeeEmail : option string;
  attendeeName : option string;
  description : option string;
  addGoogleMeet : bool;
}.
End CreateEvent.

Section CalendarTools.

Context `{Services}.

(** The [requestBody] of the patch: [summary] only for a truthy title,
    [description] unless [undefined]. *)
Definition patchBody (params : UpdateEvent.params) : Patch.body :=
  {| Patch.summary :=
       if truthy (UpdateEvent.title params) then UpdateEvent.title params else None;
     Patch.description := UpdateEvent.description params;
     Patch.start := UpdateEvent.start params;
     Patch.end_ := UpdateEvent.end_ params |}.

Definition toolUpdateCalendarEvent (eventId : string) (params : UpdateEvent.params)
    : M World unit :=
  (call (CallPatch eventId (patchBody params)) ;;;
   if events_patch eventId (patchBody params) then ret tt else throw ApiError)%js.

Definition insertBody (params : CreateEvent.params) : Insert.body :=
  {| Insert.summary := CreateEvent.title params;
     Insert.description := CreateEvent.description params;
     Insert.start := CreateEvent.start params;
     Insert.end_ := CreateEvent.end_ params;
     Insert.attendeeEmail := CreateEvent.attendeeEmail params;
     Insert.attendeeName := CreateEvent.attendeeName params;
     Insert.conference := CreateEvent.addGoogleMeet params |}.

Definition toolCreateCalendarEvent (params : CreateEvent.params)
    : M World BookingResult :=
  (call (CallInsert (insertBody params)) ;;;
   match events_insert (insertBody params) with
   | Some event =>
       ret {| eventId := Insert.id event;
              eventLink := Insert.htmlLink event;
              meetLink := Insert.videoEntryPoint event |}
   | None => throw ApiError
   end)%js.

(** Modelled from the spec: [toolCancelCalendarEvent] is imported from
    [tools/calendar.ts] but its body is not among the sources. The
    calendar-write interface gives [cancelEvent(eventId) -> void], which
    marks the calendar event cancelled and notifies attendees: a call to
    the provider and nothing else. *)
Definition toolCancelCalendarEvent (eventId : string) : M World unit :=
  (call (CallCancel eventId) ;;;
   if events_cancel eventId then ret tt else throw ApiError)%js.

End CalendarTools.

(* ===================================================================== *)
(** ** [src/agent.ts]: [executeTool]                                      *)
(* ===================================================================== *)

(** The casts [as string] and [as any] are erased at run time. The records
    of this model are typed: a property is read at the shape its cast
    names, and an absent one reads as [undefined]. A property of another
    shape is used by the code as it comes (a number given as [state] is
    bound to the column, one given as [existingEventId] is patched), which
    these records cannot hold; the functions below read it as [undefined],
    and the statements that depend on such a property take the input to
    be of the named shapes ([bookingInputTyped], [stateUpdateTyped]). *)
Definition asString (v : option Value) : option string :=
  match v with Some (VString s) => Some s | _ => None end.
Definition asSlots (v : option Value) : option (list TimeSlot) :=
  match v with Some (VSlots l) => Some l | _ => None end.
(** A [number | undefined] bound to an INTEGER column. *)
Definition asInteger (v : option Value) : option Z :=
  match v with Some (VNumber (Some n)) => Some n | _ => None end.

(** The part of [AgentContext] that [executeTool] reads in the cases
    modelled here: [ctx.email.threadId]. *)
Record IncomingEmail : Type := {
  messageId : string;
  threadId : string;
  subject : string;
}.

Record AgentContext : Type := {
  email : IncomingEmail;
  thread : option Thread.t;
  conversationHistory : string;
}.

Section Agent.

Context `{Host} `{Services}.

(** [datetime('now')] during this tool call. *)
Variable now : string.

Definition createParams (toolInput : gmap string Value) (addMeet : bool)
    : CreateEvent.params :=
  {| CreateEvent.title := asString (toolInput !! "title");
     CreateEvent.start := asString (toolInput !! "start");
     CreateEvent.end_ := asString (toolInput !! "end");
     CreateEvent.attendeeEmail := asString (toolInput !! "attendeeEmail");
     CreateEvent.attendeeName := asString (toolInput !! "attendeeName");
     CreateEvent.description := asString (toolInput !! "description");
     CreateEvent.addGoogleMeet := addMeet |}.

Definition updateParams (toolInput : gmap string Value) : UpdateEvent.params :=
  {| UpdateEvent.title := asString (toolInput !! "title");
     UpdateEvent.start := asString (toolInput !! "start");
     UpdateEvent.end_ := asString (toolInput !! "end");
     UpdateEvent.description := asString (toolInput !! "description") |}.

(** The write that marks the thread as booked. *)
Definition bookedParams (toolInput : gmap string Value) (ctx : AgentContext)
    (booking : BookingResult) : Params.t :=
  {| Params.threadId := Some (threadId (email ctx));
     Params.state := Some "booked";
     Params.requesterEmail := None;
     Params.requesterName := None;
     Params.attendeeEmail := asString (toolInput !! "attendeeEmail");
     Params.meetingTitle := None;
     Params.meetingDurationMinutes := None;
     Params.proposedSlots := None;
     Params.calendarEventId := Some (eventId booking) |}.

(** [case "book_meeting"] *)
Definition bookMeeting (toolInput : gmap string Value) (ctx : AgentContext)
    : M World BookingResult :=
  (prefs <- liftDb toolGetPreferences ;;
   let addMeet := String.eqb (preferredPlatform prefs) "Google Meet" in
   existingThread <- liftDb (toolGetThread (threadId (email ctx))) ;;
   let existingEventId :=
     nullish (asString (toolInput !! "existingEventId"))
             (existingThread ≫= Thread.calendarEventId) in
   booking <-
     (if truthy existingEventId then
        let existingEventId := default "" existingEventId in
        try_catch
          (toolUpdateCalendarEvent existingEventId (updateParams toolInput) ;;;
           ret {| eventId := existingEventId; eventLink := ""; meetLink := None |})
          (fun err => toolCreateCalendarEvent (createParams toolInput addMeet))
      else toolCreateCalendarEvent (createParams toolInput addMeet)) ;;
   liftDb (toolUpdateThreadState now (bookedParams toolInput ctx booking)) ;;;
   ret booking)%js.

(** [case "update_thread_state"] *)
Definition updateThreadState (toolInput : gmap string Value) (ctx : AgentContext)
    : M World (option Thread.t) :=
  liftDb (toolUpdateThreadState now
    {| Params.threadId := Some (threadId (email ctx));
       Params.state := asString (toolInput !! "state");
       Params.requesterEmail := None;
       Params.requesterName := None;
       Params.attendeeEmail := None;
       Params.meetingTitle := asString (toolInput !! "meetingTitle");
       Params.meetingDurationMinutes := asInteger (toolInput !! "meetingDurationMinutes");
       Params.proposedSlots := asSlots (toolInput !! "proposedSlots");
       Params.calendarEventId := None |}).

(** [case "cancel_meeting"] *)
Definition cancelMeeting (toolInput : gmap string Value) : M World unit :=
  toolCancelCalendarEvent (default "undefined" (asString (toolInput !! "eventId"))).

(** [case "set_preference"]; an [undefined] key fails the key test, an
    [undefined] value fails the NOT NULL constraint of the column. *)
Definition setPreferenceCase (toolInput : gmap string Value) : M World unit :=
  match asString (toolInput !! "key"), asString (toolInput !! "value") with
  | None, _ => throw (Error "Unknown preference key: undefined")
  | Some key, None =>
      if negb (includes_key validKeys key)
      then throw (Error ("Unknown preference key: " ++ key))
      else throw (SqliteError "NOT NULL constraint failed: preferences.value")
  | Some key, Some value => liftDb (toolSetPreference key value)
  end.

Definition isRemoteTool (toolName : string) : bool :=
  String.eqb toolName "get_availability"
  || String.eqb toolName "send_email"
  || String.eqb toolName "list_events".

Definition executeTool (toolName : string) (toolInput : gmap string Value)
    (ctx : AgentContext) : M World ToolOutput :=
  (prefs <- liftDb toolGetPreferences ;;
   if String.eqb toolName "get_preferences" then
     ret (OutPreferences prefs)
   else if String.eqb toolName "set_preference" then
     setPreferenceCase toolInput ;;; ret OutSuccess
   else if isRemoteTool toolName then
     fun w => (remote_tool toolName toolInput prefs, w)
   else if String.eqb toolName "update_thread_state" then
     t <- updateThreadState toolInput ctx ;; ret (OutThread t)
   else if String.eqb toolName "book_meeting" then
     b <- bookMeeting toolInput ctx ;; ret (OutBooking b)
   else if String.eqb toolName "cancel_meeting" then
     cancelMeeting toolInput ;;; ret OutVoid
   else throw (Error ("Unknown tool: " ++ toolName)))%js.

End Agent.

(* ===================================================================== *)
(** ** A reference host: UTC, ISO 8601                                   *)
(* ===================================================================== *)

(** A concrete [Host], to run the engine on the scenarios of the
    specification. It covers unsigned decimal numerals, arrays of them, and
    date-times written [YYYY-MM-DDTHH:MM:SS] with an optional [.sss] and an
    optional [Z]; the process runs in UTC. *)
Module RefHost.

Definition digitValue (c : ascii) : option Z :=
  let n := Z.of_N (N_of_ascii c) in
  if (48 <=? n) && (n <=? 57) then Some (n - 48) else None.

Fixpoint digitsFrom (acc : Z) (s : string) : option Z :=
  match s with
  | EmptyString => Some acc
  | String c s' =>
      match digitValue c with
      | Some d => digitsFrom (acc * 10 + d) s'
      | None => None
      end
  end.

(** [Number("")] is 0; anything but an unsigned decimal numeral is NaN. *)
Definition Number (s : string) : number := digitsFrom 0 s.

(** A non-empty run of digits. *)
Definition numeral (s : string) : option Z :=
  match s with
  | EmptyString => None
  | _ => digitsFrom 0 s
  end.

Fixpoint dropSpaces (s : string) : string :=
  match s with
  | EmptyString => EmptyString
  | String c s' =>
      if Ascii.eqb c " " then dropSpaces s' else String c (dropSpaces s')
  end.

Fixpoint allSome {A} (l : list (option A)) : option (list A) :=
  match l with
  | [] => Some []
  | Some x :: l' =>
      match allSome l' with Some xs => Some (x :: xs) | None => None end
  | None :: _ => None
  end.

(** [JSON.parse] on an array of unsigned integers. *)
Definition JSON_parse (s : string) : option (list Z) :=
  match dropSpaces s with
  | String "[" body =>
      let n := String.length body in
      match n with
      | O => None
      | S k =>
          if String.eqb (substring k 1 body) "]" then
            let inner := substring 0 k body in
            if String.eqb inner "" then Some []
            else allSome (map numeral (split "," inner))
          else None
      end
  | _ => None
  end.

(** Days from 1970-01-01 to the given civil date (proleptic Gregorian). *)
Definition daysFromCivil (y m d : Z) : Z :=
  let y' := if m <=? 2 then y - 1 else y in
  let era := y' / 400 in
  let yoe := y' - era * 400 in
  let doy := (153 * (m + (if 2 <? m then -3 else 9)) + 2) / 5 + d - 1 in
  let doe := yoe * 365 + yoe / 4 - yoe / 100 + doy in
  era * 146097 + doe - 719468.

(** The civil date of a day number. *)
Definition civilFromDays (z : Z) : Z * Z * Z :=
  let z' := z + 719468 in
  let era := z' / 146097 in
  let doe := z' - era * 146097 in
  let yoe := (doe - doe / 1460 + doe / 36524 - doe / 146096) / 365 in
  let doy := doe - (365 * yoe + yoe / 4 - yoe / 100) in
  let mp := (5 * doy + 2) / 153 in
  let d := doy - (153 * mp + 2) / 5 + 1 in
  let m := if mp <? 10 then mp + 3 else mp - 9 in
  (yoe + era * 400 + (if m <=? 2 then 1 else 0), m, d).

Definition field (from len : nat) (s : string) : option Z :=
  numeral (substring from len s).

Definition isChar (at' : nat) (c : string) (s : string) : bool :=
  String.eqb (substring at' 1 s) c.

Definition inRange (lo hi : Z) (v : Z) : bool := (lo <=? v) && (v <=? hi).

Definition Date_parse (s : string) : number :=
  let tail := substring 19 (String.length s - 19) s in
  let tailOk :=
    String.eqb tail "" || String.eqb tail "Z"
    || (isChar 0 "." tail
        && match field 1 3 tail with Some _ => true | None => false end
        && (String.eqb (substring 4 (String.length tail - 4) tail) ""
            || String.eqb (substring 4 (String.length tail - 4) tail) "Z")) in
  let millis := if isChar 0 "." tail then default 0 (field 1 3 tail) else 0 in
  match field 0 4 s, field 5 2 s, field 8 2 s,
        field 11 2 s, field 14 2 s, field 17 2 s with
  | Some y, Some mo, Some d, Some h, Some mi, Some sec =>
      if isChar 4 "-" s && isChar 7 "-" s && isChar 10 "T" s
         && isChar 13 ":" s && isChar 16 ":" s && tailOk
         && inRange 1 12 mo && inRange 1 31 d
         && inRange 0 23 h && inRange 0 59 mi && inRange 0 59 sec
      then Some (daysFromCivil y mo d * msPerDay
                 + h * msPerHour + mi * msPerMinute + sec * 1000 + millis)
      else None
  | _, _, _, _, _, _ => None
  end.

Definition digitChar (d : Z) : string :=
  String (ascii_of_N (Z.to_N (48 + d mod 10))) EmptyString.

Definition pad2 (n : Z) : string := digitChar (n / 10) ++ digitChar n.
Definition pad3 (n : Z) : string := digitChar (n / 100) ++ pad2 (n mod 100).
Definition pad4 (n : Z) : string := pad2 (n / 100) ++ pad2 (n mod 100).

(** [toISOString] for years 0000 to 9999. *)
Definition Date_toISOString (t : Z) : string :=
  let day := t / msPerDay in
  let ms := t mod msPerDay in
  let '(y, m, d) := civilFromDays day in
  pad4 y ++ "-" ++ pad2 m ++ "-" ++ pad2 d ++ "T"
    ++ pad2 (ms / msPerHour) ++ ":" ++ pad2 (ms mod msPerHour / msPerMinute)
    ++ ":" ++ pad2 (ms mod msPerMinute / 1000) ++ "." ++ pad3 (ms mod 1000) ++ "Z".

End RefHost.

Definition utcHost : Host :=
  {| OWNER_TIMEZONE := None;
     tzOffsetMs := 0;
     Date_parse := RefHost.Date_parse;
     Date_toISOString := RefHost.Date_toISOString;
     Number := RefHost.Number;
     JSON_parse := RefHost.JSON_parse |}.

(** Providers that accept every call; a created event gets the id [evt-new]. *)
Definition obligingServices : Services :=
  {| events_patch := fun _ _ => true;
     events_insert := fun _ =>
       Some {| Insert.id := "evt-new";
               Insert.htmlLink := "https://calendar/evt-new";
               Insert.videoEntryPoint := None |};
     events_cancel := fun _ => true;
     remote_tool := fun _ _ _ => Ok (OutRemote "{}") |}.

(** Providers whose [events.patch] always rejects (the event is gone). *)
Definition staleServices : Services :=
  {| events_patch := fun _ _ => false;
     events_insert := fun _ =>
       Some {| Insert.id := "evt-new";
               Insert.htmlLink := "https://calendar/evt-new";
               Insert.videoEntryPoint := None |};
     events_cancel := fun _ => true;
     remote_tool := fun _ _ _ => Ok (OutRemote "{}") |}.

(* ===================================================================== *)
(** ** Vocabulary of the statements                                      *)
(* ===================================================================== *)

(** Sample data: one stored conversation with proposed slots on file. *)
Definition sampleSlot : TimeSlot :=
  {| start := "2024-01-02T10:00:00.000Z"; end_ := "2024-01-02T10:30:00.000Z" |}.

Definition sampleRow : Row.t :=
  {| Row.id := 1;
     Row.thread_id := "thr-1";
     Row.state := "awaiting_confirmation";
     Row.proposed_slots := Some [sampleSlot];
     Row.requester_email := "ada@example.org";
     Row.requester_name := Some "Ada";
     Row.attendee_email := Some "grace@example.org";
     Row.meeting_title := Some "Intro call";
     Row.meeting_duration_minutes := Some 30;
     Row.calendar_event_id := Some "evt-A";
     Row.created_at := "2024-01-01 08:00:00";
     Row.updated_at := "2024-01-01 09:00:00" |}.

Definition sampleDb : Database :=
  {| preferences := ∅;
     threads := {[ "thr-1" := sampleRow ]};
     threads_seq := 1 |}.

(** The write [{ threadId, state }] with every other field absent. *)
Definition stateOnly (threadId state : string) : Params.t :=
  {| Params.threadId := Some threadId;
     Params.state := Some state;
     Params.requesterEmail := None;
     Params.requesterName := None;
     Params.attendeeEmail := None;
     Params.meetingTitle := None;
     Params.meetingDurationMinutes := None;
     Params.proposedSlots := None;
     Params.calendarEventId := None |}.

Section ThreadStoreVocabulary.

Variable now : string.

(** The row on file after an upsert that carries both mandatory values. *)
Definition upsertedRow (db : Database) (params : Params.t) (tid st : string)
    : Row.t :=
  match threads db !! tid with
  | Some old => do_update now old (excluded_row now db tid st params)
  | None => excluded_row now db tid st params
  end.

(** The row that C3 announces: only [state] and [updated_at] differ. *)
Definition withStateAndTimestamp (old : Row.t) (st : string) : Row.t :=
  {| Row.id := Row.id old;
     Row.thread_id := Row.thread_id old;
     Row.state := st;
     Row.proposed_slots := Row.proposed_slots old;
     Row.requester_email := Row.requester_email old;
     Row.requester_name := Row.requester_name old;
     Row.attendee_email := Row.attendee_email old;
     Row.meeting_title := Row.meeting_title old;
     Row.meeting_duration_minutes := Row.meeting_duration_minutes old;
     Row.calendar_event_id := Row.calendar_event_id old;
     Row.created_at := Row.created_at old;
     Row.updated_at := now |}.

(** C3 as the specification words it, at one database and one
    conversation. *)
Definition stateOnlyWriteTouchesOnlyStateAndTimestamp
    (db : Database) (tid : string) : Prop :=
  forall old, threads db !! tid = Some old ->
    threads (snd (upsertThread now (stateOnly tid "booked") db)) !! tid
    = Some (withStateAndTimestamp old "booked").

(** What the statement does instead: the proposed slots are cleared too. *)
Definition withStateClearedSlots (old : Row.t) (st : string) : Row.t :=
  {| Row.id := Row.id old;
     Row.thread_id := Row.thread_id old;
     Row.state := st;
     Row.proposed_slots := None;
     Row.requester_email := Row.requester_email old;
     Row.requester_name := Row.requester_name old;
     Row.attendee_email := Row.attendee_email old;
     Row.meeting_title := Row.meeting_title old;
     Row.meeting_duration_minutes := Row.meeting_duration_minutes old;
     Row.calendar_event_id := Row.calendar_event_id old;
     Row.created_at := Row.created_at old;
     Row.updated_at := now |}.

(** C4 as the specification words it, at one write: a state outside the
    four recognized values, or a missing required field, has the write
    rejected and the file left as it was. *)
Definition inconsistentWrite (params : Params.t) : Prop :=
  (exists st, Params.state params = Some st /\ ~ In st ThreadState)
  \/ Params.threadId params = None
  \/ Params.state params = None.

Definition inconsistentWriteIsRejected (db : Database) (params : Params.t) : Prop :=
  inconsistentWrite params ->
  exists e, upsertThread now params db = (Throw e, db).

End ThreadStoreVocabulary.


(** The event reference on file for a conversation. *)
Definition storedEventId (db : Database) (tid : string) : option string :=
  threads db !! tid ≫= Row.calendar_event_id.

(** The candidate existing event reference of a booking: the one supplied
    explicitly, else the one stored on the thread. *)
Definition candidateEventId (toolInput : gmap string Value) (w : World)
    (tid : string) : option string :=
  nullish (asString (toolInput !! "existingEventId")) (storedEventId (db w) tid).

(** The properties of a tool input have the shape that the casts of
    [executeTool] name, or are absent. *)
Definition stringOrAbsent (v : option Value) : bool :=
  match v with
  | None | Some (VString _) => true
  | _ => false
  end.
Definition slotsOrAbsent (v : option Value) : bool :=
  match v with
  | None | Some (VSlots _) => true
  | _ => false
  end.
Definition numberOrAbsent (v : option Value) : bool :=
  match v with
  | None | Some (VNumber _) => true
  | _ => false
  end.

(** The input of [book_meeting]. *)
Definition bookingInputTyped (toolInput : gmap string Value) : Prop :=
  forallb (fun k => stringOrAbsent (toolInput !! k))
    ["title"; "start"; "end"; "attendeeEmail"; "attendeeName"; "description";
     "existingEventId"] = true.

(** The input of [update_thread_state]. *)
Definition stateUpdateTyped (toolInput : gmap string Value) : Prop :=
  stringOrAbsent (toolInput !! "state")
  && slotsOrAbsent (toolInput !! "proposedSlots")
  && stringOrAbsent (toolInput !! "meetingTitle")
  && numberOrAbsent (toolInput !! "meetingDurationMinutes") = true.

Definition isInsert (c : CalendarCall) : bool :=
  match c with CallInsert _ => true | _ => false end.

(** The [created] flag of the specified booking outcome. [BookingResult]
    has no such field; it is read off the calendar: whether the tool call
    inserted an event. *)
Definition created (before after : World) : bool :=
  existsb isInsert (drop (length (calendarCalls before)) (calendarCalls after)).

Section ReconcilerVocabulary.

Context `{Host} `{Services}.
Variable now : string.

(** C2 as the specification words it, at one booking. *)
Definition reconcileAsSpecified (toolInput : gmap string Value)
    (ctx : AgentContext) (w : World) : Prop :=
  let tid := threadId (email ctx) in
  forall c, candidateEventId toolInput w tid = Some c ->
    (events_patch c (patchBody (updateParams toolInput)) = true ->
     exists b,
       fst (bookMeeting now toolInput ctx w) = Ok b
       /\ created w (snd (bookMeeting now toolInput ctx w)) = false
       /\ storedEventId (db (snd (bookMeeting now toolInput ctx w))) tid
          = storedEventId (db w) tid)
    /\ (events_patch c (patchBody (updateParams toolInput)) = false ->
        exists b,
          fst (bookMeeting now toolInput ctx w) = Ok b
          /\ created w (snd (bookMeeting now toolInput ctx w)) = true
          /\ storedEventId (db (snd (bookMeeting now toolInput ctx w))) tid
             = Some (eventId b)).

End ReconcilerVocabulary.

(** A reschedule request naming the event [evt-B] explicitly, on the
    conversation of [sampleDb], whose stored reference is [evt-A]. *)
Definition rescheduleInput : gmap string Value :=
  {[ "title" := VString "Intro call";
     "start" := VString "2024-01-04T15:00:00.000Z";
     "end" := VString "2024-01-04T15:30:00.000Z";
     "attendeeEmail" := VString "grace@example.org";
     "existingEventId" := VString "evt-B" ]}.

(** The same request without an explicit event reference. *)
Definition rebookInput : gmap string Value :=
  {[ "title" := VString "Intro call";
     "start" := VString "2024-01-04T15:00:00.000Z";
     "end" := VString "2024-01-04T15:30:00.000Z";
     "attendeeEmail" := VString "grace@example.org" ]}.

Definition sampleContext : AgentContext :=
  {| email := {| messageId := "msg-7"; threadId := "thr-1"; subject := "Re: Intro call" |};
     thread := Some (rowToThread sampleRow);
     conversationHistory := "" |}.

Definition sampleWorld : World :=
  {| db := sampleDb; calendarCalls := [] |}.

(** A conversation that has been booked: state [booked], event [evt-A]. *)
Definition bookedRow : Row.t :=
  {| Row.id := 1;
     Row.thread_id := "thr-1";
     Row.state := "booked";
     Row.proposed_slots := None;
     Row.requester_email := "ada@example.org";
     Row.requester_name := Some "Ada";
     Row.attendee_email := Some "grace@example.org";
     Row.meeting_title := Some "Intro call";
     Row.meeting_duration_minutes := Some 30;
     Row.calendar_event_id := Some "evt-A";
     Row.created_at := "2024-01-01 08:00:00";
     Row.updated_at := "2024-01-02 09:00:00" |}.

Definition bookedWorld : World :=
  {| db := {| preferences := ∅; threads := {[ "thr-1" := bookedRow ]}; threads_seq := 1 |};
     calendarCalls := [] |}.

Definition cancelInput : gmap string Value :=
  {[ "eventId" := VString "evt-A" ]}.

(** The preferences of a store that holds only the defaults, read on
    [utcHost]. *)
Definition defaultPreferences : Preferences :=
  {| workingHoursStart := "09:00";
     workingHoursEnd := "18:00";
     timezone := "America/Los_Angeles";
     defaultMeetingDurationMinutes := Some 30;
     bufferBeforeMinutes := Some 5;
     bufferAfterMinutes := Some 5;
     preferredPlatform := "Google Meet";
     maxMeetingsPerDay := Some 6;
     noMeetingDays := [0; 6];
     customRules := "" |}.

Section AvailabilityVocabulary.

Context `{Host}.

(** The interval from [s] to [e], as the engine prints it. *)
Definition slotOf (s e : Z) : TimeSlot :=
  {| start := Date_toISOString s; end_ := Date_toISOString e |}.

(** Two intervals overlap: each starts before the other ends. *)
Definition overlap (s e s' e' : Z) : Prop := s < e' /\ s' < e.

(** The interval lasts at least [durationMinutes]. *)
Definition longEnough (durationMinutes : number) (s e : Z) : Prop :=
  exists d, durationMinutes = Some d /\ d * 60 * 1000 <= e - s.

Definition startHourMin (params : FreeSlots.params) : number * number :=
  splitHourMin (workingHoursStart (FreeSlots.prefs params)).
Definition endHourMin (params : FreeSlots.params) : number * number :=
  splitHourMin (workingHoursEnd (FreeSlots.prefs params)).

(** The working-hour bounds of the local day of [day]. *)
Definition dayStartOf (params : FreeSlots.params) (day : Z) : Date :=
  setHours (Some day) (fst (startHourMin params)) (snd (startHourMin params)).
Definition dayEndOf (params : FreeSlots.params) (day : Z) : Date :=
  setHours (Some day) (fst (endHourMin params)) (snd (endHourMin params)).

(** [day] is visited by the day loop and is not a no-meeting day. *)
Definition loopDay (params : FreeSlots.params) (day : Z) : Prop :=
  exists first last (k : nat),
    Date_parse (FreeSlots.startDate params ++ "T00:00:00") = Some first
    /\ Date_parse (FreeSlots.endDate params ++ "T00:00:00") = Some last
    /\ day = first + Z.of_nat k * msPerDay
    /\ day <= last
    /\ includes_day (noMeetingDays (FreeSlots.prefs params)) (getDay (Some day)) = false.

(** [w] is a free window of the day [day]: it lies within the working
    hours, lasts long enough, and meets no busy block, clipped or not. *)
Definition freeWindowOn (params : FreeSlots.params) (day : Z) (w : TimeSlot) : Prop :=
  exists ds de s e,
    dayStartOf params day = Some ds
    /\ dayEndOf params day = Some de
    /\ w = slotOf s e
    /\ ds <= s /\ s < e /\ e <= de
    /\ longEnough (FreeSlots.durationMinutes params) s e
    /\ (forall b cs ce,
          In b (FreeSlots.busyBlocks params) ->
          overlapsDay (Some ds) (Some de) (toDates b) = true ->
          Block.start (clamp (Some ds) (Some de) (toDates b)) = Some cs ->
          Block.end_ (clamp (Some ds) (Some de) (toDates b)) = Some ce ->
          ~ overlap s e cs ce)
    /\ (forall b bs be,
          In b (FreeSlots.busyBlocks params) ->
          Date_parse (start b) = Some bs ->
          Date_parse (end_ b) = Some be ->
          ~ overlap s e bs be).

Definition isFreeWindow (params : FreeSlots.params) (w : TimeSlot) : Prop :=
  exists day, loopDay params day /\ freeWindowOn params day w.

(** Two preference records that differ at most in the two buffers. *)
Definition differOnlyInBuffers (p q : Preferences) : Prop :=
  workingHoursStart p = workingHoursStart q
  /\ workingHoursEnd p = workingHoursEnd q
  /\ timezone p = timezone q
  /\ defaultMeetingDurationMinutes p = defaultMeetingDurationMinutes q
  /\ preferredPlatform p = preferredPlatform q
  /\ maxMeetingsPerDay p = maxMeetingsPerDay q
  /\ noMeetingDays p = noMeetingDays q
  /\ customRules p = customRules q.

(** Minutes since local midnight of a working-hours bound. *)
Definition minutesOfDay (hm : number * number) : number :=
  match hm with
  | (Some h, Some m) => Some (h * 60 + m)
  | _ => None
  end.

End AvailabilityVocabulary.

(** The scenario of the specification: Tuesday 2 January 2024, working
    hours 09:00 to 18:00, week-ends excluded, one meeting from 10:00 to
    11:00, thirty minutes asked for. *)
Definition tuesdayParams : FreeSlots.params :=
  {| FreeSlots.busyBlocks :=
       [ {| start := "2024-01-02T10:00:00Z"; end_ := "2024-01-02T11:00:00Z" |} ];
     FreeSlots.startDate := "2024-01-02";
     FreeSlots.endDate := "2024-01-02";
     FreeSlots.prefs := defaultPreferences;
     FreeSlots.durationMinutes := Some 30 |}.

(** Blocks whose two dates are valid, and their time values. *)
Definition startOf (b : Block.t) : Z := default 0 (Block.start b).
Definition endOf (b : Block.t) : Z := default 0 (Block.end_ b).
Definition validBlock (b : Block.t) : Prop :=
  b = {| Block.start := Some (startOf b); Block.end_ := Some (endOf b) |}.
Definition startsNoLater (a b : Block.t) : Prop := startOf a <= startOf b.

Section AvailabilityGhosts.

Context `{Host}.

(** [minWindowMs] *)
Definition minWindowMsOf (params : FreeSlots.params) : number :=
  minWindowMs (FreeSlots.durationMinutes params).

(** What [pushIfLongEnough] appends for two valid dates. *)
Definition emitted (minWindowMs : number) (x y : Z) : list TimeSlot :=
  if ge (Some (y - x)) minWindowMs then [slotOf x y] else [].

(** [w] is a window of the day [day], stated on the blocks of that day. *)
Definition dayWindow (busy : list TimeSlot) (startHour startMin endHour endMin minWindowMs : number)
    (day : Z) (w : TimeSlot) : Prop :=
  exists ds de s e,
    setHours (Some day) startHour startMin = Some ds
    /\ setHours (Some day) endHour endMin = Some de
    /\ w = slotOf s e
    /\ ds <= s /\ s < e /\ e <= de
    /\ (exists m, minWindowMs = Some m /\ m <= e - s)
    /\ Forall (fun b => ~ overlap s e (startOf b) (endOf b))
              (blockedOfDay busy (Some ds) (Some de)).

End AvailabilityGhosts.

(** Working hours that end before they start. *)
Definition malformedParams : FreeSlots.params :=
  {| FreeSlots.busyBlocks :=
       [ {| start := "2024-01-02T08:00:00Z"; end_ := "2024-01-02T19:00:00Z" |} ];
     FreeSlots.startDate := "2024-01-01";
     FreeSlots.endDate := "2024-01-05";
     FreeSlots.prefs :=
       {| workingHoursStart := "18:00";
          workingHoursEnd := "09:00";
          timezone := "UTC";
          defaultMeetingDurationMinutes := Some 30;
          bufferBeforeMinutes := Some 5;
          bufferAfterMinutes := Some 5;
          preferredPlatform := "Google Meet";
          maxMeetingsPerDay := Some 6;
          noMeetingDays := [0; 6];
          customRules := "" |};
     FreeSlots.durationMinutes := Some 30 |}.

(** The default preferences with buffers of an hour. *)
Definition wideBuffers : Preferences :=
  {| workingHoursStart := "09:00";
     workingHoursEnd := "18:00";
     timezone := "America/Los_Angeles";
     defaultMeetingDurationMinutes := Some 30;
     bufferBeforeMinutes := Some 60;
     bufferAfterMinutes := Some 60;
     preferredPlatform := "Google Meet";
     maxMeetingsPerDay := Some 6;
     noMeetingDays := [0; 6];
     customRules := "" |}.

(** A write on the stored conversation of [sampleDb] that carries a new
    title only. *)
Definition titleWrite : Params.t :=
  {| Params.threadId := Some "thr-1";
     Params.state := Some "awaiting_confirmation";
     Params.requesterEmail := None;
     Params.requesterName := None;
     Params.attendeeEmail := None;
     Params.meetingTitle := Some "Design review";
     Params.meetingDurationMinutes := None;
     Params.proposedSlots := None;
     Params.calendarEventId := None |}.


(** A request on the default preferences. *)
Definition scenario (busy : list TimeSlot) (startDate endDate : string)
    (minutes : Z) : FreeSlots.params :=
  {| FreeSlots.busyBlocks := busy;
     FreeSlots.startDate := startDate;
     FreeSlots.endDate := endDate;
     FreeSlots.prefs := defaultPreferences;
     FreeSlots.durationMinutes := Some minutes |}.

(** A booking request on a conversation that has no event yet. *)
Definition firstBookingWorld : World :=
  {| db := {| preferences := ∅; threads := ∅; threads_seq := 0 |};
     calendarCalls := [] |}.

(* ===================================================================== *)
(** ** [src/index.ts]: the webhook's thread bootstrap                    *)
(* ===================================================================== *)

Section Webhook.

Variable now : string.

(** [let thread = getThread(email.threadId); if (!thread) thread =
    upsertThread({ threadId, state: "new", requesterEmail: email.from.email,
    requesterName: email.from.name ?? null })] *)
Definition lookupOrBootstrap (threadId fromEmail : string)
    (fromName : option string) : M Database (option Thread.t) :=
  (thread <- getThread threadId ;;
   match thread with
   | Some _ => ret thread
   | None =>
       upsertThread now
         {| Params.threadId := Some threadId;
            Params.state := Some "new";
            Params.requesterEmail := Some fromEmail;
            Params.requesterName := fromName;
            Params.attendeeEmail := None;
            Params.meetingTitle := None;
            Params.meetingDurationMinutes := None;
            Params.proposedSlots := None;
            Params.calendarEventId := None |}
   end)%js.

End Webhook.

(* ===================================================================== *)
(** ** Vocabulary of the further statements                              *)
(* ===================================================================== *)

(** The shape that the schema of [threads] imposes: [thread_id] is UNIQUE
    (a row sits under its own conversation identifier), [id] is an
    AUTOINCREMENT primary key (positive, at most the counter, never shared). *)
Definition consistentStore (d : Database) : Prop :=
  0 <= threads_seq d
  /\ (forall tid row, threads d !! tid = Some row ->
        Row.thread_id row = tid /\ 1 <= Row.id row <= threads_seq d)
  /\ (forall t1 t2 r1 r2,
        threads d !! t1 = Some r1 -> threads d !! t2 = Some r2 ->
        Row.id r1 = Row.id r2 -> t1 = t2).

(** The first value that a list of bindings gives to a key. *)
Definition firstBinding (key : string) (l : list (string * string)) : option string :=
  snd <$> List.find (fun kv => String.eqb (fst kv) key) l.

Section PreferenceVocabulary.

Context `{Host}.

(** The preference record with the field named [key] replaced by what
    [getPreferences] reads from the text [value]; [days] is the parsed
    value, used for [noMeetingDays] only. *)
Definition withField (key value : string) (days : list Z) (p : Preferences)
    : Preferences :=
  {| workingHoursStart :=
       if String.eqb key "workingHoursStart" then value else workingHoursStart p;
     workingHoursEnd :=
       if String.eqb key "workingHoursEnd" then value else workingHoursEnd p;
     timezone := if String.eqb key "timezone" then value else timezone p;
     defaultMeetingDurationMinutes :=
       if String.eqb key "defaultMeetingDurationMinutes" then Number value
       else defaultMeetingDurationMinutes p;
     bufferBeforeMinutes :=
       if String.eqb key "bufferBeforeMinutes" then Number value
       else bufferBeforeMinutes p;
     bufferAfterMinutes :=
       if String.eqb key "bufferAfterMinutes" then Number value
       else bufferAfterMinutes p;
     preferredPlatform :=
       if String.eqb key "preferredPlatform" then value else preferredPlatform p;
     maxMeetingsPerDay :=
       if String.eqb key "maxMeetingsPerDay" then Number value
       else maxMeetingsPerDay p;
     noMeetingDays :=
       if String.eqb key "noMeetingDays" then days else noMeetingDays p;
     customRules := customRules p |}.

End PreferenceVocabulary.

(** Providers that reject every write to the calendar. *)
Definition failingServices : Services :=
  {| events_patch := fun _ _ => false;
     events_insert := fun _ => None;
     events_cancel := fun _ => false;
     remote_tool := fun _ _ _ => Throw ApiError |}.

(** A booking request whose [existingEventId] is the empty string. *)
Definition blankIdInput : gmap string Value :=
  {[ "title" := VString "Intro call";
     "start" := VString "2024-01-04T15:00:00.000Z";
     "end" := VString "2024-01-04T15:30:00.000Z";
     "attendeeEmail" := VString "grace@example.org";
     "existingEventId" := VString "" ]}.

(** A state update that also carries fields the tool does not forward. *)
Definition nosyStateInput : gmap string Value :=
  {[ "state" := VString "booked";
     "calendarEventId" := VString "evt-Z";
     "attendeeEmail" := VString "mallory@example.org" ]}.

(* ===================================================================== *)
(** ** The windows as intervals                                          *)
(* ===================================================================== *)

(** The free windows before they are printed: the same walk as
    [walkGaps], [dayWindows] and [dayLoop], on time values. The engine is
    proved to return exactly the printed form of [windowsZ]. *)
Section Intervals.

Context `{Host}.

Definition slotOfPair (iv : Z * Z) : TimeSlot := slotOf (fst iv) (snd iv).

(** The gap from [x] to [y], kept when it is long enough. *)
Definition gapZ (minMs : number) (x y : Z) : list (Z * Z) :=
  if ge (Some (y - x)) minMs then [(x, y)] else [].

Fixpoint gapsZ (minMs : number) (blocked : list Block.t) (cursor : Z)
    : list (Z * Z) :=
  match blocked with
  | [] => []
  | b :: rest =>
      ((if cursor <? startOf b then gapZ minMs cursor (startOf b) else [])
         ++ gapsZ minMs rest (if cursor <? endOf b then endOf b else cursor))%list
  end.

Fixpoint cursorZ (blocked : list Block.t) (cursor : Z) : Z :=
  match blocked with
  | [] => cursor
  | b :: rest => cursorZ rest (if cursor <? endOf b then endOf b else cursor)
  end.

Definition dayZ (busy : list TimeSlot)
    (startHour startMin endHour endMin minMs : number) (day : Z) : list (Z * Z) :=
  match setHours (Some day) startHour startMin,
        setHours (Some day) endHour endMin with
  | Some ds, Some de =>
      let blocked := blockedOfDay busy (Some ds) (Some de) in
      (gapsZ minMs blocked ds
         ++ (if cursorZ blocked ds <? de
             then gapZ minMs (cursorZ blocked ds) de else []))%list
  | _, _ => []
  end.

Fixpoint loopZ (fuel : nat) (busy : list TimeSlot) (noMeeting : list Z)
    (startHour startMin endHour endMin minMs : number)
    (day last : Z) : list (Z * Z) :=
  if day <=? last then
    match fuel with
    | O => []
    | S fuel' =>
        ((if includes_day noMeeting (getDay (Some day)) then []
          else dayZ busy startHour startMin endHour endMin minMs day)
           ++ match setDate_next (Some day) with
              | Some next =>
                  loopZ fuel' busy noMeeting startHour startMin endHour endMin
                        minMs next last
              | None => []
              end)%list
    end
  else [].

Definition windowsZ (params : FreeSlots.params) : list (Z * Z) :=
  match Date_parse (FreeSlots.startDate params ++ "T00:00:00"),
        Date_parse (FreeSlots.endDate params ++ "T00:00:00") with
  | Some first, Some last =>
      loopZ (daysBetween (Some first) (Some last))
        (FreeSlots.busyBlocks params)
        (noMeetingDays (FreeSlots.prefs params))
        (fst (startHourMin params)) (snd (startHourMin params))
        (fst (endHourMin params)) (snd (endHourMin params))
        (minWindowMsOf params) first last
  | _, _ => []
  end.

(** Intervals in order of time, none empty, none reaching into the next. *)
Definition chronological (ivs : list (Z * Z)) : Prop :=
  Forall (fun iv => fst iv < snd iv) ivs
  /\ StronglySorted (fun a b => snd a <= fst b) ivs.

End Intervals.

(** The scenario of [tuesdayParams] asked for backwards: from Wednesday
    to Tuesday. *)
Definition backwardsParams : FreeSlots.params :=
  {| FreeSlots.busyBlocks := FreeSlots.busyBlocks tuesdayParams;
     FreeSlots.startDate := "2024-01-03";
     FreeSlots.endDate := "2024-01-02";
     FreeSlots.prefs := defaultPreferences;
     FreeSlots.durationMinutes := Some 30 |}.

(* ===================================================================== *)
(** ** [src/tools/calendar.ts], reading the calendars                    *)
(* ===================================================================== *)

(** An entry of [calendarList.list]. *)
Module CalendarListEntry.
Record t : Type := { id : string; accessRole : option string }.
End CalendarListEntry.

(** [event.attendees[i]]; [self] is the truthiness of the field. *)
Module EventAttendee.
Record t : Type := { self : bool; responseStatus : option string }.
End EventAttendee.

(** An event of [events.list]. [start_dateTime] is [event.start?.dateTime],
    absent on an all-day event; [end_dateTime] is [event.end!.dateTime!],
    which the source asserts to be there. *)
Module Event.
Record t : Type := {
  start_dateTime : option string;
  end_dateTime : string;
  status : option string;
  attendees : option (list EventAttendee.t);
}.
End Event.

(** [AvailabilityResult] *)
Module AvailabilityResult.
Record t : Type := { freeSlots : list TimeSlot; timezone : string }.
End AvailabilityResult.

(** The two read calls of the Google Calendar client. [None] is a response
    without [items]. *)
Class CalendarReader : Type := {
  (* calendar.calendarList.list() *)
  calendarList_list : result (option (list CalendarListEntry.t));
  (* calendar.events.list({ calendarId, timeMin, timeMax, ... }) *)
  events_list : string -> string -> string -> result (option (list Event.t));
}.

(** [await] of a call that may reject, and a [map] whose callbacks may. *)
Definition andThen {A B} (r : result A) (k : A -> result B) : result B :=
  match r with
  | Ok a => k a
  | Throw e => Throw e
  | OutOfFuel => OutOfFuel
  end.

Fixpoint forEach {A B} (f : A -> result B) (l : list A) : result (list B) :=
  match l with
  | [] => Ok []
  | x :: rest =>
      andThen (f x) (fun y => andThen (forEach f rest) (fun ys => Ok (y :: ys)))
  end.

Section ReadingCalendars.

Context `{Host} `{CalendarReader}.

(** [.filter((cal) => cal.accessRole !== "freeBusyReader").map((cal) => cal.id!)] *)
Definition readable (cal : CalendarListEntry.t) : bool :=
  match CalendarListEntry.accessRole cal with
  | Some role => negb (String.eqb role "freeBusyReader")
  | None => true
  end.

Definition calendarIdsOf (items : option (list CalendarListEntry.t)) : list string :=
  map CalendarListEntry.id (List.filter readable (default [] items)).

(** [event.attendees?.find((a) => a.self)?.responseStatus] *)
Definition myResponse (event : Event.t) : option string :=
  match Event.attendees event with
  | Some l =>
      match List.find EventAttendee.self l with
      | Some a => EventAttendee.responseStatus a
      | None => None
      end
  | None => None
  end.

(** The filter of the busy blocks: all-day, cancelled and declined events
    are skipped. *)
Definition blocksTime (event : Event.t) : bool :=
  if negb (truthy (Event.start_dateTime event)) then false
  else if match Event.status event with
          | Some s => String.eqb s "cancelled"
          | None => false
          end then false
  else if match myResponse event with
          | Some r => String.eqb r "declined"
          | None => false
          end then false
  else true.

(** [.map((event) => ({ start: event.start!.dateTime!, end: event.end!.dateTime! }))] *)
Definition busyBlockOf (event : Event.t) : TimeSlot :=
  {| start := default "" (Event.start_dateTime event);
     end_ := Event.end_dateTime event |}.

(** The first half of [toolGetAvailability]: [allEvents.flat()]. The
    requests of [Promise.all] are made in the order of the calendars; the
    [toISOString] of an Invalid Date throws in the first callback.
    [Promise.all] rejects with the rejection that arrives first: the model
    keeps the first in the order of the calendars, and no theorem says
    which one it is. *)
Definition fetchEvents (startDate endDate : string) : result (list Event.t) :=
  let timeMin := Date_parse (startDate ++ "T00:00:00") in
  let timeMax := Date_parse (endDate ++ "T23:59:59") in
  andThen calendarList_list (fun items =>
  let calendarIds := calendarIdsOf items in
  andThen
    (forEach (fun calId =>
       andThen (toISOString timeMin) (fun tmin =>
       andThen (toISOString timeMax) (fun tmax =>
       andThen (events_list calId tmin tmax) (fun res =>
       Ok (default [] res)))))
       calendarIds)
    (fun allEvents => Ok (concat allEvents))).

Definition availabilityParams (events : list Event.t) (startDate endDate : string)
    (prefs : Preferences) (durationMinutes : number) : FreeSlots.params :=
  {| FreeSlots.busyBlocks := map busyBlockOf (List.filter blocksTime events);
     FreeSlots.startDate := startDate;
     FreeSlots.endDate := endDate;
     FreeSlots.prefs := prefs;
     FreeSlots.durationMinutes := durationMinutes |}.

Definition toolGetAvailability (startDate endDate : string) (prefs : Preferences)
    (durationMinutes : number) : result AvailabilityResult.t :=
  andThen (fetchEvents startDate endDate) (fun events =>
  andThen (computeFreeSlots
             (availabilityParams events startDate endDate prefs durationMinutes))
    (fun freeSlots =>
  Ok {| AvailabilityResult.freeSlots := freeSlots;
        AvailabilityResult.timezone := timezone prefs |})).

End ReadingCalendars.

(** A calendar account: one calendar of the owner with two events on
    Tuesday 2 January 2024, a meeting from 10:00 to 11:00 and a declined
    one from 14:00 to 15:00, and a subscription without event details. *)
Definition acceptedEvent : Event.t :=
  {| Event.start_dateTime := Some "2024-01-02T10:00:00Z";
     Event.end_dateTime := "2024-01-02T11:00:00Z";
     Event.status := Some "confirmed";
     Event.attendees := None |}.

Definition declinedEvent : Event.t :=
  {| Event.start_dateTime := Some "2024-01-02T14:00:00Z";
     Event.end_dateTime := "2024-01-02T15:00:00Z";
     Event.status := Some "confirmed";
     Event.attendees :=
       Some [ {| EventAttendee.self := false;
                 EventAttendee.responseStatus := Some "accepted" |};
              {| EventAttendee.self := true;
                 EventAttendee.responseStatus := Some "declined" |} ] |}.

Definition sampleReader : CalendarReader :=
  {| calendarList_list :=
       Ok (Some [ {| CalendarListEntry.id := "primary";
                     CalendarListEntry.accessRole := Some "owner" |};
                  {| CalendarListEntry.id := "holidays";
                     CalendarListEntry.accessRole := Some "freeBusyReader" |} ]);
     events_list := fun calId _ _ =>
       if String.eqb calId "primary" then Ok (Some [acceptedEvent; declinedEvent])
       else Throw ApiError |}.

(* ===================================================================== *)
(** ** [src/tools/email.ts], [escapeHtml]                                *)
(* ===================================================================== *)

(** [s.replace(/c/g, by)] for a one-character pattern. *)
Fixpoint replaceAll (c : ascii) (by' : string) (s : string) : string :=
  match s with
  | EmptyString => EmptyString
  | String a s' =>
      if Ascii.eqb a c then by' ++ replaceAll c by' s'
      else String a (replaceAll c by' s')
  end.

Definition escapeHtml (str : string) : string :=
  replaceAll ">" "&gt;" (replaceAll "<" "&lt;" (replaceAll "&" "&amp;" str)).

(** What the three passes make of one character. *)
Definition escapeChar (a : ascii) : string :=
  if Ascii.eqb a "&" then "&amp;"
  else if Ascii.eqb a "<" then "&lt;"
  else if Ascii.eqb a ">" then "&gt;"
  else String a EmptyString.

(* ===================================================================== *)
(** ** [src/agent.ts], the recipients of [send_email]                    *)
(* ===================================================================== *)

(** [{ email, name? }] *)
Module Address.
Record t : Type := { email : string; name : option string }.
End Address.

(** The address fields of [IncomingEmail]. *)
Module Envelope.
Record t : Type := {
  from : Address.t;
  to : list Address.t;
  cc : option (list Address.t);
}.
End Envelope.

Section Recipients.

(** [String.prototype.toLowerCase] and [process.env.AGENT_EMAIL]. *)
Variable toLowerCase : string -> string.
Variable AGENT_EMAIL : option string.

Definition agentEmail : string := toLowerCase (default "" AGENT_EMAIL).

Definition allParticipants (email : Envelope.t) : list Address.t :=
  List.filter
    (fun a => negb (String.eqb (toLowerCase (Address.email a)) agentEmail))
    (Envelope.to email ++ default [] (Envelope.cc email))%list.

Definition external (email : Envelope.t) : list Address.t :=
  List.filter
    (fun a => negb (String.eqb (toLowerCase (Address.email a))
                               (toLowerCase (Address.email (Envelope.from email)))))
    (allParticipants email).

Definition toAddresses (email : Envelope.t) : list Address.t :=
  if (0 <? Z.of_nat (List.length (external email)))
  then external email else [Envelope.from email].

Definition ccAddresses (email : Envelope.t) : list Address.t :=
  if (0 <? Z.of_nat (List.length (external email)))
  then [Envelope.from email] else [].

(** [a.name ? `${a.name} <${a.email}>` : a.email] *)
Definition display (a : Address.t) : string :=
  if truthy (Address.name a)
  then default "" (Address.name a) ++ " <" ++ Address.email a ++ ">"
  else Address.email a.

End Recipients.
(* ===================================================================== *)
(** * Properties                                                          *)
(* ===================================================================== *)

(** ** The thread store *)

Section ThreadStoreFacts.

Variable now : string.

Lemma run_upsert_conflict (db : Database) (params : Params.t)
    (tid st : string) (old : Row.t) :
  Params.threadId params = Some tid ->
  Params.state params = Some st ->
  threads db !! tid = Some old ->
  run_upsert now params db =
    (Ok tt, {| preferences := preferences db;
               threads := <[tid := do_update now old (excluded_row now db tid st params)]>
                            (threads db);
               threads_seq := threads_seq db + 1 |}).
Proof.
  intros Htid Hst Hold. unfold run_upsert. now rewrite Htid, Hst, Hold.
Qed.

Lemma run_upsert_fresh (db : Database) (params : Params.t) (tid st : string) :
  Params.threadId params = Some tid ->
  Params.state params = Some st ->
  threads db !! tid = None ->
  run_upsert now params db =
    (Ok tt, {| preferences := preferences db;
               threads := <[tid := excluded_row now db tid st params]> (threads db);
               threads_seq := threads_seq db + 1 |}).
Proof.
  intros Htid Hst Hnone. unfold run_upsert. now rewrite Htid, Hst, Hnone.
Qed.

(** Such an upsert always goes through, and [upsertThread] returns the
    row now on file. *)
Lemma upsertThread_stores (db : Database) (params : Params.t) (tid st : string) :
  Params.threadId params = Some tid ->
  Params.state params = Some st ->
  exists db',
    upsertThread now params db
    = (Ok (Some (rowToThread (upsertedRow now db params tid st))), db')
    /\ threads db' = <[tid := upsertedRow now db params tid st]> (threads db)
    /\ preferences db' = preferences db.
Proof.
  intros Htid Hst. unfold upsertThread, bind, getThread, upsertedRow.
  destruct (threads db !! tid) as [old|] eqn:Hrow.
  - rewrite (run_upsert_conflict db params tid st old Htid Hst Hrow).
    rewrite Htid. cbn [default Datatypes.id threads].
    rewrite lookup_insert_eq. eexists. repeat split.
  - rewrite (run_upsert_fresh db params tid st Htid Hst Hrow).
    rewrite Htid. cbn [default Datatypes.id threads].
    rewrite lookup_insert_eq. eexists. repeat split.
Qed.

(** C1. An upsert on a conversation identifier already on file succeeds;
    every field the write omits keeps its stored value, while [state] and
    [proposedSlots] take the value of the write, an absent [proposedSlots]
    clearing the stored one. Supplied values of the coalesced fields
    overwrite, and no other row changes. *)
Theorem upsertThread_merge_by_field (db : Database) (params : Params.t)
    (tid st : string) (old : Row.t) :
  Params.threadId params = Some tid ->
  Params.state params = Some st ->
  threads db !! tid = Some old ->
  exists new db',
    upsertThread now params db = (Ok (Some (rowToThread new)), db')
    /\ threads db' !! tid = Some new
    (* always replaced *)
    /\ Row.state new = st
    /\ Row.proposed_slots new = Params.proposedSlots params
    (* omitted: the stored value survives *)
    /\ (Params.requesterEmail params = None ->
        Row.requester_email new = Row.requester_email old)
    /\ (Params.requesterName params = None ->
        Row.requester_name new = Row.requester_name old)
    /\ (Params.attendeeEmail params = None ->
        Row.attendee_email new = Row.attendee_email old)
    /\ (Params.meetingTitle params = None ->
        Row.meeting_title new = Row.meeting_title old)
    /\ (Params.meetingDurationMinutes params = None ->
        Row.meeting_duration_minutes new = Row.meeting_duration_minutes old)
    /\ (Params.calendarEventId params = None ->
        Row.calendar_event_id new = Row.calendar_event_id old)
    (* supplied: the new value is stored *)
    /\ (forall v, Params.requesterName params = Some v ->
        Row.requester_name new = Some v)
    /\ (forall v, Params.attendeeEmail params = Some v ->
        Row.attendee_email new = Some v)
    /\ (forall v, Params.meetingTitle params = Some v ->
        Row.meeting_title new = Some v)
    /\ (forall v, Params.meetingDurationMinutes params = Some v ->
        Row.meeting_duration_minutes new = Some v)
    /\ (forall v, Params.calendarEventId params = Some v ->
        Row.calendar_event_id new = Some v)
    (* never written by an update *)
    /\ Row.id new = Row.id old
    /\ Row.thread_id new = Row.thread_id old
    /\ Row.created_at new = Row.created_at old
    /\ Row.updated_at new = now
    (* the other conversations *)
    /\ (forall other, other <> tid -> threads db' !! other = threads db !! other).
Proof.
  intros Htid Hst Hold.
  destruct (upsertThread_stores db params tid st Htid Hst) as (db' & Hrun & Hthreads & _).
  unfold upsertedRow in *. rewrite Hold in *.
  exists (do_update now old (excluded_row now db tid st params)), db'.
  rewrite Hthreads, lookup_insert_eq. cbn.
  repeat split; try reflexivity; try assumption;
    try (intros E; now rewrite E); try (intros v E; now rewrite E).
  intros other Hne. now rewrite lookup_insert_ne.
Qed.

(** The requester address is the one column that an update never writes,
    supplied or not. *)
Lemma upsertThread_keeps_requester_email (db : Database) (params : Params.t)
    (tid st : string) (old : Row.t) :
  Params.threadId params = Some tid ->
  Params.state params = Some st ->
  threads db !! tid = Some old ->
  Row.requester_email <$> (threads (snd (upsertThread now params db)) !! tid)
  = Some (Row.requester_email old).
Proof.
  intros Htid Hst Hold.
  destruct (upsertThread_stores db params tid st Htid Hst) as (db' & Hrun & Hthreads & _).
  rewrite Hrun. cbn [snd]. rewrite Hthreads, lookup_insert_eq.
  unfold upsertedRow. now rewrite Hold.
Qed.

(** C3, amended. Writing [{ state: "booked" }] alone on a stored
    conversation keeps every identity field (requester, attendee, title,
    duration, event reference), the row id and the creation time; it sets
    [state], refreshes [updated_at] and clears [proposed_slots]. *)
Theorem upsertThread_state_only (db : Database) (tid : string) (old : Row.t) :
  threads db !! tid = Some old ->
  exists db',
    upsertThread now (stateOnly tid "booked") db
    = (Ok (Some (rowToThread (withStateClearedSlots now old "booked"))), db')
    /\ threads db' !! tid = Some (withStateClearedSlots now old "booked")
    /\ (forall other, other <> tid -> threads db' !! other = threads db !! other).
Proof.
  intros Hold.
  destruct (upsertThread_stores db (stateOnly tid "booked") tid "booked" eq_refl eq_refl)
    as (db' & Hrun & Hthreads & _).
  unfold upsertedRow in *. rewrite Hold in *.
  exists db'. rewrite Hthreads, lookup_insert_eq.
  repeat split; try assumption.
  intros other Hne. now rewrite lookup_insert_ne.
Qed.

(** C4, amended. The store does not look at the state text: any write
    that carries a conversation identifier and a state, recognized or not,
    is stored as given. A write that lacks the conversation identifier or
    the state is rejected and the file is left as it was. A missing
    requester address is not rejected: a new row gets the empty string. *)
Theorem upsertThread_validation (db : Database) (params : Params.t) :
  (forall tid st,
      Params.threadId params = Some tid -> Params.state params = Some st ->
      exists new db',
        upsertThread now params db = (Ok (Some (rowToThread new)), db')
        /\ threads db' !! tid = Some new
        /\ Row.state new = st)
  /\ (Params.threadId params = None \/ Params.state params = None ->
      exists e, upsertThread now params db = (Throw e, db))
  /\ (forall tid st,
      Params.threadId params = Some tid -> Params.state params = Some st ->
      Params.requesterEmail params = None -> threads db !! tid = None ->
      exists new,
        threads (snd (upsertThread now params db)) !! tid = Some new
        /\ Row.requester_email new = "").
Proof.
  split; [|split].
  - intros tid st Htid Hst.
    destruct (upsertThread_stores db params tid st Htid Hst) as (db' & Hrun & Hthreads & _).
    exists (upsertedRow now db params tid st), db'.
    rewrite Hthreads, lookup_insert_eq. repeat split; try assumption.
    unfold upsertedRow. now destruct (threads db !! tid).
  - intros [Hmiss|Hmiss]; unfold upsertThread, bind, run_upsert; rewrite Hmiss.
    + now eexists.
    + destruct (Params.threadId params); now eexists.
  - intros tid st Htid Hst Hmail Hnone.
    destruct (upsertThread_stores db params tid st Htid Hst) as (db' & Hrun & Hthreads & _).
    rewrite Hrun. cbn [snd]. rewrite Hthreads, lookup_insert_eq.
    eexists; split; [reflexivity|].
    unfold upsertedRow. rewrite Hnone. cbn. now rewrite Hmail.
Qed.

End ThreadStoreFacts.

Lemma upsertThread_merge_by_field_witness :
  exists new,
    threads (snd (upsertThread "2024-01-03 10:00:00" titleWrite sampleDb)) !! "thr-1"
    = Some new
    /\ Row.meeting_title new = Some "Design review"
    /\ Row.calendar_event_id new = Some "evt-A"
    /\ Row.proposed_slots new = None.
Proof.
  destruct (upsertThread_merge_by_field "2024-01-03 10:00:00" sampleDb titleWrite
              "thr-1" "awaiting_confirmation" sampleRow eq_refl eq_refl eq_refl)
    as (new & db' & Hrun & Hrow & _ & Hslots & _ & _ & _ & _ & _ & Hevent
        & _ & _ & Htitle & _).
  exists new. rewrite Hrun. cbn [snd].
  repeat split.
  - exact Hrow.
  - exact (Htitle "Design review" eq_refl).
  - rewrite (Hevent eq_refl). reflexivity.
  - exact Hslots.
Defined.

(** C3 fails as worded: on [sampleDb] the write [{ state: "booked" }] also
    erases the proposed slots that were on file. *)
Lemma upsertThread_state_only_clears_slots :
  ~ stateOnlyWriteTouchesOnlyStateAndTimestamp "2024-01-03 10:00:00" sampleDb "thr-1".
Proof.
  intros Hclaim. specialize (Hclaim sampleRow eq_refl).
  vm_compute in Hclaim. discriminate Hclaim.
Qed.

Lemma upsertThread_state_only_witness :
  threads (snd (upsertThread "2024-01-03 10:00:00" (stateOnly "thr-1" "booked") sampleDb))
    !! "thr-1"
  = Some (withStateClearedSlots "2024-01-03 10:00:00" sampleRow "booked").
Proof.
  destruct (upsertThread_state_only "2024-01-03 10:00:00" sampleDb "thr-1" sampleRow eq_refl)
    as (db' & Hrun & Hrow & _).
  rewrite Hrun. exact Hrow.
Defined.

(** C4 fails as worded: on [sampleDb] a write with the state ["bogus"] is
    not rejected. *)
Lemma upsertThread_accepts_unrecognized_state :
  ~ inconsistentWriteIsRejected "2024-01-03 10:00:00" sampleDb (stateOnly "thr-1" "bogus").
Proof.
  intros Hclaim. destruct Hclaim as [e He].
  - left. exists "bogus". split; [reflexivity|]. cbn. intuition discriminate.
  - vm_compute in He. discriminate He.
Qed.

(** After that write the file holds the unrecognized text. *)
Example upsertThread_stores_bogus_state :
  Row.state <$> (threads (snd (upsertThread "2024-01-03 10:00:00"
                                 (stateOnly "thr-1" "bogus") sampleDb)) !! "thr-1")
  = Some "bogus".
Proof. vm_compute. reflexivity. Qed.

Lemma upsertThread_validation_witness :
  (exists new db',
      upsertThread "2024-01-03 10:00:00" (stateOnly "thr-1" "bogus") sampleDb
      = (Ok (Some (rowToThread new)), db')
      /\ threads db' !! "thr-1" = Some new
      /\ Row.state new = "bogus")
  /\ (exists new,
        threads (snd (upsertThread "2024-01-03 10:00:00" (stateOnly "thr-2" "new") sampleDb))
          !! "thr-2" = Some new
        /\ Row.requester_email new = "").
Proof.
  destruct (upsertThread_validation "2024-01-03 10:00:00" sampleDb (stateOnly "thr-1" "bogus"))
    as (Haccept & _ & _).
  destruct (upsertThread_validation "2024-01-03 10:00:00" sampleDb (stateOnly "thr-2" "new"))
    as (_ & _ & Hdefault).
  split.
  - exact (Haccept "thr-1" "bogus" eq_refl eq_refl).
  - apply (Hdefault "thr-2" "new" eq_refl eq_refl eq_refl). vm_compute. reflexivity.
Defined.

(** ** The preference store *)

Section PreferenceFacts.

Context `{Host}.

Lemma includes_key_In (keys : list string) (key : string) :
  includes_key keys key = true <-> In key keys.
Proof.
  unfold includes_key. rewrite existsb_exists. split.
  - intros (k & Hin & Heq). apply String.eqb_eq in Heq. now subst.
  - intros Hin. exists key. split; [assumption | apply String.eqb_refl].
Qed.

Lemma getPreferences_reads (d : Database) : snd (getPreferences d) = d.
Proof. unfold getPreferences. now destruct (JSON_parse _). Qed.

Lemma getPreferences_ok (d : Database) (p : Preferences) :
  fst (getPreferences d) = Ok p -> getPreferences d = (Ok p, d).
Proof.
  intros Hp. rewrite (surjective_pairing (getPreferences d)).
  now rewrite Hp, getPreferences_reads.
Qed.

(** A key outside the nine of [validKeys] is refused and nothing is
    written; in particular every key that is not a field of the record. *)
Lemma toolSetPreference_unknown_key (key value : string) (d : Database) :
  ~ In key validKeys ->
  toolSetPreference key value d = (Throw (Error ("Unknown preference key: " ++ key)), d).
Proof.
  intros Hout. unfold toolSetPreference.
  destruct (includes_key validKeys key) eqn:Hin; [|reflexivity].
  apply includes_key_In in Hin. contradiction.
Qed.

Lemma validKeys_are_fields (key : string) : In key validKeys -> In key preferenceFields.
Proof. cbn. intuition. Qed.

(** A key of [validKeys] is written, replacing any earlier value. *)
Lemma toolSetPreference_valid_key (key value : string) (d : Database) :
  In key validKeys ->
  exists d',
    toolSetPreference key value d = (Ok tt, d')
    /\ preferences d' !! key = Some value
    /\ threads d' = threads d.
Proof.
  intros Hin. unfold toolSetPreference.
  apply includes_key_In in Hin. rewrite Hin. cbn.
  eexists. split; [reflexivity|]. cbn. now rewrite lookup_insert_eq.
Qed.

(** C8, on the code. [customRules] is a field of the preference record,
    seeded by [DEFAULT_PREFERENCES] and returned by [getPreferences], and
    the write operation refuses it. *)
Theorem toolSetPreference_rejects_customRules (value : string) (d : Database) :
  In "customRules" preferenceFields
  /\ In "customRules" (map fst DEFAULT_PREFERENCES)
  /\ toolSetPreference "customRules" value d
     = (Throw (Error "Unknown preference key: customRules"), d).
Proof.
  split; [|split].
  - cbn. intuition.
  - cbn. intuition.
  - reflexivity.
Qed.

End PreferenceFacts.

(** ** The booking reconciler *)

Section ReconcilerFacts.

Context `{Host} `{Services}.
Variable now : string.

Lemma drop_own_length {A} (l k : list A) : drop (length l) (l ++ k)%list = k.
Proof. induction l; [reflexivity | assumption]. Qed.

Lemma eventId_of_thread (o : option Row.t) :
  (rowToThread <$> o) ≫= Thread.calendarEventId = o ≫= Row.calendar_event_id.
Proof. now destruct o. Qed.

Lemma truthy_nonempty (c : string) : c <> "" -> truthy (Some c) = true.
Proof.
  intros Hne. unfold truthy. destruct (String.eqb c "") eqn:E; [|reflexivity].
  apply String.eqb_eq in E. contradiction.
Qed.

(** The row left by the write that marks a thread as booked. *)
Lemma upsertedRow_booked (d : Database) (toolInput : gmap string Value)
    (ctx : AgentContext) (b : BookingResult) :
  let row := upsertedRow now d (bookedParams toolInput ctx b) (threadId (email ctx)) "booked" in
  Row.state row = "booked" /\ Row.calendar_event_id row = Some (eventId b).
Proof.
  unfold upsertedRow. now destruct (threads d !! threadId (email ctx)).
Qed.

(** The update succeeds: one patch call, and the candidate goes on file. *)
Lemma bookMeeting_update_path (toolInput : gmap string Value) (ctx : AgentContext)
    (w : World) (prefs : Preferences) (c : string) :
  fst (getPreferences (db w)) = Ok prefs ->
  candidateEventId toolInput w (threadId (email ctx)) = Some c ->
  c <> "" ->
  events_patch c (patchBody (updateParams toolInput)) = true ->
  exists d',
    bookMeeting now toolInput ctx w
    = (Ok {| eventId := c; eventLink := ""; meetLink := None |},
       {| db := d';
          calendarCalls :=
            (calendarCalls w ++ [CallPatch c (patchBody (updateParams toolInput))])%list |})
    /\ threads d'
       = <[threadId (email ctx) :=
             upsertedRow now (db w)
               (bookedParams toolInput ctx
                  {| eventId := c; eventLink := ""; meetLink := None |})
               (threadId (email ctx)) "booked"]> (threads (db w)).
Proof.
  intros Hprefs Hcand Hne Hpatch.
  destruct w as [d calls]. cbn [db calendarCalls] in *.
  unfold bookMeeting, bind, liftDb, toolGetPreferences. cbn [db calendarCalls].
  rewrite (getPreferences_ok d prefs Hprefs).
  unfold toolGetThread, getThread. cbn [db calendarCalls].
  unfold candidateEventId, storedEventId in Hcand. cbn [db] in Hcand.
  rewrite eventId_of_thread, Hcand, (truthy_nonempty c Hne).
  unfold try_catch, toolUpdateCalendarEvent, bind, call, ret, toolUpdateThreadState.
  cbn [default Datatypes.id db calendarCalls]. rewrite Hpatch. cbn [db calendarCalls].
  destruct (upsertThread_stores now d
              (bookedParams toolInput ctx {| eventId := c; eventLink := ""; meetLink := None |})
              (threadId (email ctx)) "booked" eq_refl eq_refl)
    as (d' & Hrun & Hthreads & _).
  rewrite Hrun. exists d'. split; [reflexivity | exact Hthreads].
Qed.

(** The update fails and the creation succeeds: a patch call, an insert
    call, and the new reference goes on file. *)
Lemma bookMeeting_fallback_path (toolInput : gmap string Value) (ctx : AgentContext)
    (w : World) (prefs : Preferences) (c : string) (event : Insert.response) :
  let params := createParams toolInput (String.eqb (preferredPlatform prefs) "Google Meet") in
  let booking := {| eventId := Insert.id event;
                    eventLink := Insert.htmlLink event;
                    meetLink := Insert.videoEntryPoint event |} in
  fst (getPreferences (db w)) = Ok prefs ->
  candidateEventId toolInput w (threadId (email ctx)) = Some c ->
  c <> "" ->
  events_patch c (patchBody (updateParams toolInput)) = false ->
  events_insert (insertBody params) = Some event ->
  exists d',
    bookMeeting now toolInput ctx w
    = (Ok booking,
       {| db := d';
          calendarCalls :=
            (calendarCalls w ++ [CallPatch c (patchBody (updateParams toolInput))]
               ++ [CallInsert (insertBody params)])%list |})
    /\ threads d'
       = <[threadId (email ctx) :=
             upsertedRow now (db w) (bookedParams toolInput ctx booking)
               (threadId (email ctx)) "booked"]> (threads (db w)).
Proof.
  intros params booking Hprefs Hcand Hne Hpatch Hinsert.
  destruct w as [d calls]. cbn [db calendarCalls] in *.
  unfold bookMeeting, bind, liftDb, toolGetPreferences. cbn [db calendarCalls].
  rewrite (getPreferences_ok d prefs Hprefs).
  unfold toolGetThread, getThread. cbn [db calendarCalls].
  unfold candidateEventId, storedEventId in Hcand. cbn [db] in Hcand.
  rewrite eventId_of_thread, Hcand, (truthy_nonempty c Hne).
  unfold try_catch, toolUpdateCalendarEvent, toolCreateCalendarEvent,
    bind, call, ret, throw, toolUpdateThreadState.
  cbn [default Datatypes.id db calendarCalls]. rewrite Hpatch.
  cbn [db calendarCalls]. fold params. rewrite Hinsert. cbn [db calendarCalls].
  destruct (upsertThread_stores now d (bookedParams toolInput ctx booking)
              (threadId (email ctx)) "booked" eq_refl eq_refl)
    as (d' & Hrun & Hthreads & _).
  fold booking. rewrite Hrun. exists d'.
  split; [now rewrite <- app_assoc | exact Hthreads].
Qed.

(** C2, amended. Take a booking whose input properties are strings or
    absent, with a non-empty candidate reference (the one supplied
    explicitly, else the one stored on the thread), the preferences being
    readable.

    - If the update call succeeds, no event is created; the outcome carries
      the candidate, with an empty link; the thread becomes [booked] and its
      stored reference is the candidate, hence unchanged exactly when the
      candidate was the stored reference.
    - If the update call fails and the creation succeeds, one event is
      created; the outcome is the created booking; the thread becomes
      [booked] and stores the new reference; no error reaches the caller. *)
Theorem bookMeeting_reconciles (toolInput : gmap string Value) (ctx : AgentContext)
    (w : World) (prefs : Preferences) (c : string) :
  bookingInputTyped toolInput ->
  fst (getPreferences (db w)) = Ok prefs ->
  candidateEventId toolInput w (threadId (email ctx)) = Some c ->
  c <> "" ->
  (events_patch c (patchBody (updateParams toolInput)) = true ->
   exists w' row,
     bookMeeting now toolInput ctx w
     = (Ok {| eventId := c; eventLink := ""; meetLink := None |}, w')
     /\ calendarCalls w'
        = (calendarCalls w ++ [CallPatch c (patchBody (updateParams toolInput))])%list
     /\ created w w' = false
     /\ threads (db w') !! threadId (email ctx) = Some row
     /\ Row.state row = "booked"
     /\ storedEventId (db w') (threadId (email ctx)) = Some c
     /\ (storedEventId (db w) (threadId (email ctx)) = Some c ->
         storedEventId (db w') (threadId (email ctx))
         = storedEventId (db w) (threadId (email ctx))))
  /\ (forall event,
      events_patch c (patchBody (updateParams toolInput)) = false ->
      events_insert
        (insertBody (createParams toolInput
                       (String.eqb (preferredPlatform prefs) "Google Meet")))
      = Some event ->
      exists w' row,
        bookMeeting now toolInput ctx w
        = (Ok {| eventId := Insert.id event;
                 eventLink := Insert.htmlLink event;
                 meetLink := Insert.videoEntryPoint event |}, w')
        /\ created w w' = true
        /\ threads (db w') !! threadId (email ctx) = Some row
        /\ Row.state row = "booked"
        /\ storedEventId (db w') (threadId (email ctx)) = Some (Insert.id event)).
Proof.
  intros _ Hprefs Hcand Hne. split.
  - intros Hpatch.
    destruct (bookMeeting_update_path toolInput ctx w prefs c Hprefs Hcand Hne Hpatch)
      as (d' & Hrun & Hthreads).
    pose proof (upsertedRow_booked (db w) toolInput ctx
                  {| eventId := c; eventLink := ""; meetLink := None |}) as [Hstate Hevent].
    eexists _, _. split; [exact Hrun|]. cbn [db calendarCalls].
    assert (Hstored : storedEventId d' (threadId (email ctx)) = Some c).
    { unfold storedEventId. rewrite Hthreads, lookup_insert_eq. exact Hevent. }
    repeat split.
    + unfold created. cbn [calendarCalls]. now rewrite drop_own_length.
    + rewrite Hthreads. apply lookup_insert_eq.
    + exact Hstate.
    + exact Hstored.
    + intros Hsame. now rewrite Hstored, Hsame.
  - intros event Hpatch Hinsert.
    destruct (bookMeeting_fallback_path toolInput ctx w prefs c event
                Hprefs Hcand Hne Hpatch Hinsert) as (d' & Hrun & Hthreads).
    pose proof (upsertedRow_booked (db w) toolInput ctx
                  {| eventId := Insert.id event;
                     eventLink := Insert.htmlLink event;
                     meetLink := Insert.videoEntryPoint event |}) as [Hstate Hevent].
    eexists _, _. split; [exact Hrun|]. cbn [db calendarCalls].
    repeat split.
    + unfold created. cbn [calendarCalls]. now rewrite drop_own_length.
    + rewrite Hthreads. apply lookup_insert_eq.
    + exact Hstate.
    + unfold storedEventId. rewrite Hthreads, lookup_insert_eq. exact Hevent.
Qed.

(** Cancelling reads the preferences and calls the provider; whatever the
    outcome, the database is the one it started from. *)
Lemma cancel_meeting_keeps_database (toolInput : gmap string Value)
    (ctx : AgentContext) (w : World) :
  db (snd (executeTool now "cancel_meeting" toolInput ctx w)) = db w.
Proof.
  destruct w as [d calls].
  unfold executeTool, bind, liftDb, toolGetPreferences. cbn [db calendarCalls].
  pose proof (getPreferences_reads d) as Hread.
  destruct (getPreferences d) as [[prefs|e|] d0]; cbn [snd] in Hread; subst d0;
    try reflexivity.
  cbn. unfold cancelMeeting, toolCancelCalendarEvent, bind, call. cbn.
  now destruct (events_cancel _).
Qed.

End ReconcilerFacts.

(** C2 fails as worded: with the event [evt-B] named explicitly and a
    successful update, the reference stored on the thread changes from
    [evt-A] to [evt-B]. *)
Lemma bookMeeting_explicit_reference_replaces_stored :
  ~ @reconcileAsSpecified utcHost obligingServices "2024-01-03 10:00:00"
      rescheduleInput sampleContext sampleWorld.
Proof.
  intros Hclaim.
  destruct (Hclaim "evt-B" eq_refl) as [Hupdate _].
  destruct (Hupdate eq_refl) as (b & _ & _ & Hsame).
  vm_compute in Hsame. discriminate Hsame.
Qed.

Lemma bookMeeting_reconciles_witness :
  fst (@bookMeeting utcHost obligingServices "2024-01-03 10:00:00"
         rebookInput sampleContext sampleWorld)
  = Ok {| eventId := "evt-A"; eventLink := ""; meetLink := None |}
  /\ fst (@bookMeeting utcHost staleServices "2024-01-03 10:00:00"
            rebookInput sampleContext sampleWorld)
     = Ok {| eventId := "evt-new";
             eventLink := "https://calendar/evt-new";
             meetLink := None |}.
Proof.
  split.
  - destruct (@bookMeeting_reconciles utcHost obligingServices "2024-01-03 10:00:00"
                rebookInput sampleContext sampleWorld defaultPreferences "evt-A"
                eq_refl eq_refl eq_refl ltac:(discriminate)) as [Hupdate _].
    destruct (Hupdate eq_refl) as (w' & row & Hrun & _).
    now rewrite Hrun.
  - destruct (@bookMeeting_reconciles utcHost staleServices "2024-01-03 10:00:00"
                rebookInput sampleContext sampleWorld defaultPreferences "evt-A"
                eq_refl eq_refl eq_refl ltac:(discriminate)) as [_ Hfallback].
    destruct (Hfallback _ eq_refl eq_refl) as (w' & row & Hrun & _).
    now rewrite Hrun.
Defined.

(** Without a candidate the event is created directly, and the new
    conversation is stored as booked. *)
Example first_booking_creates :
  let after := @bookMeeting utcHost obligingServices "2024-01-03 10:00:00"
                 rebookInput sampleContext firstBookingWorld in
  fst after = Ok {| eventId := "evt-new";
                    eventLink := "https://calendar/evt-new";
                    meetLink := None |}
  /\ created firstBookingWorld (snd after) = true
  /\ storedEventId (db (snd after)) "thr-1" = Some "evt-new".
Proof. repeat split; vm_compute; reflexivity. Qed.

(** C9, on the code. Cancelling the event of a booked conversation calls
    the provider once and leaves the thread as it was: the reference
    [evt-A] is still there, and the state is still [booked]. *)
Theorem cancel_meeting_leaves_thread_booked :
  let after := @executeTool utcHost obligingServices "2024-01-03 10:00:00"
                 "cancel_meeting" cancelInput sampleContext bookedWorld in
  fst after = Ok OutVoid
  /\ calendarCalls (snd after) = [CallCancel "evt-A"]
  /\ threads (db (snd after)) !! "thr-1" = Some bookedRow
  /\ Row.state bookedRow = "booked"
  /\ Row.calendar_event_id bookedRow = Some "evt-A".
Proof. repeat split; vm_compute; reflexivity. Qed.

(** ** The availability engine *)

Section AvailabilityFacts.
Context `{Host}.

Lemma startOf_mk (s : Z) (e : Date) :
  startOf {| Block.start := Some s; Block.end_ := e |} = s.
Proof. reflexivity. Qed.

Lemma endOf_mk (s : Date) (e : Z) :
  endOf {| Block.start := s; Block.end_ := Some e |} = e.
Proof. reflexivity. Qed.

Lemma insertByStart_In (x y : Block.t) (l : list Block.t) :
  In y (insertByStart x l) <-> y = x \/ In y l.
Proof.
  induction l as [|z l IH]; cbn [insertByStart In].
  - intuition congruence.
  - destruct (gt (compareStart x z) (Some 0)); cbn [In]; rewrite ?IH; intuition congruence.
Qed.

Lemma sortByStart_In (y : Block.t) (l : list Block.t) :
  In y (sortByStart l) <-> In y l.
Proof.
  induction l as [|x l IH]; cbn [sortByStart In]; [tauto|].
  rewrite insertByStart_In, IH. intuition congruence.
Qed.

Lemma compareStart_valid (x y : Block.t) :
  validBlock x -> validBlock y ->
  gt (compareStart x y) (Some 0) = (0 <? startOf x - startOf y).
Proof. intros -> ->. reflexivity. Qed.

Lemma insertByStart_sorted (x : Block.t) (l : list Block.t) :
  validBlock x -> Forall validBlock l ->
  StronglySorted startsNoLater l ->
  StronglySorted startsNoLater (insertByStart x l).
Proof.
  intros Hx Hl Hs. induction Hs as [|y l Hs IH Hy]; cbn [insertByStart].
  - repeat constructor.
  - inversion Hl as [|? ? Hvy Hvl]; subst.
    rewrite (compareStart_valid x y Hx Hvy).
    destruct (0 <? startOf x - startOf y) eqn:E.
    + apply Z.ltb_lt in E. constructor; [now apply IH|].
      apply List.Forall_forall. intros z Hz. apply (proj1 (insertByStart_In _ _ _)) in Hz.
      destruct Hz as [->|Hz].
      * unfold startsNoLater. lia.
      * rewrite List.Forall_forall in Hy. now apply Hy.
    + apply Z.ltb_ge in E. constructor; [now constructor|].
      constructor; [unfold startsNoLater; lia|].
      eapply List.Forall_impl; [|exact Hy]. unfold startsNoLater. intros; lia.
Qed.

Lemma sortByStart_sorted (l : list Block.t) :
  Forall validBlock l -> StronglySorted startsNoLater (sortByStart l).
Proof.
  induction 1 as [|x l Hx Hl IH]; cbn [sortByStart]; [constructor|].
  apply insertByStart_sorted; [assumption| |assumption].
  apply List.Forall_forall. intros y Hy. apply (proj1 (sortByStart_In _ _)) in Hy.
  rewrite List.Forall_forall in Hl. now apply Hl.
Qed.

Lemma overlapsDay_true (dS dE : Date) (b : Block.t) :
  overlapsDay dS dE b = true ->
  exists ds de, dS = Some ds /\ dE = Some de /\ validBlock b
                /\ startOf b < de /\ ds < endOf b.
Proof.
  unfold overlapsDay, gt, lt. destruct b as [[bs|] [be|]], dS as [ds|], dE as [de|];
    cbn; try discriminate; try (rewrite andb_false_r; discriminate).
  intros Hb. apply andb_true_iff in Hb. destruct Hb as [H1 H2].
  apply Z.ltb_lt in H1, H2. exists ds, de. repeat split; assumption.
Qed.

Lemma filter_overlapsDay_invalid (dS dE : Date) (l : list Block.t) :
  dS = None \/ dE = None -> List.filter (overlapsDay dS dE) l = [].
Proof.
  intros Hbad. induction l as [|b l IH]; [reflexivity|]. cbn [List.filter].
  destruct (overlapsDay dS dE b) eqn:E; [|exact IH].
  apply overlapsDay_true in E. destruct E as (ds & de & -> & -> & _).
  destruct Hbad; discriminate.
Qed.

Lemma blockedOfDay_invalid (busy : list TimeSlot) (dS dE : Date) :
  dS = None \/ dE = None -> blockedOfDay busy dS dE = [].
Proof.
  intros Hbad. unfold blockedOfDay.
  now rewrite (filter_overlapsDay_invalid dS dE _ Hbad).
Qed.

Lemma blockedOfDay_In (busy : list TimeSlot) (dS dE : Date) (b : Block.t) :
  In b (blockedOfDay busy dS dE) <->
  exists t, In t busy /\ overlapsDay dS dE (toDates t) = true
            /\ b = clamp dS dE (toDates t).
Proof.
  unfold blockedOfDay. rewrite sortByStart_In, in_map_iff. split.
  - intros (x & <- & Hx). apply filter_In in Hx. destruct Hx as [Hx Hov].
    apply in_map_iff in Hx. destruct Hx as (t & <- & Ht). now exists t.
  - intros (t & Ht & Hov & ->). exists (toDates t). split; [reflexivity|].
    apply filter_In. split; [|assumption]. apply in_map_iff. now exists t.
Qed.

Lemma clamp_valid (ds de : Z) (b : Block.t) :
  validBlock b ->
  clamp (Some ds) (Some de) b
  = {| Block.start := Some (if startOf b <? ds then ds else startOf b);
       Block.end_ := Some (if de <? endOf b then de else endOf b) |}.
Proof.
  intros ->. unfold clamp, gt, lt. cbn.
  now destruct (_ <? ds), (de <? _).
Qed.

(** Every block of the day is valid, starts within the working hours,
    and starts at their beginning when the meeting began earlier. *)
Lemma blockedOfDay_shape (busy : list TimeSlot) (ds de : Z) :
  Forall (fun b => validBlock b /\ (startOf b <= ds \/ startOf b < de))
         (blockedOfDay busy (Some ds) (Some de)).
Proof.
  apply List.Forall_forall. intros b Hb.
  apply (proj1 (blockedOfDay_In _ _ _ _)) in Hb.
  destruct Hb as (t & _ & Hov & ->).
  apply overlapsDay_true in Hov.
  destruct Hov as (ds' & de' & [= <-] & [= <-] & Hv & Hlt & _).
  rewrite (clamp_valid ds de _ Hv). split; [reflexivity|].
  rewrite !startOf_mk. destruct (startOf (toDates t) <? ds) eqn:E; lia.
Qed.

Lemma pushIfLongEnough_valid (minWindowMs : number) (x y : Z) (fw : list TimeSlot) :
  pushIfLongEnough minWindowMs (Some x) (Some y) fw
  = Ok (fw ++ emitted minWindowMs x y)%list.
Proof.
  unfold pushIfLongEnough, emitted. cbn [sub toISOString].
  destruct (ge _ _); [reflexivity | now rewrite app_nil_r].
Qed.

Lemma emitted_In (minWindowMs : number) (x y : Z) (w : TimeSlot) :
  In w (emitted minWindowMs x y) ->
  w = slotOf x y /\ exists m, minWindowMs = Some m /\ m <= y - x.
Proof.
  unfold emitted, ge, le. destruct minWindowMs as [m|]; [|contradiction].
  destruct (m <=? y - x) eqn:E; [|contradiction].
  intros [<-|[]]. apply Z.leb_le in E. eauto.
Qed.

Lemma walkGaps_sound (minWindowMs : number) (lo hi : Z) (blocked : list Block.t) :
  Forall validBlock blocked ->
  StronglySorted startsNoLater blocked ->
  Forall (fun b => startOf b <= lo \/ startOf b < hi) blocked ->
  forall (c : Z) (fw : list TimeSlot), lo <= c ->
  exists c' new,
    walkGaps minWindowMs blocked (Some c) fw = Ok (Some c', fw ++ new)%list
    /\ c <= c'
    /\ Forall (fun b => endOf b <= c') blocked
    /\ Forall (fun w => exists s e,
                  w = slotOf s e /\ c <= s /\ s < e /\ e < hi
                  /\ (exists m, minWindowMs = Some m /\ m <= e - s)
                  /\ Forall (fun b => ~ overlap s e (startOf b) (endOf b)) blocked)
              new.
Proof.
  intros Hvalid Hsorted. induction Hsorted as [|b rest Hsorted IH Hb];
    intros Hbound c fw Hlo.
  - exists c, []. cbn. rewrite app_nil_r. repeat split; try constructor; lia.
  - inversion Hvalid as [|? ? Hvb Hvrest]; subst.
    inversion Hbound as [|? ? Hbb Hbrest]; subst.
    destruct b as [[bs|] [be|]]; try discriminate Hvb.
    rewrite ?startOf_mk, ?endOf_mk in *.
    assert (Hstarts : Forall (fun b' => bs <= startOf b') rest).
    { eapply List.Forall_impl; [|exact Hb]. unfold startsNoLater.
      intros b'. now rewrite startOf_mk. }
    cbn [walkGaps Block.start Block.end_ lt gt].
    set (c1 := if c <? be then be else c).
    set (new0 := if c <? bs then emitted minWindowMs c bs else []).
    assert (Hc1 : c <= c1 /\ be <= c1).
    { unfold c1. destruct (c <? be) eqn:E; lia. }
    destruct (IH Hvrest Hbrest c1 (fw ++ new0)%list ltac:(lia))
      as (c' & new & Hrun & Hle & Hends & Hnew).
    exists c', (new0 ++ new)%list.
    split; [|split; [lia|split]].
    + rewrite app_assoc, <- Hrun. unfold new0.
      destruct (c <? bs) eqn:E.
      * rewrite pushIfLongEnough_valid. unfold c1. now destruct (c <? be).
      * rewrite app_nil_r. unfold c1. now destruct (c <? be).
    + constructor; [rewrite endOf_mk; lia | assumption].
    + apply Forall_app. split.
      * unfold new0. destruct (c <? bs) eqn:E; [|constructor].
        apply Z.ltb_lt in E. apply List.Forall_forall. intros w Hw.
        apply emitted_In in Hw. destruct Hw as [-> Hlong].
        exists c, bs. repeat split; try lia; try assumption.
        constructor.
        -- rewrite startOf_mk. unfold overlap. lia.
        -- eapply List.Forall_impl; [|exact Hstarts]. unfold overlap.
           intros; lia.
      * eapply List.Forall_impl; [|exact Hnew].
        intros w (s & e & -> & Hs & Hse & Hhi & Hlong & Hfree).
        exists s, e. repeat split; try lia; try assumption.
        constructor; [rewrite endOf_mk; unfold overlap; lia | assumption].
Qed.

Lemma dayWindows_sound (busy : list TimeSlot)
    (startHour startMin endHour endMin minWindowMs : number)
    (day : Z) (fw : list TimeSlot) :
  exists new,
    dayWindows busy startHour startMin endHour endMin minWindowMs (Some day) fw
    = Ok (fw ++ new)%list
    /\ Forall (dayWindow busy startHour startMin endHour endMin minWindowMs day) new.
Proof.
  unfold dayWindows, dayWindow.
  destruct (setHours (Some day) startHour startMin) as [ds|] eqn:Hds.
  2:{ rewrite blockedOfDay_invalid by now left. cbn.
      exists []. now rewrite app_nil_r. }
  destruct (setHours (Some day) endHour endMin) as [de|] eqn:Hde.
  2:{ rewrite blockedOfDay_invalid by now right. cbn.
      exists []. now rewrite app_nil_r. }
  pose proof (blockedOfDay_shape busy ds de) as Hshape.
  assert (Hvalid : Forall validBlock (blockedOfDay busy (Some ds) (Some de))).
  { eapply List.Forall_impl; [|exact Hshape]. now intros b [Hv _]. }
  assert (Hbound : Forall (fun b => startOf b <= ds \/ startOf b < de)
                          (blockedOfDay busy (Some ds) (Some de))).
  { eapply List.Forall_impl; [|exact Hshape]. now intros b [_ Hb]. }
  assert (Hsorted : StronglySorted startsNoLater (blockedOfDay busy (Some ds) (Some de))).
  { unfold blockedOfDay. apply sortByStart_sorted.
    apply List.Forall_forall. intros b Hb.
    rewrite List.Forall_forall in Hvalid. apply Hvalid.
    unfold blockedOfDay. now apply sortByStart_In. }
  destruct (walkGaps_sound minWindowMs ds de _ Hvalid Hsorted Hbound ds fw ltac:(lia))
    as (c' & new & Hrun & Hle & Hends & Hnew).
  rewrite Hrun. cbn [lt].
  exists (new ++ (if c' <? de then emitted minWindowMs c' de else []))%list.
  split.
  - destruct (c' <? de); [rewrite pushIfLongEnough_valid|];
      now rewrite ?app_assoc, ?app_nil_r.
  - apply Forall_app. split.
    + eapply List.Forall_impl; [|exact Hnew].
      intros w (s & e & -> & Hs & Hse & Hhi & Hlong & Hfree).
      exists ds, de, s, e. repeat split; try lia; assumption.
    + destruct (c' <? de) eqn:E; [|constructor]. apply Z.ltb_lt in E.
      apply List.Forall_forall. intros w Hw.
      apply emitted_In in Hw. destruct Hw as [-> Hlong].
      exists ds, de, c', de. repeat split; try lia; try assumption.
      eapply List.Forall_impl; [|exact Hends]. unfold overlap. intros; lia.
Qed.

Lemma dayLoop_done (fuel : nat) (busy : list TimeSlot) (noMeeting : list Z)
    (startHour startMin endHour endMin minWindowMs : number)
    (day last : Date) (fw : list TimeSlot) :
  le day last = false ->
  dayLoop fuel busy noMeeting startHour startMin endHour endMin minWindowMs day last fw
  = Ok fw.
Proof. intros Hle. destruct fuel; cbn [dayLoop]; now rewrite Hle. Qed.

Lemma days_left (t e : Z) :
  (e - (t + msPerDay)) / msPerDay + 1 = (e - t) / msPerDay.
Proof.
  replace (e - (t + msPerDay)) with ((e - t) + (-1) * msPerDay) by lia.
  rewrite Z.div_add by (unfold msPerDay; lia). lia.
Qed.

Lemma dayLoop_sound (busy : list TimeSlot) (noMeeting : list Z)
    (startHour startMin endHour endMin minWindowMs : number) (last : Z) :
  forall (fuel : nat) (t : Z) (fw : list TimeSlot),
    (Z.to_nat ((last - t) / msPerDay + 1) <= fuel)%nat ->
    exists new,
      dayLoop fuel busy noMeeting startHour startMin endHour endMin minWindowMs
        (Some t) (Some last) fw
      = Ok (fw ++ new)%list
      /\ Forall (fun w => exists k : nat,
                    t + Z.of_nat k * msPerDay <= last
                    /\ includes_day noMeeting (getDay (Some (t + Z.of_nat k * msPerDay))) = false
                    /\ dayWindow busy startHour startMin endHour endMin minWindowMs
                         (t + Z.of_nat k * msPerDay) w)
                new.
Proof.
  induction fuel as [|fuel IH]; intros t fw Hfuel.
  - destruct (t <=? last) eqn:E.
    + apply Z.leb_le in E.
      assert (0 <= (last - t) / msPerDay) by (apply Z.div_pos; unfold msPerDay; lia).
      lia.
    + exists []. rewrite app_nil_r. split; [now apply dayLoop_done | constructor].
  - destruct (t <=? last) eqn:E.
    2:{ exists []. rewrite app_nil_r. split; [now apply dayLoop_done | constructor]. }
    apply Z.leb_le in E.
    assert (Hpos : 0 <= (last - t) / msPerDay) by (apply Z.div_pos; unfold msPerDay; lia).
    (* what the rest of the loop contributes, from any list *)
    assert (Hrest : forall fw',
      exists new,
        dayLoop fuel busy noMeeting startHour startMin endHour endMin minWindowMs
          (setDate_next (Some t)) (Some last) fw'
        = Ok (fw' ++ new)%list
        /\ Forall (fun w => exists k : nat,
                      t + Z.of_nat k * msPerDay <= last
                      /\ includes_day noMeeting (getDay (Some (t + Z.of_nat k * msPerDay))) = false
                      /\ dayWindow busy startHour startMin endHour endMin minWindowMs
                           (t + Z.of_nat k * msPerDay) w)
                  new).
    { intros fw'. cbn [setDate_next]. unfold TimeClip.
      destruct (Z.abs (t + msPerDay) <=? maxTimeValue).
      - assert (Hleft : (Z.to_nat ((last - (t + msPerDay)) / msPerDay + 1) <= fuel)%nat).
        { rewrite days_left. lia. }
        destruct (IH (t + msPerDay) fw' Hleft) as (new & Hrun & Hnew).
        exists new. split; [exact Hrun|].
        eapply List.Forall_impl; [|exact Hnew].
        intros w (k & Hk1 & Hk2 & Hk3). exists (S k).
        replace (t + Z.of_nat (S k) * msPerDay)
          with (t + msPerDay + Z.of_nat k * msPerDay) by lia.
        repeat split; assumption.
      - exists []. rewrite app_nil_r. split; [now apply dayLoop_done | constructor]. }
    cbn [dayLoop le]. apply Z.leb_le in E. rewrite E.
    destruct (includes_day noMeeting (getDay (Some t))) eqn:Hskip.
    + apply Hrest.
    + destruct (dayWindows_sound busy startHour startMin endHour endMin minWindowMs t fw)
        as (new0 & Hday & Hnew0).
      rewrite Hday.
      destruct (Hrest (fw ++ new0)%list) as (new & Hrun & Hnew).
      exists (new0 ++ new)%list. split; [now rewrite app_assoc|].
      apply Forall_app. split; [|assumption].
      eapply List.Forall_impl; [|exact Hnew0].
      intros w Hw. exists O. replace (t + Z.of_nat 0 * msPerDay) with t by lia.
      repeat split; try assumption. lia.
Qed.

Lemma minWindowMs_long (params : FreeSlots.params) (s e : Z) :
  (exists m, minWindowMsOf params = Some m /\ m <= e - s) ->
  longEnough (FreeSlots.durationMinutes params) s e.
Proof.
  unfold minWindowMsOf, minWindowMs, longEnough. intros (m & Hm & Hle).
  destruct (FreeSlots.durationMinutes params) as [d|]; [|discriminate].
  cbn in Hm. injection Hm as <-. now exists d.
Qed.

Lemma startOf_Some (b : Block.t) (v : Z) : Block.start b = Some v -> startOf b = v.
Proof. unfold startOf. now intros ->. Qed.

Lemma endOf_Some (b : Block.t) (v : Z) : Block.end_ b = Some v -> endOf b = v.
Proof. unfold endOf. now intros ->. Qed.

Lemma dayWindow_free (params : FreeSlots.params) (day : Z) (w : TimeSlot) :
  dayWindow (FreeSlots.busyBlocks params)
    (fst (startHourMin params)) (snd (startHourMin params))
    (fst (endHourMin params)) (snd (endHourMin params))
    (minWindowMsOf params) day w ->
  freeWindowOn params day w.
Proof.
  intros (ds & de & s & e & Hds & Hde & -> & Hs & Hse & He & Hlong & Hfree).
  rewrite List.Forall_forall in Hfree.
  assert (Hclipped : forall b cs ce,
    In b (FreeSlots.busyBlocks params) ->
    overlapsDay (Some ds) (Some de) (toDates b) = true ->
    Block.start (clamp (Some ds) (Some de) (toDates b)) = Some cs ->
    Block.end_ (clamp (Some ds) (Some de) (toDates b)) = Some ce ->
    ~ overlap s e cs ce).
  { intros b cs ce Hb Hov Hcs Hce.
    rewrite <- (startOf_Some _ _ Hcs), <- (endOf_Some _ _ Hce).
    apply Hfree. apply blockedOfDay_In. now exists b. }
  exists ds, de, s, e. repeat split; try assumption.
  - now apply minWindowMs_long.
  - intros b bs be Hb Hbs Hbe [Hov1 Hov2].
    assert (Hdates : toDates b = {| Block.start := Some bs; Block.end_ := Some be |}).
    { unfold toDates. now rewrite Hbs, Hbe. }
    assert (Hov : overlapsDay (Some ds) (Some de) (toDates b) = true).
    { rewrite Hdates. unfold overlapsDay, gt, lt. cbn.
      apply andb_true_iff. split; apply Z.ltb_lt; lia. }
    apply (Hclipped b (if bs <? ds then ds else bs) (if de <? be then de else be) Hb Hov).
    + rewrite Hdates. unfold clamp, lt. cbn. now destruct (bs <? ds).
    + rewrite Hdates. unfold clamp, gt, lt. cbn. now destruct (de <? be).
    + unfold overlap. destruct (bs <? ds) eqn:E1, (de <? be) eqn:E2; lia.
Qed.

(** The engine always returns, and everything it returns is a free window
    of a day of the range. *)
Lemma computeFreeSlots_sound (params : FreeSlots.params) :
  exists ws,
    computeFreeSlots params = Ok ws /\ Forall (isFreeWindow params) ws.
Proof.
  unfold computeFreeSlots.
  pose proof (dayWindow_free params) as Hfree.
  unfold startHourMin, endHourMin, minWindowMsOf in Hfree.
  destruct (splitHourMin (workingHoursStart (FreeSlots.prefs params))) as [sh sm].
  destruct (splitHourMin (workingHoursEnd (FreeSlots.prefs params))) as [eh em].
  cbn [fst snd] in Hfree.
  destruct (Date_parse (FreeSlots.startDate params ++ "T00:00:00")) as [first|] eqn:Hfirst.
  2:{ exists []. split; [now apply dayLoop_done | constructor]. }
  destruct (Date_parse (FreeSlots.endDate params ++ "T00:00:00")) as [last|] eqn:Hlast.
  2:{ exists []. split; [now apply dayLoop_done | constructor]. }
  destruct (dayLoop_sound (FreeSlots.busyBlocks params)
              (noMeetingDays (FreeSlots.prefs params)) sh sm eh em
              (minWindowMs (FreeSlots.durationMinutes params))
              last (daysBetween (Some first) (Some last)) first []
              ltac:(cbn; lia))
    as (ws & Hrun & Hws).
  exists ws. split; [exact Hrun|].
  eapply List.Forall_impl; [|exact Hws].
  intros w (k & Hk & Hday & Hw).
  exists (first + Z.of_nat k * msPerDay). split.
  - exists first, last, k. rewrite Hfirst, Hlast. repeat split; assumption.
  - now apply Hfree.
Qed.

Lemma setHours_value (t h m v : Z) :
  setHours (Some t) (Some h) (Some m) = Some v ->
  v = (t + tzOffsetMs) / msPerDay * msPerDay
      + (h * msPerHour + m * msPerMinute) - tzOffsetMs.
Proof.
  unfold setHours, TimeClip. destruct (Z.abs _ <=? maxTimeValue); [|discriminate].
  now intros [= <-].
Qed.

(** With the end of the working hours at or before their start, no day
    has a free window. *)
Lemma malformed_hours_no_window (params : FreeSlots.params) (a b : Z) (w : TimeSlot) :
  minutesOfDay (startHourMin params) = Some a ->
  minutesOfDay (endHourMin params) = Some b ->
  b <= a ->
  ~ isFreeWindow params w.
Proof.
  intros Ha Hb Hle (day & _ & ds & de & s & e & Hds & Hde & _ & Hs & Hse & He & _).
  unfold dayStartOf in Hds. unfold dayEndOf in Hde.
  destruct (startHourMin params) as [[sh|] [sm|]]; try discriminate Ha.
  destruct (endHourMin params) as [[eh|] [em|]]; try discriminate Hb.
  cbn in Ha, Hb, Hds, Hde. injection Ha as <-. injection Hb as <-.
  apply setHours_value in Hds, Hde. unfold msPerHour, msPerMinute in *. lia.
Qed.

End AvailabilityFacts.

Section AvailabilityClaims.

Context `{Host}.

(** C5. Two runs of [computeFreeSlots] on the same busy blocks, date range
    and duration, whose preferences differ only in [bufferBeforeMinutes]
    and [bufferAfterMinutes], give the same result: the buffers never
    shrink, shift or remove a window. *)
Theorem computeFreeSlots_ignores_buffers (busy : list TimeSlot)
    (startDate endDate : string) (durationMinutes : number) (p q : Preferences) :
  differOnlyInBuffers p q ->
  computeFreeSlots {| FreeSlots.busyBlocks := busy;
                      FreeSlots.startDate := startDate;
                      FreeSlots.endDate := endDate;
                      FreeSlots.prefs := p;
                      FreeSlots.durationMinutes := durationMinutes |}
  = computeFreeSlots {| FreeSlots.busyBlocks := busy;
                        FreeSlots.startDate := startDate;
                        FreeSlots.endDate := endDate;
                        FreeSlots.prefs := q;
                        FreeSlots.durationMinutes := durationMinutes |}.
Proof.
  intros (Hstart & Hend & _ & _ & _ & _ & Hdays & _).
  unfold computeFreeSlots. cbn [FreeSlots.prefs FreeSlots.busyBlocks
    FreeSlots.startDate FreeSlots.endDate FreeSlots.durationMinutes].
  now rewrite Hstart, Hend, Hdays.
Qed.

(** C6. The engine returns, and no window it returns overlaps an input
    busy block clipped to the working hours of the window's day. The same
    holds for the blocks as they were given, hence for their clipping to
    any day. *)
Theorem computeFreeSlots_windows_avoid_busy_blocks (params : FreeSlots.params) :
  exists ws,
    computeFreeSlots params = Ok ws
    /\ forall w, In w ws ->
       exists day ds de s e,
         loopDay params day
         /\ dayStartOf params day = Some ds
         /\ dayEndOf params day = Some de
         /\ w = slotOf s e
         /\ ds <= s /\ s < e /\ e <= de
         /\ (forall b cs ce,
               In b (FreeSlots.busyBlocks params) ->
               overlapsDay (Some ds) (Some de) (toDates b) = true ->
               Block.start (clamp (Some ds) (Some de) (toDates b)) = Some cs ->
               Block.end_ (clamp (Some ds) (Some de) (toDates b)) = Some ce ->
               ~ overlap s e cs ce)
         /\ (forall b bs be,
               In b (FreeSlots.busyBlocks params) ->
               Date_parse (start b) = Some bs ->
               Date_parse (end_ b) = Some be ->
               ~ overlap s e bs be).
Proof.
  destruct (computeFreeSlots_sound params) as (ws & Hrun & Hws).
  exists ws. split; [exact Hrun|].
  rewrite List.Forall_forall in Hws. intros w Hw.
  destruct (Hws w Hw)
    as (day & Hday & ds & de & s & e & Hds & Hde & -> & Hs & Hse & He & _ & Hclip & Hraw).
  exists day, ds, de, s, e. repeat split; assumption.
Qed.

(** C7. The engine returns, and every window it returns lasts at least
    [durationMinutes]. A candidate gap shorter than that is dropped where
    it would have been pushed. *)
Theorem computeFreeSlots_windows_long_enough (params : FreeSlots.params) :
  (exists ws,
      computeFreeSlots params = Ok ws
      /\ forall w, In w ws ->
         exists s e, w = slotOf s e /\ s < e
                     /\ longEnough (FreeSlots.durationMinutes params) s e)
  /\ (forall d x y fw,
        FreeSlots.durationMinutes params = Some d ->
        y - x < d * 60 * 1000 ->
        pushIfLongEnough (minWindowMsOf params) (Some x) (Some y) fw = Ok fw).
Proof.
  split.
  - destruct (computeFreeSlots_sound params) as (ws & Hrun & Hws).
    exists ws. split; [exact Hrun|].
    rewrite List.Forall_forall in Hws. intros w Hw.
    destruct (Hws w Hw)
      as (day & _ & ds & de & s & e & _ & _ & -> & _ & Hse & _ & Hlong & _).
    now exists s, e.
  - intros d x y fw Hd Hshort.
    unfold pushIfLongEnough, minWindowMsOf, minWindowMs, ge, le. rewrite Hd. cbn.
    destruct (d * 60 * 1000 <=? y - x) eqn:E; [|reflexivity].
    apply Z.leb_le in E. lia.
Qed.

(** C10. The engine is total: on every input it returns a list of windows,
    it neither throws nor runs out of fuel. When the working hours end at
    or before the time they start, the list is empty: no day of the range
    contributes a window. (The host keeps one offset from UTC throughout,
    as everywhere in this development.) *)
Theorem computeFreeSlots_total (params : FreeSlots.params) :
  (exists ws, computeFreeSlots params = Ok ws)
  /\ (forall a b,
        minutesOfDay (startHourMin params) = Some a ->
        minutesOfDay (endHourMin params) = Some b ->
        b <= a ->
        computeFreeSlots params = Ok []).
Proof.
  destruct (computeFreeSlots_sound params) as (ws & Hrun & Hws).
  split; [now exists ws|].
  intros a b Ha Hb Hle. rewrite Hrun.
  destruct ws as [|w ws]; [reflexivity|].
  inversion Hws as [|? ? Hw _]; subst.
  now destruct (malformed_hours_no_window params a b w Ha Hb Hle).
Qed.

End AvailabilityClaims.

(** The scenario of the specification: two windows, 09:00 to 10:00 and
    11:00 to 18:00. *)
Example tuesday_windows :
  @computeFreeSlots utcHost tuesdayParams
  = Ok [ {| start := "2024-01-02T09:00:00.000Z"; end_ := "2024-01-02T10:00:00.000Z" |};
         {| start := "2024-01-02T11:00:00.000Z"; end_ := "2024-01-02T18:00:00.000Z" |} ].
Proof. vm_compute. reflexivity. Qed.

(** A meeting that covers the working hours leaves no window. *)
Example covered_day_has_no_window :
  @computeFreeSlots utcHost
     (scenario [ {| start := "2024-01-02T09:00:00Z"; end_ := "2024-01-02T18:00:00Z" |} ]
               "2024-01-02" "2024-01-02" 30)
  = Ok [].
Proof. vm_compute. reflexivity. Qed.

(** An hour is asked for and 45 minutes remain after the meeting: the gap
    is left out. *)
Example short_gap_is_left_out :
  @computeFreeSlots utcHost
     (scenario [ {| start := "2024-01-02T09:00:00Z"; end_ := "2024-01-02T17:15:00Z" |} ]
               "2024-01-02" "2024-01-02" 60)
  = Ok [].
Proof. vm_compute. reflexivity. Qed.

(** Saturday 6 and Sunday 7 January 2024 give nothing, whatever the
    calendar holds; Friday and Monday give their full working hours. *)
Example weekend_is_skipped :
  @computeFreeSlots utcHost (scenario [] "2024-01-05" "2024-01-08" 30)
  = Ok [ {| start := "2024-01-05T09:00:00.000Z"; end_ := "2024-01-05T18:00:00.000Z" |};
         {| start := "2024-01-08T09:00:00.000Z"; end_ := "2024-01-08T18:00:00.000Z" |} ].
Proof. vm_compute. reflexivity. Qed.

(** Blocks given out of order, overlapping each other and the bounds. *)
Example unordered_blocks :
  @computeFreeSlots utcHost
     (scenario [ {| start := "2024-01-02T14:00:00Z"; end_ := "2024-01-02T19:30:00Z" |};
                 {| start := "2024-01-02T08:00:00Z"; end_ := "2024-01-02T09:30:00Z" |};
                 {| start := "2024-01-02T11:00:00Z"; end_ := "2024-01-02T12:00:00Z" |};
                 {| start := "2024-01-02T11:30:00Z"; end_ := "2024-01-02T11:45:00Z" |} ]
               "2024-01-02" "2024-01-02" 30)
  = Ok [ {| start := "2024-01-02T09:30:00.000Z"; end_ := "2024-01-02T11:00:00.000Z" |};
         {| start := "2024-01-02T12:00:00.000Z"; end_ := "2024-01-02T14:00:00.000Z" |} ].
Proof. vm_compute. reflexivity. Qed.

Example split_working_hours : split ":" "09:00" = ["09"; "00"].
Proof. reflexivity. Qed.

Lemma computeFreeSlots_ignores_buffers_witness :
  @computeFreeSlots utcHost
     {| FreeSlots.busyBlocks := FreeSlots.busyBlocks tuesdayParams;
        FreeSlots.startDate := "2024-01-02";
        FreeSlots.endDate := "2024-01-02";
        FreeSlots.prefs := defaultPreferences;
        FreeSlots.durationMinutes := Some 30 |}
  = @computeFreeSlots utcHost
     {| FreeSlots.busyBlocks := FreeSlots.busyBlocks tuesdayParams;
        FreeSlots.startDate := "2024-01-02";
        FreeSlots.endDate := "2024-01-02";
        FreeSlots.prefs := wideBuffers;
        FreeSlots.durationMinutes := Some 30 |}.
Proof.
  apply (@computeFreeSlots_ignores_buffers utcHost).
  repeat split.
Defined.

Lemma computeFreeSlots_windows_avoid_busy_blocks_witness :
  exists ws,
    @computeFreeSlots utcHost tuesdayParams = Ok ws
    /\ forall w, In w ws ->
       exists s e, w = @slotOf utcHost s e
                   /\ ~ overlap s e 1704189600000 1704193200000.
Proof.
  destruct (@computeFreeSlots_windows_avoid_busy_blocks utcHost tuesdayParams)
    as (ws & Hrun & Hws).
  exists ws. split; [exact Hrun|].
  intros w Hw.
  destruct (Hws w Hw) as (day & ds & de & s & e & _ & _ & _ & -> & _ & _ & _ & _ & Hraw).
  exists s, e. split; [reflexivity|].
  apply (Hraw {| start := "2024-01-02T10:00:00Z"; end_ := "2024-01-02T11:00:00Z" |});
    [left; reflexivity | reflexivity | reflexivity].
Defined.

Lemma computeFreeSlots_windows_long_enough_witness :
  exists ws,
    @computeFreeSlots utcHost tuesdayParams = Ok ws
    /\ forall w, In w ws ->
       exists s e, w = @slotOf utcHost s e /\ 30 * 60 * 1000 <= e - s.
Proof.
  destruct (@computeFreeSlots_windows_long_enough utcHost tuesdayParams)
    as [(ws & Hrun & Hws) _].
  exists ws. split; [exact Hrun|].
  intros w Hw.
  destruct (Hws w Hw) as (s & e & -> & _ & d & Hd & Hlong).
  exists s, e. split; [reflexivity|].
  injection Hd as <-. exact Hlong.
Defined.

Lemma computeFreeSlots_total_witness :
  @computeFreeSlots utcHost malformedParams = Ok [].
Proof.
  destruct (@computeFreeSlots_total utcHost malformedParams) as [_ Hempty].
  apply (Hempty 1080 540); [reflexivity | reflexivity | lia].
Defined.

(** ** The reference host *)

Example utcHost_parse :
  @Date_parse utcHost "2024-01-02T10:00:00.000Z" = Some 1704189600000.
Proof. reflexivity. Qed.

Example utcHost_print :
  @Date_toISOString utcHost 1704189600000 = "2024-01-02T10:00:00.000Z".
Proof. reflexivity. Qed.

Example utcHost_weekday :
  @getDay utcHost (Some 1704189600000) = Some 2.
Proof. reflexivity. Qed.


(* ===================================================================== *)
(** * Further properties of the code                                      *)
(* ===================================================================== *)

(** ** The thread store *)

Section MoreThreadStoreFacts.

Variable now : string.

Lemma upsertThread_database (params : Params.t) (d : Database) :
  snd (upsertThread now params d) = snd (run_upsert now params d).
Proof.
  unfold upsertThread, bind, getThread.
  now destruct (run_upsert now params d) as [[[]|e|] d'].
Qed.

(** X1. A write for a conversation that is not on file inserts a row with
    the next identifier of the counter, the given state, the requester
    address or the empty string, and both timestamps set to the current
    time; [getThread] then returns what [upsertThread] returned, and every
    other conversation reads as before. *)
Theorem upsertThread_inserts (d : Database) (params : Params.t) (tid st : string) :
  Params.threadId params = Some tid ->
  Params.state params = Some st ->
  threads d !! tid = None ->
  exists row d',
    upsertThread now params d = (Ok (Some (rowToThread row)), d')
    /\ getThread tid d' = (Ok (Some (rowToThread row)), d')
    /\ Row.id row = threads_seq d + 1
    /\ threads_seq d' = threads_seq d + 1
    /\ Row.thread_id row = tid
    /\ Row.state row = st
    /\ Row.requester_email row = default "" (Params.requesterEmail params)
    /\ Row.created_at row = now
    /\ Row.updated_at row = now
    /\ (forall other, other <> tid -> getThread other d' = (fst (getThread other d), d')).
Proof.
  intros Htid Hst Hnone.
  exists (excluded_row now d tid st params).
  exists {| preferences := preferences d;
            threads := <[tid := excluded_row now d tid st params]> (threads d);
            threads_seq := threads_seq d + 1 |}.
  unfold upsertThread, bind.
  rewrite (run_upsert_fresh now d params tid st Htid Hst Hnone).
  rewrite Htid. unfold getThread. cbn [default Datatypes.id threads threads_seq fst].
  rewrite lookup_insert_eq. repeat (split; [reflexivity|]).
  intros other Hne. now rewrite lookup_insert_ne.
Qed.

(** X2. Writing the same values twice leaves every row and every
    preference as writing them once (the clock standing still), and the
    second call returns what the first returned; the second write only
    consumes one more identifier of the counter when it goes through, and
    nothing when it is rejected. *)
Theorem upsertThread_idempotent (d : Database) (params : Params.t) :
  threads (snd (upsertThread now params (snd (upsertThread now params d))))
  = threads (snd (upsertThread now params d))
  /\ preferences (snd (upsertThread now params (snd (upsertThread now params d))))
     = preferences (snd (upsertThread now params d))
  /\ fst (upsertThread now params (snd (upsertThread now params d)))
     = fst (upsertThread now params d)
  /\ threads_seq (snd (upsertThread now params (snd (upsertThread now params d))))
     = threads_seq (snd (upsertThread now params d))
       + match Params.threadId params, Params.state params with
         | Some _, Some _ => 1
         | _, _ => 0
         end.
Proof.
  assert (Hrow : forall old tid st,
    do_update now (do_update now old (excluded_row now d tid st params))
      (excluded_row now
         {| preferences := preferences d;
            threads := <[tid := do_update now old (excluded_row now d tid st params)]>
                         (threads d);
            threads_seq := threads_seq d + 1 |} tid st params)
    = do_update now old (excluded_row now d tid st params)).
  { intros old tid st. unfold do_update, excluded_row, COALESCE. cbn.
    destruct (Params.requesterName params), (Params.attendeeEmail params),
      (Params.meetingTitle params), (Params.meetingDurationMinutes params),
      (Params.calendarEventId params); reflexivity. }
  assert (Hnew : forall tid st,
    do_update now (excluded_row now d tid st params)
      (excluded_row now
         {| preferences := preferences d;
            threads := <[tid := excluded_row now d tid st params]> (threads d);
            threads_seq := threads_seq d + 1 |} tid st params)
    = excluded_row now d tid st params).
  { intros tid st. unfold do_update, excluded_row, COALESCE. cbn.
    destruct (Params.requesterName params), (Params.attendeeEmail params),
      (Params.meetingTitle params), (Params.meetingDurationMinutes params),
      (Params.calendarEventId params); reflexivity. }
  destruct (Params.threadId params) as [tid|] eqn:Htid.
  2:{ unfold upsertThread, bind, run_upsert. rewrite Htid. cbn.
      repeat split; try reflexivity. lia. }
  destruct (Params.state params) as [st|] eqn:Hst.
  2:{ unfold upsertThread, bind, run_upsert. rewrite Htid, Hst. cbn.
      repeat split; try reflexivity. lia. }
  assert (Hagain : forall row,
    threads d !! tid = Some row ->
    upsertThread now params d
    = (Ok (Some (rowToThread (do_update now row (excluded_row now d tid st params)))),
       {| preferences := preferences d;
          threads := <[tid := do_update now row (excluded_row now d tid st params)]>
                       (threads d);
          threads_seq := threads_seq d + 1 |})).
  { intros row Hrow'. unfold upsertThread, bind.
    rewrite (run_upsert_conflict now d params tid st row Htid Hst Hrow'), Htid.
    unfold getThread. cbn [default threads]. now rewrite lookup_insert_eq. }
  destruct (threads d !! tid) as [old|] eqn:Hold.
  - rewrite (Hagain old eq_refl). cbn [snd fst].
    set (d1 := {| preferences := preferences d;
                  threads := <[tid := do_update now old (excluded_row now d tid st params)]>
                               (threads d);
                  threads_seq := threads_seq d + 1 |}).
    assert (E : upsertThread now params d1
      = (Ok (Some (rowToThread (do_update now old (excluded_row now d tid st params)))),
         {| preferences := preferences d;
            threads := <[tid := do_update now old (excluded_row now d tid st params)]>
                         (threads d);
            threads_seq := threads_seq d + 1 + 1 |})).
    { unfold upsertThread, bind.
      rewrite (run_upsert_conflict now d1 params tid st
                 (do_update now old (excluded_row now d tid st params)) Htid Hst)
        by (unfold d1; cbn [threads]; apply lookup_insert_eq).
      rewrite Htid. unfold getThread, d1.
      cbn [default threads preferences threads_seq].
      now rewrite insert_insert_eq, Hrow, lookup_insert_eq. }
    rewrite E. cbn [snd fst threads preferences threads_seq d1].
    repeat split; reflexivity.
  - assert (Efirst : upsertThread now params d
      = (Ok (Some (rowToThread (excluded_row now d tid st params))),
         {| preferences := preferences d;
            threads := <[tid := excluded_row now d tid st params]> (threads d);
            threads_seq := threads_seq d + 1 |})).
    { unfold upsertThread, bind.
      rewrite (run_upsert_fresh now d params tid st Htid Hst Hold), Htid.
      unfold getThread. cbn [default threads]. now rewrite lookup_insert_eq. }
    rewrite Efirst. cbn [snd fst].
    set (d1 := {| preferences := preferences d;
                  threads := <[tid := excluded_row now d tid st params]> (threads d);
                  threads_seq := threads_seq d + 1 |}).
    assert (E : upsertThread now params d1
      = (Ok (Some (rowToThread (excluded_row now d tid st params))),
         {| preferences := preferences d;
            threads := <[tid := excluded_row now d tid st params]> (threads d);
            threads_seq := threads_seq d + 1 + 1 |})).
    { unfold upsertThread, bind.
      rewrite (run_upsert_conflict now d1 params tid st
                 (excluded_row now d tid st params) Htid Hst)
        by (unfold d1; cbn [threads]; apply lookup_insert_eq).
      rewrite Htid. unfold getThread, d1.
      cbn [default threads preferences threads_seq].
      now rewrite insert_insert_eq, Hnew, lookup_insert_eq. }
    rewrite E. cbn [snd fst threads preferences threads_seq d1].
    repeat split; reflexivity.
Qed.

(** X3. The shape that the schema imposes on the table (one row per
    conversation identifier, stored under it; positive row identifiers,
    bounded by the counter and never shared) is kept by every upsert,
    accepted or rejected. *)
Theorem upsertThread_keeps_store_consistent (d : Database) (params : Params.t) :
  consistentStore d ->
  consistentStore (snd (upsertThread now params d)).
Proof.
  intros (Hseq & Hkeyed & Hdistinct). rewrite upsertThread_database.
  destruct (Params.threadId params) as [tid|] eqn:Htid.
  2:{ unfold run_upsert. rewrite Htid. exact (conj Hseq (conj Hkeyed Hdistinct)). }
  destruct (Params.state params) as [st|] eqn:Hst.
  2:{ unfold run_upsert. rewrite Htid, Hst. exact (conj Hseq (conj Hkeyed Hdistinct)). }
  destruct (threads d !! tid) as [old|] eqn:Hold.
  - rewrite (run_upsert_conflict now d params tid st old Htid Hst Hold).
    cbn [snd]. destruct (Hkeyed tid old Hold) as [Hkey Hid].
    assert (Hlook : forall t r,
      <[tid := do_update now old (excluded_row now d tid st params)]> (threads d) !! t = Some r ->
      exists r0, threads d !! t = Some r0 /\ Row.id r = Row.id r0
                 /\ Row.thread_id r = Row.thread_id r0).
    { intros t r. destruct (decide (tid = t)) as [<-|Hne].
      - rewrite lookup_insert_eq. intros [= <-]. now exists old.
      - rewrite lookup_insert_ne by assumption. intros Hr. now exists r. }
    split; [cbn; lia|]. split; cbn [threads threads_seq].
    + intros t r Hr. destruct (Hlook t r Hr) as (r0 & Hr0 & -> & ->).
      destruct (Hkeyed t r0 Hr0). split; [assumption | lia].
    + intros t1 t2 r1 r2 H1 H2 Hsame.
      destruct (Hlook t1 r1 H1) as (r1' & H1' & E1 & _).
      destruct (Hlook t2 r2 H2) as (r2' & H2' & E2 & _).
      apply (Hdistinct t1 t2 r1' r2' H1' H2'). congruence.
  - rewrite (run_upsert_fresh now d params tid st Htid Hst Hold).
    cbn [snd]. split; [cbn; lia|]. split; cbn [threads threads_seq].
    + intros t r. destruct (decide (tid = t)) as [<-|Hne].
      * rewrite lookup_insert_eq. intros [= <-]. cbn.
        split; [reflexivity | lia].
      * rewrite lookup_insert_ne by assumption. intros Hr.
        destruct (Hkeyed t r Hr). split; [assumption | lia].
    + intros t1 t2 r1 r2.
      destruct (decide (tid = t1)) as [<-|Hne1], (decide (tid = t2)) as [<-|Hne2];
        rewrite ?lookup_insert_eq, ?lookup_insert_ne by assumption; try reflexivity.
      * intros [= <-] H2 Hsame. destruct (Hkeyed t2 r2 H2) as [_ Hid].
        cbn in Hsame. lia.
      * intros H1 [= <-] Hsame. destruct (Hkeyed t1 r1 H1) as [_ Hid].
        cbn in Hsame. lia.
      * apply Hdistinct.
Qed.

End MoreThreadStoreFacts.

Lemma sampleDb_consistent : consistentStore sampleDb.
Proof.
  split; [cbn; lia|]. split.
  - intros tid row Hrow. cbn [sampleDb threads] in Hrow.
    apply lookup_singleton_Some in Hrow.
    destruct Hrow as [<- <-]. cbn. split; [reflexivity | lia].
  - intros t1 t2 r1 r2 H1 H2 _. cbn [sampleDb threads] in H1, H2.
    apply lookup_singleton_Some in H1, H2. destruct H1 as [<- _], H2 as [<- _].
    reflexivity.
Qed.

Lemma upsertThread_inserts_witness :
  exists row,
    fst (upsertThread "2024-01-03 10:00:00" (stateOnly "thr-2" "new") sampleDb)
    = Ok (Some (rowToThread row))
    /\ Row.id row = 2 /\ Row.requester_email row = "".
Proof.
  destruct (upsertThread_inserts "2024-01-03 10:00:00" sampleDb (stateOnly "thr-2" "new")
              "thr-2" "new" eq_refl eq_refl eq_refl)
    as (row & d' & Hrun & _ & Hid & _ & _ & _ & Hmail & _).
  exists row. rewrite Hrun. repeat split; assumption.
Defined.

Lemma upsertThread_keeps_store_consistent_witness :
  consistentStore
    (snd (upsertThread "2024-01-03 10:00:00" (stateOnly "thr-2" "new") sampleDb)).
Proof.
  apply upsertThread_keeps_store_consistent. exact sampleDb_consistent.
Defined.

(** ** The webhook's bootstrap *)

Section WebhookFacts.

Variable now : string.

(** X4. The look-up-or-bootstrap step of the webhook returns the thread on
    file and writes nothing when the conversation is known; otherwise it
    inserts a row in state [new] that records the sender as requester, and
    returns it. *)
Theorem lookupOrBootstrap_spec (d : Database) (tid fromEmail : string)
    (fromName : option string) :
  (forall row, threads d !! tid = Some row ->
     lookupOrBootstrap now tid fromEmail fromName d = (Ok (Some (rowToThread row)), d))
  /\ (threads d !! tid = None ->
      exists row d',
        lookupOrBootstrap now tid fromEmail fromName d = (Ok (Some (rowToThread row)), d')
        /\ threads d' !! tid = Some row
        /\ Row.state row = "new"
        /\ Row.requester_email row = fromEmail
        /\ Row.requester_name row = fromName
        /\ Row.calendar_event_id row = None
        /\ Row.proposed_slots row = None
        /\ (forall other, other <> tid -> threads d' !! other = threads d !! other)).
Proof.
  split.
  - intros row Hrow. unfold lookupOrBootstrap, bind, getThread.
    now rewrite Hrow.
  - intros Hnone. unfold lookupOrBootstrap, bind, getThread at 1. rewrite Hnone.
    cbn [fmap option_fmap option_map].
    match goal with |- context [upsertThread now ?p d] => set (params := p) end.
    destruct (upsertThread_stores now d params tid "new" eq_refl eq_refl)
      as (d' & Hrun & Hthreads & _).
    exists (upsertedRow now d params tid "new"), d'.
    split; [exact Hrun|]. rewrite Hthreads, lookup_insert_eq.
    unfold upsertedRow. rewrite Hnone. cbn.
    repeat (split; [reflexivity|]).
    intros other Hne. now rewrite lookup_insert_ne.
Qed.

End WebhookFacts.

Lemma lookupOrBootstrap_spec_witness :
  lookupOrBootstrap "2024-01-03 10:00:00" "thr-1" "eve@example.org" None sampleDb
  = (Ok (Some (rowToThread sampleRow)), sampleDb)
  /\ exists row d',
       lookupOrBootstrap "2024-01-03 10:00:00" "thr-2" "eve@example.org" None sampleDb
       = (Ok (Some (rowToThread row)), d')
       /\ Row.state row = "new".
Proof.
  destruct (lookupOrBootstrap_spec "2024-01-03 10:00:00" sampleDb "thr-1"
              "eve@example.org" None) as [Hknown _].
  destruct (lookupOrBootstrap_spec "2024-01-03 10:00:00" sampleDb "thr-2"
              "eve@example.org" None) as [_ Hnew].
  split; [exact (Hknown sampleRow eq_refl)|].
  destruct (Hnew eq_refl) as (row & d' & Hrun & _ & Hstate & _).
  now exists row, d'.
Defined.

(** ** The preference store *)

Section MorePreferenceFacts.

Context `{Host}.

Lemma seed_lookup (l : list (string * string)) (m : gmap string string) (k : string) :
  fold_left (fun m kv => insert_or_ignore (fst kv) (snd kv) m) l m !! k
  = match m !! k with
    | Some v => Some v
    | None => firstBinding k l
    end.
Proof.
  revert m. induction l as [|[k0 v0] l IH]; intros m; cbn [fold_left].
  - now destruct (m !! k).
  - rewrite IH. unfold insert_or_ignore, firstBinding. cbn [fst snd List.find].
    destruct (String.eqb k0 k) eqn:E.
    + apply String.eqb_eq in E. subst k0.
      destruct (m !! k) as [v|] eqn:Hk; [now rewrite Hk|].
      now rewrite lookup_insert_eq.
    + apply String.eqb_neq in E.
      destruct (m !! k0) as [v|] eqn:Hk0; [reflexivity|].
      rewrite lookup_insert_ne by assumption. reflexivity.
Qed.

(** X5. Seeding the defaults is insert-if-absent: a stored value is never
    overwritten, a missing default key receives its default, afterwards
    every field of the preference record has a value, the threads are
    untouched, and seeding a second time changes nothing. *)
Theorem seedDefaultPreferences_insert_if_absent (d : Database) :
  (forall k v, preferences d !! k = Some v ->
     preferences (seedDefaultPreferences d) !! k = Some v)
  /\ (forall k, preferences d !! k = None ->
      preferences (seedDefaultPreferences d) !! k = firstBinding k DEFAULT_PREFERENCES)
  /\ (forall k, In k preferenceFields ->
      is_Some (preferences (seedDefaultPreferences d) !! k))
  /\ threads (seedDefaultPreferences d) = threads d
  /\ seedDefaultPreferences (seedDefaultPreferences d) = seedDefaultPreferences d.
Proof.
  assert (Hlook : forall k,
    preferences (seedDefaultPreferences d) !! k
    = match preferences d !! k with
      | Some v => Some v
      | None => firstBinding k DEFAULT_PREFERENCES
      end).
  { intros k. unfold seedDefaultPreferences. cbn [preferences]. apply seed_lookup. }
  split; [|split; [|split; [|split]]].
  - intros k v Hk. now rewrite Hlook, Hk.
  - intros k Hk. now rewrite Hlook, Hk.
  - intros k Hk. rewrite Hlook. destruct (preferences d !! k); [eauto|].
    cbn in Hk. repeat (destruct Hk as [<-|Hk]; [cbn; eauto|]). contradiction.
  - reflexivity.
  - assert (Hfix :
      fold_left (fun m kv => insert_or_ignore (fst kv) (snd kv) m)
                DEFAULT_PREFERENCES (preferences (seedDefaultPreferences d))
      = preferences (seedDefaultPreferences d)).
    { apply map_eq. intros k. rewrite seed_lookup, Hlook.
      destruct (preferences d !! k); [reflexivity|].
      now destruct (firstBinding k DEFAULT_PREFERENCES). }
    unfold seedDefaultPreferences at 1. rewrite Hfix.
    now destruct (seedDefaultPreferences d).
Qed.

(** X6. A preference written through [toolSetPreference] is what
    [getPreferences] reads back: the text itself for the string fields,
    [Number] of it for the numeric fields, its parse for [noMeetingDays];
    every other field reads as before. *)
Theorem toolSetPreference_then_getPreferences (key value : string)
    (days : list Z) (d : Database) (p : Preferences) :
  In key validKeys ->
  fst (getPreferences d) = Ok p ->
  (key = "noMeetingDays" -> JSON_parse value = Some days) ->
  fst (getPreferences (snd (toolSetPreference key value d)))
  = Ok (withField key value days p).
Proof.
  intros Hkey Hp Hdays.
  unfold getPreferences in Hp.
  destruct (JSON_parse (default "[0,6]" (preferences d !! "noMeetingDays")))
    as [days0|] eqn:Hparse; [|discriminate Hp].
  cbn [fst] in Hp. injection Hp as <-.
  cbn in Hkey.
  repeat (destruct Hkey as [<-|Hkey];
    [ unfold toolSetPreference, setPreference, getPreferences, numberOr, withField;
      cbn [includes_key validKeys existsb String.eqb Ascii.eqb Bool.eqb orb negb
           snd fst preferences];
      rewrite ?lookup_insert_eq, ?lookup_insert_ne by discriminate;
      cbn [default Datatypes.id];
      try (rewrite (Hdays eq_refl)); try rewrite Hparse; reflexivity |]).
  contradiction.
Qed.

(** X7. Once the text stored under [noMeetingDays] does not parse, every
    call of [executeTool] throws before it looks at the tool name, and
    writes nothing: no tool works any more, [set_preference] included. *)
Theorem unparsable_noMeetingDays_disables_every_tool `{Services}
    (now value : string) (d : Database)
    (toolName : string) (toolInput : gmap string Value) (ctx : AgentContext)
    (calls : list CalendarCall) :
  JSON_parse value = None ->
  executeTool now toolName toolInput ctx
    {| db := snd (toolSetPreference "noMeetingDays" value d); calendarCalls := calls |}
  = (Throw SyntaxError,
     {| db := snd (toolSetPreference "noMeetingDays" value d); calendarCalls := calls |}).
Proof.
  intros Hbad. unfold executeTool, bind, liftDb, toolGetPreferences, getPreferences.
  cbn [db calendarCalls toolSetPreference setPreference includes_key validKeys
       existsb String.eqb Ascii.eqb Bool.eqb orb negb snd preferences].
  rewrite lookup_insert_eq. cbn [default Datatypes.id]. now rewrite Hbad.
Qed.

End MorePreferenceFacts.

Lemma toolSetPreference_then_getPreferences_witness :
  fst (@getPreferences utcHost (snd (toolSetPreference "maxMeetingsPerDay" "4" sampleDb)))
  = Ok (@withField utcHost "maxMeetingsPerDay" "4" [] defaultPreferences).
Proof.
  apply (@toolSetPreference_then_getPreferences utcHost).
  - cbn. tauto.
  - reflexivity.
  - discriminate.
Defined.

Lemma unparsable_noMeetingDays_disables_every_tool_witness :
  fst (@executeTool utcHost obligingServices "2024-01-03 10:00:00" "set_preference"
         {[ "key" := VString "noMeetingDays"; "value" := VString "[0,6]" ]}
         sampleContext
         {| db := snd (toolSetPreference "noMeetingDays" "weekends" sampleDb);
            calendarCalls := [] |})
  = Throw SyntaxError.
Proof.
  rewrite (@unparsable_noMeetingDays_disables_every_tool utcHost obligingServices);
    reflexivity.
Defined.

(** ** The tool dispatcher *)

Section DispatcherFacts.

Context `{Host} `{Services}.
Variable now : string.

Lemma run_upsert_frame (params : Params.t) (d : Database) (tid other : string) :
  Params.threadId params = Some tid -> other <> tid ->
  threads (snd (run_upsert now params d)) !! other = threads d !! other.
Proof.
  intros Htid Hne. unfold run_upsert. rewrite Htid.
  destruct (Params.state params); [|reflexivity].
  destruct (threads d !! tid); cbn [snd threads];
    now rewrite lookup_insert_ne by congruence.
Qed.

Lemma run_upsert_preferences (params : Params.t) (d : Database) :
  preferences (snd (run_upsert now params d)) = preferences d.
Proof.
  unfold run_upsert.
  destruct (Params.threadId params); [|reflexivity].
  destruct (Params.state params); [|reflexivity].
  now destruct (threads d !! _).
Qed.

(** What a booking can do to the database: nothing, or the one write that
    marks the thread of the e-mail as booked. *)
Lemma bookMeeting_database (toolInput : gmap string Value) (ctx : AgentContext)
    (w : World) :
  db (snd (bookMeeting now toolInput ctx w)) = db w
  \/ exists booking,
       fst (bookMeeting now toolInput ctx w) = Ok booking
       /\ db (snd (bookMeeting now toolInput ctx w))
          = snd (upsertThread now (bookedParams toolInput ctx booking) (db w)).
Proof.
  destruct w as [d calls].
  unfold bookMeeting, bind, liftDb, toolGetPreferences. cbn [db calendarCalls].
  pose proof (getPreferences_reads d) as Hread.
  destruct (getPreferences d) as [[prefs|e|] d0]; cbn [snd] in Hread; subst d0;
    try (now left).
  unfold toolGetThread, getThread. cbn [db calendarCalls].
  assert (Hstore : forall booking calls',
    (let (r, s') :=
       let (r0, db') := toolUpdateThreadState now (bookedParams toolInput ctx booking) d in
       (r0, {| db := db'; calendarCalls := calls' |}) in
     match r with
     | Ok _ => ret booking s'
     | Throw e => (Throw e, s')
     | OutOfFuel => (OutOfFuel, s')
     end)
    = (Ok booking,
       {| db := snd (upsertThread now (bookedParams toolInput ctx booking) d);
          calendarCalls := calls' |})).
  { intros booking calls'. unfold toolUpdateThreadState.
    destruct (upsertThread_stores now d (bookedParams toolInput ctx booking)
                (threadId (email ctx)) "booked" eq_refl eq_refl) as (d' & Hrun & _).
    now rewrite Hrun. }
  match goal with |- context [truthy ?c] => destruct (truthy c) end.
  - unfold try_catch, toolUpdateCalendarEvent, toolCreateCalendarEvent, bind, call,
      ret, throw.
    cbn [db calendarCalls].
    destruct (events_patch _ _); cbn [db calendarCalls].
    + right. eexists. rewrite Hstore. cbn [fst snd db]. split; reflexivity.
    + destruct (events_insert _); cbn [db calendarCalls]; [|now left].
      right. eexists. rewrite Hstore. cbn [fst snd db]. split; reflexivity.
  - unfold toolCreateCalendarEvent, bind, call, ret, throw. cbn [db calendarCalls].
    destruct (events_insert _); cbn [db calendarCalls]; [|now left].
    right. eexists. rewrite Hstore. cbn [fst snd db]. split; reflexivity.
Qed.

(** What a tool call can do to the database: nothing, one preference
    write, or one upsert of the thread of the e-mail. *)
Lemma executeTool_database (toolName : string) (toolInput : gmap string Value)
    (ctx : AgentContext) (w : World) :
  db (snd (executeTool now toolName toolInput ctx w)) = db w
  \/ (toolName = "set_preference"
      /\ exists key value,
           db (snd (executeTool now toolName toolInput ctx w))
           = snd (setPreference key value (db w)))
  \/ (exists params,
        Params.threadId params = Some (threadId (email ctx))
        /\ db (snd (executeTool now toolName toolInput ctx w))
           = snd (upsertThread now params (db w))).
Proof.
  destruct w as [d calls].
  unfold executeTool, bind, liftDb, toolGetPreferences. cbn [db calendarCalls].
  pose proof (getPreferences_reads d) as Hread.
  destruct (getPreferences d) as [[prefs|e|] d0]; cbn [snd] in Hread; subst d0;
    try (now left).
  destruct (String.eqb toolName "get_preferences"); [now left|].
  destruct (String.eqb toolName "set_preference") eqn:Eset.
  { apply String.eqb_eq in Eset. unfold setPreferenceCase, throw, liftDb, toolSetPreference.
    destruct (asString (toolInput !! "key")) as [key|]; [|now left].
    destruct (asString (toolInput !! "value")) as [value|].
    - cbn [db calendarCalls].
      destruct (negb (includes_key validKeys key)); [now left|].
      right; left. split; [assumption|]. now exists key, value.
    - destruct (negb (includes_key validKeys key)); now left. }
  destruct (isRemoteTool toolName); [now left|].
  destruct (String.eqb toolName "update_thread_state").
  { unfold updateThreadState, liftDb, toolUpdateThreadState. cbn [db calendarCalls].
    right; right.
    match goal with |- context [upsertThread now ?p d] => exists p end.
    split; [reflexivity|].
    now destruct (upsertThread now _ d) as [[t|e|] d1]. }
  destruct (String.eqb toolName "book_meeting").
  { destruct (bookMeeting_database toolInput ctx {| db := d; calendarCalls := calls |})
      as [Hsame|(booking & _ & Hwrite)].
    - left. now destruct (bookMeeting now toolInput ctx _) as [[b|e|] w1].
    - right; right. exists (bookedParams toolInput ctx booking).
      split; [reflexivity|].
      now destruct (bookMeeting now toolInput ctx _) as [[b|e|] w1]. }
  destruct (String.eqb toolName "cancel_meeting"); [|now left].
  unfold cancelMeeting, toolCancelCalendarEvent, bind, call, ret, throw.
  cbn [db calendarCalls]. left. now destruct (events_cancel _).
Qed.

(** X8. A tool call never touches a conversation other than the one of
    the incoming e-mail, and no tool but [set_preference] changes a
    preference. *)
Theorem executeTool_touches_only_its_thread (toolName : string)
    (toolInput : gmap string Value) (ctx : AgentContext) (w : World) :
  (forall other, other <> threadId (email ctx) ->
     threads (db (snd (executeTool now toolName toolInput ctx w))) !! other
     = threads (db w) !! other)
  /\ (toolName <> "set_preference" ->
      preferences (db (snd (executeTool now toolName toolInput ctx w)))
      = preferences (db w)).
Proof.
  destruct (executeTool_database toolName toolInput ctx w)
    as [Hsame|[(Hname & key & value & Hset)|(params & Htid & Hwrite)]].
  - rewrite Hsame. now split.
  - rewrite Hset. split; [reflexivity | congruence].
  - rewrite Hwrite, upsertThread_database. split.
    + intros other Hne. now apply run_upsert_frame with (tid := threadId (email ctx)).
    + intros _. apply run_upsert_preferences.
Qed.

(** X9. Whatever tool is called, with whatever input and however the
    providers answer, the table keeps the shape its schema imposes. *)
Theorem executeTool_keeps_store_consistent (toolName : string)
    (toolInput : gmap string Value) (ctx : AgentContext) (w : World) :
  consistentStore (db w) ->
  consistentStore (db (snd (executeTool now toolName toolInput ctx w))).
Proof.
  intros Hok.
  destruct (executeTool_database toolName toolInput ctx w)
    as [Hsame|[(Hname & key & value & Hset)|(params & Htid & Hwrite)]].
  - now rewrite Hsame.
  - rewrite Hset. exact Hok.
  - rewrite Hwrite. now apply upsertThread_keeps_store_consistent.
Qed.

(** X10. A name that is none of the eight tools is refused with
    [Unknown tool: name], and nothing is written or called. *)
Theorem executeTool_unknown_tool (toolName : string)
    (toolInput : gmap string Value) (ctx : AgentContext) (w : World)
    (prefs : Preferences) :
  fst (getPreferences (db w)) = Ok prefs ->
  ~ In toolName ["get_preferences"; "set_preference"; "get_availability";
                 "send_email"; "update_thread_state"; "book_meeting";
                 "list_events"; "cancel_meeting"] ->
  executeTool now toolName toolInput ctx w
  = (Throw (Error ("Unknown tool: " ++ toolName)), w).
Proof.
  intros Hprefs Hnone. destruct w as [d calls]. cbn [db] in Hprefs.
  unfold executeTool, bind, liftDb, toolGetPreferences, isRemoteTool.
  cbn [db calendarCalls]. rewrite (getPreferences_ok d prefs Hprefs).
  assert (Hneq : forall name,
    In name ["get_preferences"; "set_preference"; "get_availability";
             "send_email"; "update_thread_state"; "book_meeting";
             "list_events"; "cancel_meeting"] ->
    String.eqb toolName name = false).
  { intros name Hin. apply String.eqb_neq. intros ->. contradiction. }
  rewrite !Hneq by (cbn; tauto). reflexivity.
Qed.

Lemma candidate_of_thread (toolInput : gmap string Value) (d : Database)
    (calls : list CalendarCall) (tid : string) :
  nullish (asString (toolInput !! "existingEventId"))
          ((rowToThread <$> threads d !! tid) ≫= Thread.calendarEventId)
  = candidateEventId toolInput {| db := d; calendarCalls := calls |} tid.
Proof.
  unfold candidateEventId, storedEventId. cbn [db]. now rewrite eventId_of_thread.
Qed.

(** X11. On an input whose properties are strings or absent: when the
    creation call fails, after a failed update or without any candidate,
    the booking fails with the provider's error and the database is left
    as it was: the thread is not marked as booked. *)
Theorem bookMeeting_failure_leaves_database (toolInput : gmap string Value)
    (ctx : AgentContext) (w : World) (prefs : Preferences) :
  bookingInputTyped toolInput ->
  fst (getPreferences (db w)) = Ok prefs ->
  events_insert
    (insertBody (createParams toolInput
                   (String.eqb (preferredPlatform prefs) "Google Meet"))) = None ->
  (forall c, candidateEventId toolInput w (threadId (email ctx)) = Some c ->
     c <> "" -> events_patch c (patchBody (updateParams toolInput)) = false) ->
  fst (bookMeeting now toolInput ctx w) = Throw ApiError
  /\ db (snd (bookMeeting now toolInput ctx w)) = db w.
Proof.
  intros _ Hprefs Hinsert Hpatch. destruct w as [d calls]. cbn [db] in *.
  unfold bookMeeting, bind, liftDb, toolGetPreferences. cbn [db calendarCalls].
  rewrite (getPreferences_ok d prefs Hprefs).
  unfold toolGetThread, getThread. cbn [db calendarCalls].
  rewrite (candidate_of_thread toolInput d calls).
  destruct (candidateEventId toolInput _ (threadId (email ctx))) as [c|] eqn:Hc.
  - unfold truthy. destruct (String.eqb c "") eqn:E; cbn [negb].
    + unfold toolCreateCalendarEvent, bind, call, throw. cbn [db calendarCalls].
      now rewrite Hinsert.
    + apply String.eqb_neq in E.
      unfold try_catch, toolUpdateCalendarEvent, toolCreateCalendarEvent, bind, call,
        ret, throw. cbn [default Datatypes.id db calendarCalls].
      rewrite (Hpatch c eq_refl E). cbn [db calendarCalls]. now rewrite Hinsert.
  - cbn [truthy]. unfold toolCreateCalendarEvent, bind, call, throw.
    cbn [db calendarCalls]. now rewrite Hinsert.
Qed.

(** X12. On an input whose properties are strings or absent: without a
    candidate reference (none supplied and none stored) the event is
    created directly, with one insert call and no patch call, and the new
    reference goes on file. An empty string supplied as [existingEventId]
    counts as no candidate and hides the reference stored on the thread. *)
Theorem bookMeeting_creates_without_candidate (toolInput : gmap string Value)
    (ctx : AgentContext) (w : World) (prefs : Preferences) (event : Insert.response) :
  bookingInputTyped toolInput ->
  fst (getPreferences (db w)) = Ok prefs ->
  (toolInput !! "existingEventId" = None
   /\ storedEventId (db w) (threadId (email ctx)) = None)
  \/ toolInput !! "existingEventId" = Some (VString "") ->
  events_insert
    (insertBody (createParams toolInput
                   (String.eqb (preferredPlatform prefs) "Google Meet"))) = Some event ->
  exists w',
    bookMeeting now toolInput ctx w
    = (Ok {| eventId := Insert.id event;
             eventLink := Insert.htmlLink event;
             meetLink := Insert.videoEntryPoint event |}, w')
    /\ calendarCalls w'
       = (calendarCalls w
            ++ [CallInsert (insertBody (createParams toolInput
                  (String.eqb (preferredPlatform prefs) "Google Meet")))])%list
    /\ storedEventId (db w') (threadId (email ctx)) = Some (Insert.id event)
    /\ Row.state <$> (threads (db w') !! threadId (email ctx)) = Some "booked".
Proof.
  intros _ Hprefs Hnone Hinsert. destruct w as [d calls]. cbn [db calendarCalls] in *.
  unfold bookMeeting, bind, liftDb, toolGetPreferences. cbn [db calendarCalls].
  rewrite (getPreferences_ok d prefs Hprefs).
  unfold toolGetThread, getThread. cbn [db calendarCalls].
  rewrite (candidate_of_thread toolInput d calls).
  assert (Hfalsy : truthy (candidateEventId toolInput
                     {| db := d; calendarCalls := calls |} (threadId (email ctx))) = false).
  { unfold candidateEventId. cbn [db].
    destruct Hnone as [[Habsent Hstored]|Hempty].
    - now rewrite Habsent, Hstored.
    - now rewrite Hempty. }
  rewrite Hfalsy.
  unfold toolCreateCalendarEvent, bind, call, ret, toolUpdateThreadState.
  cbn [db calendarCalls]. rewrite Hinsert. cbn [db calendarCalls].
  match goal with |- context [upsertThread now ?p d] => set (params := p) end.
  destruct (upsertThread_stores now d params (threadId (email ctx)) "booked"
              eq_refl eq_refl) as (d' & Hrun & Hthreads & _).
  rewrite Hrun. eexists. split; [reflexivity|]. cbn [db calendarCalls].
  pose proof (upsertedRow_booked now d toolInput ctx
                {| eventId := Insert.id event;
                   eventLink := Insert.htmlLink event;
                   meetLink := Insert.videoEntryPoint event |}) as [Hstate Hevent].
  fold params in Hstate, Hevent.
  split; [reflexivity|]. unfold storedEventId.
  rewrite Hthreads, lookup_insert_eq. cbn. now rewrite Hstate, Hevent.
Qed.

(** X13. The [update_thread_state] tool forwards the state, the proposed
    slots, the title and the duration only. When these four are of the
    shapes the tool declares (or absent), on a stored conversation it
    leaves requester, attendee, event reference, row identifier and creation
    time as they were, whatever else the input carries, and sets the state;
    with no [state] property in the input it fails and writes nothing. *)
Theorem update_thread_state_keeps_identity (toolInput : gmap string Value)
    (ctx : AgentContext) (w : World) (prefs : Preferences) (old : Row.t) :
  stateUpdateTyped toolInput ->
  fst (getPreferences (db w)) = Ok prefs ->
  threads (db w) !! threadId (email ctx) = Some old ->
  (forall st, toolInput !! "state" = Some (VString st) ->
     exists new w',
       executeTool now "update_thread_state" toolInput ctx w
       = (Ok (OutThread (Some (rowToThread new))), w')
       /\ threads (db w') !! threadId (email ctx) = Some new
       /\ calendarCalls w' = calendarCalls w
       /\ Row.state new = st
       /\ Row.proposed_slots new = asSlots (toolInput !! "proposedSlots")
       /\ Row.requester_email new = Row.requester_email old
       /\ Row.requester_name new = Row.requester_name old
       /\ Row.attendee_email new = Row.attendee_email old
       /\ Row.calendar_event_id new = Row.calendar_event_id old
       /\ Row.id new = Row.id old
       /\ Row.created_at new = Row.created_at old)
  /\ (toolInput !! "state" = None ->
      exists e, executeTool now "update_thread_state" toolInput ctx w = (Throw e, w)).
Proof.
  intros _ Hprefs Hold. destruct w as [d calls]. cbn [db calendarCalls] in *.
  split.
  - intros st Hst.
    assert (Hst' : asString (toolInput !! "state") = Some st) by now rewrite Hst.
    clear Hst. rename Hst' into Hst.
    unfold executeTool, bind, liftDb, toolGetPreferences. cbn [db calendarCalls].
    rewrite (getPreferences_ok d prefs Hprefs).
    cbn [String.eqb Ascii.eqb Bool.eqb isRemoteTool orb].
    unfold updateThreadState, liftDb, toolUpdateThreadState. cbn [db calendarCalls].
    match goal with |- context [upsertThread now ?p d] => set (params := p) end.
    destruct (upsertThread_stores now d params (threadId (email ctx)) st eq_refl Hst)
      as (d' & Hrun & Hthreads & _).
    rewrite Hrun. unfold upsertedRow in *. rewrite Hold in *.
    eexists _, _. split; [reflexivity|]. cbn [db calendarCalls].
    rewrite Hthreads, lookup_insert_eq. repeat split.
  - intros Hst.
    unfold executeTool, bind, liftDb, toolGetPreferences. cbn [db calendarCalls].
    rewrite (getPreferences_ok d prefs Hprefs).
    cbn [String.eqb Ascii.eqb Bool.eqb isRemoteTool orb].
    unfold updateThreadState, liftDb, toolUpdateThreadState, upsertThread, bind,
      run_upsert.
    cbn [db calendarCalls Params.threadId Params.state]. rewrite Hst.
    cbn [asString]. now eexists.
Qed.

End DispatcherFacts.

Lemma executeTool_keeps_store_consistent_witness :
  consistentStore
    (db (snd (@executeTool utcHost staleServices "2024-01-03 10:00:00"
                "book_meeting" rebookInput sampleContext sampleWorld))).
Proof.
  apply (@executeTool_keeps_store_consistent utcHost staleServices).
  exact sampleDb_consistent.
Defined.

Lemma executeTool_unknown_tool_witness :
  @executeTool utcHost obligingServices "2024-01-03 10:00:00"
     "delete_everything" ∅ sampleContext sampleWorld
  = (Throw (Error "Unknown tool: delete_everything"), sampleWorld).
Proof.
  apply (@executeTool_unknown_tool utcHost obligingServices "2024-01-03 10:00:00"
           "delete_everything" ∅ sampleContext sampleWorld defaultPreferences).
  - reflexivity.
  - cbn. intuition discriminate.
Defined.

Lemma bookMeeting_failure_leaves_database_witness :
  fst (@bookMeeting utcHost failingServices "2024-01-03 10:00:00"
         rebookInput sampleContext sampleWorld) = Throw ApiError
  /\ db (snd (@bookMeeting utcHost failingServices "2024-01-03 10:00:00"
                rebookInput sampleContext sampleWorld)) = sampleDb.
Proof.
  apply (@bookMeeting_failure_leaves_database utcHost failingServices
           "2024-01-03 10:00:00" rebookInput sampleContext sampleWorld
           defaultPreferences); reflexivity.
Defined.

Lemma bookMeeting_creates_without_candidate_witness :
  exists w',
    @bookMeeting utcHost obligingServices "2024-01-03 10:00:00"
       blankIdInput sampleContext sampleWorld
    = (Ok {| eventId := "evt-new";
             eventLink := "https://calendar/evt-new";
             meetLink := None |}, w')
    /\ storedEventId (db sampleWorld) "thr-1" = Some "evt-A"
    /\ storedEventId (db w') "thr-1" = Some "evt-new".
Proof.
  destruct (@bookMeeting_creates_without_candidate utcHost obligingServices
              "2024-01-03 10:00:00" blankIdInput sampleContext sampleWorld
              defaultPreferences
              {| Insert.id := "evt-new";
                 Insert.htmlLink := "https://calendar/evt-new";
                 Insert.videoEntryPoint := None |}
              eq_refl eq_refl (or_intror eq_refl) eq_refl)
    as (w' & Hrun & _ & Hstored & _).
  exists w'. repeat split; [exact Hrun | exact Hstored].
Defined.

Lemma update_thread_state_keeps_identity_witness :
  exists new w',
    @executeTool utcHost obligingServices "2024-01-03 10:00:00"
       "update_thread_state" nosyStateInput sampleContext sampleWorld
    = (Ok (OutThread (Some (rowToThread new))), w')
    /\ Row.state new = "booked"
    /\ Row.calendar_event_id new = Some "evt-A"
    /\ Row.attendee_email new = Some "grace@example.org".
Proof.
  destruct (@update_thread_state_keeps_identity utcHost obligingServices
              "2024-01-03 10:00:00" nosyStateInput sampleContext sampleWorld
              defaultPreferences sampleRow eq_refl eq_refl eq_refl) as [Hset _].
  destruct (Hset "booked" eq_refl)
    as (new & w' & Hrun & _ & _ & Hstate & _ & _ & _ & Hatt & Hevent & _).
  exists new, w'. rewrite Hatt, Hevent. repeat split; assumption.
Defined.

Section IntervalFacts.
Context `{Host}.

Lemma emitted_gapZ (minMs : number) (x y : Z) :
  emitted minMs x y = map slotOfPair (gapZ minMs x y).
Proof. unfold emitted, gapZ. now destruct (ge _ _). Qed.

Lemma walkGaps_exact (minMs : number) (blocked : list Block.t) :
  Forall validBlock blocked ->
  forall (c : Z) (fw : list TimeSlot),
    walkGaps minMs blocked (Some c) fw
    = Ok (Some (cursorZ blocked c), fw ++ map slotOfPair (gapsZ minMs blocked c))%list.
Proof.
  induction 1 as [|b rest Hb Hrest IH]; intros c fw.
  - cbn. now rewrite app_nil_r.
  - destruct b as [[bs|] [be|]]; try discriminate Hb.
    cbn [walkGaps gapsZ cursorZ Block.start Block.end_ lt gt].
    rewrite startOf_mk, endOf_mk.
    rewrite map_app, app_assoc.
    destruct (c <? be), (c <? bs);
      rewrite ?pushIfLongEnough_valid, IH, ?emitted_gapZ; cbn [map];
      now rewrite ?app_nil_r.
Qed.

Lemma dayWindows_exact (busy : list TimeSlot)
    (startHour startMin endHour endMin minMs : number)
    (day : Z) (fw : list TimeSlot) :
  dayWindows busy startHour startMin endHour endMin minMs (Some day) fw
  = Ok (fw ++ map slotOfPair
                (dayZ busy startHour startMin endHour endMin minMs day))%list.
Proof.
  unfold dayWindows, dayZ.
  destruct (setHours (Some day) startHour startMin) as [ds|] eqn:Hds.
  2:{ rewrite blockedOfDay_invalid by now left. cbn. now rewrite app_nil_r. }
  destruct (setHours (Some day) endHour endMin) as [de|] eqn:Hde.
  2:{ rewrite blockedOfDay_invalid by now right. cbn. now rewrite app_nil_r. }
  assert (Hvalid : Forall validBlock (blockedOfDay busy (Some ds) (Some de))).
  { eapply List.Forall_impl; [|apply blockedOfDay_shape]. now intros b [Hv _]. }
  rewrite (walkGaps_exact minMs _ Hvalid). cbn [lt].
  rewrite map_app, app_assoc.
  destruct (cursorZ _ ds <? de).
  - now rewrite pushIfLongEnough_valid, emitted_gapZ.
  - cbn [map]. now rewrite app_nil_r.
Qed.

Lemma dayLoop_exact (busy : list TimeSlot) (noMeeting : list Z)
    (startHour startMin endHour endMin minMs : number) (last : Z) :
  forall (fuel : nat) (t : Z) (fw : list TimeSlot),
    (Z.to_nat ((last - t) / msPerDay + 1) <= fuel)%nat ->
    dayLoop fuel busy noMeeting startHour startMin endHour endMin minMs
      (Some t) (Some last) fw
    = Ok (fw ++ map slotOfPair
                  (loopZ fuel busy noMeeting startHour startMin endHour endMin
                         minMs t last))%list.
Proof.
  induction fuel as [|fuel IH]; intros t fw Hfuel.
  - destruct (t <=? last) eqn:E.
    + apply Z.leb_le in E.
      assert (0 <= (last - t) / msPerDay) by (apply Z.div_pos; unfold msPerDay; lia).
      lia.
    + cbn [loopZ]. rewrite E, dayLoop_done by exact E. cbn. now rewrite app_nil_r.
  - destruct (t <=? last) eqn:E.
    2:{ cbn [loopZ]. rewrite E, dayLoop_done by exact E. cbn. now rewrite app_nil_r. }
    cbn [dayLoop loopZ le]. rewrite E. apply Z.leb_le in E.
    assert (Hpos : 0 <= (last - t) / msPerDay) by (apply Z.div_pos; unfold msPerDay; lia).
    assert (Hrest : forall fw',
      dayLoop fuel busy noMeeting startHour startMin endHour endMin minMs
        (setDate_next (Some t)) (Some last) fw'
      = Ok (fw' ++ map slotOfPair
              match setDate_next (Some t) with
              | Some next => loopZ fuel busy noMeeting startHour startMin
                               endHour endMin minMs next last
              | None => []
              end)%list).
    { intros fw'. cbn [setDate_next]. unfold TimeClip.
      destruct (Z.abs (t + msPerDay) <=? maxTimeValue).
      - apply IH. rewrite days_left. lia.
      - rewrite dayLoop_done by reflexivity. cbn. now rewrite app_nil_r. }
    rewrite map_app, app_assoc.
    destruct (includes_day noMeeting (getDay (Some t))).
    + cbn [map]. rewrite app_nil_r. apply Hrest.
    + rewrite dayWindows_exact. apply Hrest.
Qed.

(** The engine returns the printed form of [windowsZ]. *)
Lemma computeFreeSlots_exact (params : FreeSlots.params) :
  computeFreeSlots params = Ok (map slotOfPair (windowsZ params)).
Proof.
  unfold computeFreeSlots, windowsZ, startHourMin, endHourMin, minWindowMsOf.
  destruct (splitHourMin (workingHoursStart (FreeSlots.prefs params))) as [sh sm].
  destruct (splitHourMin (workingHoursEnd (FreeSlots.prefs params))) as [eh em].
  cbn [fst snd].
  destruct (Date_parse (FreeSlots.startDate params ++ "T00:00:00")) as [first|].
  2:{ now rewrite dayLoop_done. }
  destruct (Date_parse (FreeSlots.endDate params ++ "T00:00:00")) as [last|].
  2:{ now rewrite dayLoop_done. }
  rewrite dayLoop_exact by (cbn; lia). reflexivity.
Qed.

Lemma chronological_nil : chronological [].
Proof. split; constructor. Qed.

Lemma chronological_app (l1 l2 : list (Z * Z)) :
  chronological l1 -> chronological l2 ->
  (forall a b, In a l1 -> In b l2 -> snd a <= fst b) ->
  chronological (l1 ++ l2).
Proof.
  intros [Hne1 Hs1] [Hne2 Hs2] Hcross. split.
  - apply Forall_app. now split.
  - induction Hs1 as [|a l1 Hs1 IH Ha]; cbn [app]; [assumption|].
    inversion Hne1; subst. constructor.
    + apply IH; [assumption|]. intros x y Hx Hy. apply Hcross; [now right | assumption].
    + apply Forall_app. split; [assumption|].
      apply List.Forall_forall. intros y Hy. apply Hcross; [now left | assumption].
Qed.

Lemma gapZ_In (minMs : number) (x y : Z) (iv : Z * Z) :
  In iv (gapZ minMs x y) -> iv = (x, y).
Proof.
  unfold gapZ. destruct (ge _ _); [|contradiction]. now intros [<-|[]].
Qed.

Lemma cursorZ_ge (blocked : list Block.t) (c : Z) : c <= cursorZ blocked c.
Proof.
  revert c. induction blocked as [|b rest IH]; intros c; cbn [cursorZ]; [lia|].
  specialize (IH (if c <? endOf b then endOf b else c)).
  destruct (c <? endOf b) eqn:E; lia.
Qed.

Lemma cursorZ_le (blocked : list Block.t) (c hi : Z) :
  c <= hi -> Forall (fun b => endOf b <= hi) blocked -> cursorZ blocked c <= hi.
Proof.
  intros Hc Hends. revert c Hc.
  induction Hends as [|b rest Hb Hrest IH]; intros c Hc; cbn [cursorZ]; [lia|].
  apply IH. destruct (c <? endOf b); lia.
Qed.

(** The gaps of a walk start at or after the cursor, are not empty and end
    before the upper bound. *)
Lemma gapsZ_bounds (minMs : number) (lo hi : Z) (blocked : list Block.t) :
  Forall (fun b => startOf b <= lo \/ startOf b < hi) blocked ->
  forall c, lo <= c ->
    Forall (fun iv => c <= fst iv /\ fst iv < snd iv /\ snd iv < hi)
           (gapsZ minMs blocked c).
Proof.
  induction 1 as [|b rest Hb Hrest IH]; intros c Hc; cbn [gapsZ]; [constructor|].
  apply Forall_app. split.
  - destruct (c <? startOf b) eqn:E; [|constructor]. apply Z.ltb_lt in E.
    apply List.Forall_forall. intros iv Hiv. apply gapZ_In in Hiv. subst iv.
    cbn. lia.
  - eapply List.Forall_impl; [|apply IH; destruct (c <? endOf b) eqn:E; lia].
    cbn. intros iv. destruct (c <? endOf b) eqn:E; lia.
Qed.

Lemma gapsZ_chronological (minMs : number) (blocked : list Block.t) :
  Forall (fun b => startOf b <= endOf b) blocked ->
  forall c,
    chronological (gapsZ minMs blocked c)
    /\ Forall (fun iv => c <= fst iv /\ snd iv <= cursorZ blocked c)
              (gapsZ minMs blocked c).
Proof.
  induction 1 as [|b rest Hb Hrest IH]; intros c; cbn [gapsZ cursorZ].
  - split; [apply chronological_nil | constructor].
  - set (c1 := if c <? endOf b then endOf b else c).
    assert (Hc1 : c <= c1 /\ endOf b <= c1).
    { unfold c1. destruct (c <? endOf b) eqn:E; lia. }
    destruct (IH c1) as [Hchron Hbounds].
    pose proof (cursorZ_ge rest c1) as Hcur.
    rewrite List.Forall_forall in Hbounds.
    assert (Hhead : forall iv,
      In iv (if c <? startOf b then gapZ minMs c (startOf b) else []) ->
      iv = (c, startOf b) /\ c < startOf b).
    { intros iv Hiv. destruct (c <? startOf b) eqn:E; [|contradiction].
      apply Z.ltb_lt in E. apply gapZ_In in Hiv. now split. }
    split.
    + apply chronological_app; [|assumption|].
      * split.
        -- apply List.Forall_forall. intros iv Hiv.
           destruct (Hhead iv Hiv) as [-> Hlt]. exact Hlt.
        -- destruct (c <? startOf b); [|constructor].
           unfold gapZ. destruct (ge _ _); repeat constructor.
      * intros a y Ha Hy. destruct (Hhead a Ha) as [-> _].
        destruct (Hbounds y Hy). cbn. lia.
    + apply Forall_app. split.
      * apply List.Forall_forall. intros iv Hiv.
        destruct (Hhead iv Hiv) as [-> Hlt]. cbn. lia.
      * apply List.Forall_forall. intros iv Hiv. destruct (Hbounds iv Hiv). lia.
Qed.

Lemma toDates_parsed (t : TimeSlot) :
  validBlock (toDates t) ->
  Date_parse (start t) = Some (startOf (toDates t))
  /\ Date_parse (end_ t) = Some (endOf (toDates t)).
Proof.
  unfold validBlock, toDates. intros Hv.
  injection Hv as Hs He. now split.
Qed.

(** With blocks that do not end before they start, and working hours
    that do not either, the clipped blocks are in order too and end within
    the working hours. *)
Lemma blockedOfDay_ordered (busy : list TimeSlot) (ds de : Z) :
  (forall b bs be, In b busy ->
     Date_parse (start b) = Some bs -> Date_parse (end_ b) = Some be -> bs <= be) ->
  ds <= de ->
  Forall (fun b => startOf b <= endOf b /\ endOf b <= de)
         (blockedOfDay busy (Some ds) (Some de)).
Proof.
  intros Hraw Hle. apply List.Forall_forall. intros b Hb.
  apply (proj1 (blockedOfDay_In _ _ _ _)) in Hb.
  destruct Hb as (t & Ht & Hov & ->).
  apply overlapsDay_true in Hov.
  destruct Hov as (ds' & de' & [= <-] & [= <-] & Hv & Hlt & Hgt).
  destruct (toDates_parsed t Hv) as [Hs He].
  pose proof (Hraw t _ _ Ht Hs He) as Hord.
  rewrite (clamp_valid ds de _ Hv), startOf_mk, endOf_mk.
  destruct (startOf (toDates t) <? ds) eqn:E1, (de <? endOf (toDates t)) eqn:E2; lia.
Qed.

Lemma dayZ_bounds (busy : list TimeSlot)
    (startHour startMin endHour endMin minMs : number) (day ds de : Z) :
  setHours (Some day) startHour startMin = Some ds ->
  setHours (Some day) endHour endMin = Some de ->
  Forall (fun iv => ds <= fst iv /\ fst iv < snd iv /\ snd iv <= de)
         (dayZ busy startHour startMin endHour endMin minMs day).
Proof.
  intros Hds Hde. unfold dayZ. rewrite Hds, Hde.
  assert (Hbound : Forall (fun b => startOf b <= ds \/ startOf b < de)
                          (blockedOfDay busy (Some ds) (Some de))).
  { eapply List.Forall_impl; [|apply blockedOfDay_shape]. now intros b [_ Hb]. }
  apply Forall_app. split.
  - eapply List.Forall_impl; [|apply (gapsZ_bounds minMs ds de _ Hbound ds); lia].
    cbn. intros iv. lia.
  - pose proof (cursorZ_ge (blockedOfDay busy (Some ds) (Some de)) ds) as Hcur.
    destruct (cursorZ _ ds <? de) eqn:E; [|constructor]. apply Z.ltb_lt in E.
    apply List.Forall_forall. intros iv Hiv. apply gapZ_In in Hiv. subst iv.
    cbn. lia.
Qed.

Lemma dayZ_chronological (busy : list TimeSlot)
    (startHour startMin endHour endMin minMs : number) (day : Z) :
  (forall b bs be, In b busy ->
     Date_parse (start b) = Some bs -> Date_parse (end_ b) = Some be -> bs <= be) ->
  chronological (dayZ busy startHour startMin endHour endMin minMs day).
Proof.
  intros Hraw.
  destruct (setHours (Some day) startHour startMin) as [ds|] eqn:Hds.
  2:{ unfold dayZ. rewrite Hds. apply chronological_nil. }
  destruct (setHours (Some day) endHour endMin) as [de|] eqn:Hde.
  2:{ unfold dayZ. rewrite Hds, Hde. apply chronological_nil. }
  pose proof (dayZ_bounds busy startHour startMin endHour endMin minMs day ds de
                Hds Hde) as Hbounds.
  destruct (Z_le_gt_dec ds de) as [Hle|Hgt].
  2:{ destruct (dayZ busy startHour startMin endHour endMin minMs day) as [|iv l];
        [apply chronological_nil|].
      inversion Hbounds; subst. lia. }
  unfold dayZ. rewrite Hds, Hde.
  pose proof (blockedOfDay_ordered busy ds de Hraw Hle) as Hord.
  assert (Hstarts : Forall (fun b => startOf b <= endOf b)
                           (blockedOfDay busy (Some ds) (Some de))).
  { eapply List.Forall_impl; [|exact Hord]. now intros b [Hb _]. }
  destruct (gapsZ_chronological minMs _ Hstarts ds) as [Hchron Hin].
  rewrite List.Forall_forall in Hin.
  apply chronological_app; [assumption| |].
  - destruct (cursorZ _ ds <? de) eqn:E; [|apply chronological_nil].
    apply Z.ltb_lt in E. unfold gapZ. destruct (ge _ _); [|apply chronological_nil].
    split; repeat constructor. exact E.
  - intros a y Ha Hy. destruct (Hin a Ha) as [_ Hend].
    destruct (cursorZ _ ds <? de); [|contradiction].
    apply gapZ_In in Hy. subst y. exact Hend.
Qed.

Lemma loopZ_nil (busy : list TimeSlot) (noMeeting : list Z)
    (startHour startMin endHour endMin minMs : number) (last : Z) :
  (forall day, dayZ busy startHour startMin endHour endMin minMs day = []) ->
  forall fuel t,
    loopZ fuel busy noMeeting startHour startMin endHour endMin minMs t last = [].
Proof.
  intros Hday. induction fuel as [|fuel IH]; intros t; cbn [loopZ];
    destruct (t <=? last); try reflexivity.
  rewrite Hday. destruct (includes_day _ _); cbn [app];
    destruct (setDate_next (Some t)); auto.
Qed.

Lemma local_day_next (t : Z) :
  (t + msPerDay + tzOffsetMs) / msPerDay * msPerDay
  = (t + tzOffsetMs) / msPerDay * msPerDay + msPerDay.
Proof.
  replace (t + msPerDay + tzOffsetMs) with (t + tzOffsetMs + 1 * msPerDay) by lia.
  rewrite Z.div_add by (unfold msPerDay; lia). lia.
Qed.

(** Over the days, when the working hours span at most a day. *)
Lemma loopZ_chronological (busy : list TimeSlot) (noMeeting : list Z)
    (sh sm eh em : Z) (minMs : number) (last : Z) :
  (forall b bs be, In b busy ->
     Date_parse (start b) = Some bs -> Date_parse (end_ b) = Some be -> bs <= be) ->
  eh * msPerHour + em * msPerMinute <= sh * msPerHour + sm * msPerMinute + msPerDay ->
  forall fuel t,
    chronological
      (loopZ fuel busy noMeeting (Some sh) (Some sm) (Some eh) (Some em) minMs t last)
    /\ Forall (fun iv =>
                 (t + tzOffsetMs) / msPerDay * msPerDay
                 + (sh * msPerHour + sm * msPerMinute) - tzOffsetMs <= fst iv)
              (loopZ fuel busy noMeeting (Some sh) (Some sm) (Some eh) (Some em)
                     minMs t last).
Proof.
  intros Hraw Hspan. induction fuel as [|fuel IH]; intros t; cbn [loopZ].
  - destruct (t <=? last); split; (apply chronological_nil || constructor).
  - destruct (t <=? last); [|split; [apply chronological_nil | constructor]].
    set (today := if includes_day noMeeting (getDay (Some t)) then []
                  else dayZ busy (Some sh) (Some sm) (Some eh) (Some em) minMs t).
    set (later := match setDate_next (Some t) with
                  | Some next => loopZ fuel busy noMeeting (Some sh) (Some sm)
                                   (Some eh) (Some em) minMs next last
                  | None => []
                  end).
    assert (Htoday : chronological today
      /\ Forall (fun iv =>
            (t + tzOffsetMs) / msPerDay * msPerDay
            + (sh * msPerHour + sm * msPerMinute) - tzOffsetMs <= fst iv
            /\ snd iv <= (t + tzOffsetMs) / msPerDay * msPerDay
                         + (eh * msPerHour + em * msPerMinute) - tzOffsetMs) today).
    { unfold today. destruct (includes_day _ _);
        [split; [apply chronological_nil | constructor]|].
      split; [now apply dayZ_chronological|].
      destruct (setHours (Some t) (Some sh) (Some sm)) as [ds|] eqn:Hds.
      2:{ unfold dayZ. rewrite Hds. constructor. }
      destruct (setHours (Some t) (Some eh) (Some em)) as [de|] eqn:Hde.
      2:{ unfold dayZ. rewrite Hds, Hde. constructor. }
      eapply List.Forall_impl;
        [|apply (dayZ_bounds busy _ _ _ _ minMs t ds de Hds Hde)].
      apply setHours_value in Hds, Hde. cbn. intros iv. lia. }
    assert (Hlater : chronological later
      /\ Forall (fun iv =>
            (t + tzOffsetMs) / msPerDay * msPerDay + msPerDay
            + (sh * msPerHour + sm * msPerMinute) - tzOffsetMs <= fst iv) later).
    { unfold later, setDate_next, TimeClip.
      destruct (Z.abs (t + msPerDay) <=? maxTimeValue);
        [|split; [apply chronological_nil | constructor]].
      destruct (IH (t + msPerDay)) as [Hc Hb]. split; [assumption|].
      now rewrite local_day_next in Hb. }
    destruct Htoday as [Hc1 Hb1], Hlater as [Hc2 Hb2].
    rewrite List.Forall_forall in Hb1, Hb2. split.
    + apply chronological_app; [assumption|assumption|].
      intros a y Ha Hy. destruct (Hb1 a Ha). specialize (Hb2 y Hy). lia.
    + apply Forall_app. split; apply List.Forall_forall.
      * intros iv Hiv. now destruct (Hb1 iv Hiv).
      * intros iv Hiv. specialize (Hb2 iv Hiv). unfold msPerDay in *. lia.
Qed.

(** X14. When no busy block ends before it starts and the working hours
    span at most a day, the windows come back in order of time: none is
    empty and each ends no later than the next one starts. *)
Theorem computeFreeSlots_chronological (params : FreeSlots.params) :
  (forall b bs be, In b (FreeSlots.busyBlocks params) ->
     Date_parse (start b) = Some bs -> Date_parse (end_ b) = Some be -> bs <= be) ->
  (forall a b,
     minutesOfDay (startHourMin params) = Some a ->
     minutesOfDay (endHourMin params) = Some b -> b <= a + 1440) ->
  exists ivs,
    computeFreeSlots params = Ok (map slotOfPair ivs) /\ chronological ivs.
Proof.
  intros Hraw Hspan. exists (windowsZ params).
  split; [apply computeFreeSlots_exact|].
  unfold windowsZ.
  destruct (Date_parse (FreeSlots.startDate params ++ "T00:00:00")) as [first|];
    [|apply chronological_nil].
  destruct (Date_parse (FreeSlots.endDate params ++ "T00:00:00")) as [last|];
    [|apply chronological_nil].
  destruct (startHourMin params) as [[sh|] [sm|]];
    try (rewrite loopZ_nil; [apply chronological_nil | reflexivity]).
  destruct (endHourMin params) as [[eh|] [em|]]; cbn [fst snd];
    try (rewrite loopZ_nil; [apply chronological_nil |];
         intros day; unfold dayZ; cbn [setHours];
         now destruct (TimeClip _)).
  apply loopZ_chronological; [exact Hraw|].
  specialize (Hspan _ _ eq_refl eq_refl). unfold msPerHour, msPerMinute, msPerDay. lia.
Qed.

(** A stretch that starts at or after the cursor and meets no block lies
    within one of the gaps of the walk, the closing one included. *)
Lemma gapsZ_cover (m de s e : Z) :
  s < e -> e <= de -> m <= e - s ->
  forall (blocked : list Block.t) (c : Z),
    c <= s ->
    Forall (fun b => endOf b <= s \/ e <= startOf b) blocked ->
    exists iv,
      In iv (gapsZ (Some m) blocked c
               ++ (if cursorZ blocked c <? de
                   then gapZ (Some m) (cursorZ blocked c) de else []))%list
      /\ fst iv <= s /\ e <= snd iv.
Proof.
  intros Hse Hde Hm. induction blocked as [|b rest IH]; intros c Hc Hfree.
  - cbn [gapsZ cursorZ app]. exists (c, de).
    assert (E : (c <? de) = true) by (apply Z.ltb_lt; lia). rewrite E.
    unfold gapZ, ge, le. assert (E' : (m <=? de - c) = true) by (apply Z.leb_le; lia).
    rewrite E'. cbn. split; [now left | lia].
  - inversion Hfree as [|? ? Hb Hrest]; subst. cbn [gapsZ cursorZ].
    destruct Hb as [Hb|Hb].
    + destruct (IH (if c <? endOf b then endOf b else c)) as (iv & Hin & Hiv);
        [destruct (c <? endOf b); lia | exact Hrest |].
      exists iv. split; [|exact Hiv].
      rewrite <- app_assoc. apply in_or_app. now right.
    + exists (c, startOf b).
      assert (E : (c <? startOf b) = true) by (apply Z.ltb_lt; lia). rewrite E.
      unfold gapZ at 1, ge, le.
      assert (E' : (m <=? startOf b - c) = true) by (apply Z.leb_le; lia).
      rewrite E'. cbn. split; [now left | lia].
Qed.

Lemma dayZ_cover (busy : list TimeSlot)
    (startHour startMin endHour endMin : number) (m day ds de s e : Z) :
  setHours (Some day) startHour startMin = Some ds ->
  setHours (Some day) endHour endMin = Some de ->
  ds <= s -> s < e -> e <= de -> m <= e - s ->
  (forall b bs be, In b busy ->
     Date_parse (start b) = Some bs -> Date_parse (end_ b) = Some be ->
     ~ overlap s e bs be) ->
  exists iv,
    In iv (dayZ busy startHour startMin endHour endMin (Some m) day)
    /\ fst iv <= s /\ e <= snd iv.
Proof.
  intros Hds Hde Hs Hse He Hm Hfree. unfold dayZ. rewrite Hds, Hde.
  apply gapsZ_cover; try assumption.
  apply List.Forall_forall. intros b Hb.
  apply (proj1 (blockedOfDay_In _ _ _ _)) in Hb.
  destruct Hb as (t & Ht & Hov & ->).
  apply overlapsDay_true in Hov.
  destruct Hov as (ds' & de' & [= <-] & [= <-] & Hv & Hlt & Hgt).
  destruct (toDates_parsed t Hv) as [Hps Hpe].
  pose proof (Hfree t _ _ Ht Hps Hpe) as Hno. unfold overlap in Hno.
  rewrite (clamp_valid ds de _ Hv), startOf_mk, endOf_mk.
  destruct (startOf (toDates t) <? ds) eqn:E1, (de <? endOf (toDates t)) eqn:E2; lia.
Qed.

(** Every day from the first to the last is walked, when both are time
    values a date can hold. *)
Lemma loopZ_reaches (busy : list TimeSlot) (noMeeting : list Z)
    (startHour startMin endHour endMin minMs : number) (last : Z) :
  Z.abs last <= maxTimeValue ->
  forall (k : nat) (fuel : nat) (t : Z),
    Z.abs t <= maxTimeValue ->
    t + Z.of_nat k * msPerDay <= last ->
    (Z.to_nat ((last - t) / msPerDay + 1) <= fuel)%nat ->
    includes_day noMeeting (getDay (Some (t + Z.of_nat k * msPerDay))) = false ->
    incl (dayZ busy startHour startMin endHour endMin minMs
               (t + Z.of_nat k * msPerDay))
         (loopZ fuel busy noMeeting startHour startMin endHour endMin minMs t last).
Proof.
  intros Hlast. induction k as [|k IH]; intros fuel t Ht Hday Hfuel Hopen.
  - replace (t + Z.of_nat 0 * msPerDay) with t in * by lia.
    assert (Hpos : 0 <= (last - t) / msPerDay)
      by (apply Z.div_pos; unfold msPerDay; lia).
    destruct fuel as [|fuel]; [lia|]. cbn [loopZ].
    assert (E : (t <=? last) = true) by (apply Z.leb_le; lia). rewrite E, Hopen.
    intros iv Hiv. apply in_or_app. now left.
  - assert (Hstep : t + Z.of_nat (S k) * msPerDay
                    = t + msPerDay + Z.of_nat k * msPerDay) by lia.
    rewrite Hstep in *.
    assert (Hle : t + msPerDay <= last) by (unfold msPerDay in *; lia).
    assert (Hpos : 0 <= (last - (t + msPerDay)) / msPerDay)
      by (apply Z.div_pos; unfold msPerDay in *; lia).
    pose proof (days_left t last) as Hdays.
    destruct fuel as [|fuel]; [lia|]. cbn [loopZ].
    assert (E : (t <=? last) = true) by (apply Z.leb_le; unfold msPerDay in *; lia).
    rewrite E. unfold setDate_next, TimeClip.
    assert (E' : (Z.abs (t + msPerDay) <=? maxTimeValue) = true)
      by (apply Z.leb_le; unfold msPerDay in *; lia).
    rewrite E'. intros iv Hiv. apply in_or_app. right.
    apply (IH fuel (t + msPerDay)); try assumption.
    + unfold msPerDay in *; lia.
    + lia.
Qed.

(** A free stretch of a walked day is inside one of the intervals of
    [windowsZ]. *)
Lemma windowsZ_cover (params : FreeSlots.params) (day ds de s e : Z) :
  loopDay params day ->
  (forall t, Date_parse (FreeSlots.startDate params ++ "T00:00:00") = Some t ->
             Z.abs t <= maxTimeValue) ->
  (forall t, Date_parse (FreeSlots.endDate params ++ "T00:00:00") = Some t ->
             Z.abs t <= maxTimeValue) ->
  dayStartOf params day = Some ds ->
  dayEndOf params day = Some de ->
  ds <= s -> s < e -> e <= de ->
  longEnough (FreeSlots.durationMinutes params) s e ->
  (forall b bs be, In b (FreeSlots.busyBlocks params) ->
     Date_parse (start b) = Some bs -> Date_parse (end_ b) = Some be ->
     ~ overlap s e bs be) ->
  exists iv, In iv (windowsZ params) /\ fst iv <= s /\ e <= snd iv.
Proof.
  intros (first & last & k & Hfirst & Hlast & -> & Hle & Hopen) Hf Hl
         Hds Hde Hs Hse He (d & Hd & Hlong) Hfree.
  destruct (dayZ_cover (FreeSlots.busyBlocks params)
              (fst (startHourMin params)) (snd (startHourMin params))
              (fst (endHourMin params)) (snd (endHourMin params))
              (d * 60 * 1000) _ ds de s e Hds Hde Hs Hse He Hlong Hfree)
    as (iv & Hin & Hcover).
  exists iv. split; [|exact Hcover].
  unfold windowsZ. rewrite Hfirst, Hlast.
  assert (Hmin : minWindowMsOf params = Some (d * 60 * 1000)).
  { unfold minWindowMsOf, minWindowMs. now rewrite Hd. }
  rewrite Hmin.
  eapply loopZ_reaches; try eassumption.
  - now apply Hl.
  - now apply Hf.
  - unfold daysBetween. lia.
Qed.

(** X15. Nothing free is missed: a stretch of a walked working day that
    lies within the working hours, lasts at least the minimum duration
    and meets no busy block, is inside one of the returned windows. *)
Theorem computeFreeSlots_complete (params : FreeSlots.params) (day ds de s e : Z) :
  loopDay params day ->
  (forall t, Date_parse (FreeSlots.startDate params ++ "T00:00:00") = Some t ->
             Z.abs t <= maxTimeValue) ->
  (forall t, Date_parse (FreeSlots.endDate params ++ "T00:00:00") = Some t ->
             Z.abs t <= maxTimeValue) ->
  dayStartOf params day = Some ds ->
  dayEndOf params day = Some de ->
  ds <= s -> s < e -> e <= de ->
  longEnough (FreeSlots.durationMinutes params) s e ->
  (forall b bs be, In b (FreeSlots.busyBlocks params) ->
     Date_parse (start b) = Some bs -> Date_parse (end_ b) = Some be ->
     ~ overlap s e bs be) ->
  exists ws s' e',
    computeFreeSlots params = Ok ws
    /\ In (slotOf s' e') ws /\ s' <= s /\ e <= e'.
Proof.
  intros Hday Hf Hl Hds Hde Hs Hse He Hlong Hfree.
  destruct (windowsZ_cover params day ds de s e
              Hday Hf Hl Hds Hde Hs Hse He Hlong Hfree)
    as ([s' e'] & Hin & Hcover).
  exists (map slotOfPair (windowsZ params)), s', e'.
  split; [apply computeFreeSlots_exact|]. split; [|exact Hcover].
  exact (in_map slotOfPair _ (s', e') Hin).
Qed.

(** X16. A date range that cannot be read, or that ends before it starts,
    gives no window and no error. *)
Theorem computeFreeSlots_empty_range (params : FreeSlots.params) :
  (forall first last,
     Date_parse (FreeSlots.startDate params ++ "T00:00:00") = Some first ->
     Date_parse (FreeSlots.endDate params ++ "T00:00:00") = Some last ->
     last < first) ->
  computeFreeSlots params = Ok [].
Proof.
  intros Hrange. rewrite computeFreeSlots_exact. unfold windowsZ.
  destruct (Date_parse (FreeSlots.startDate params ++ "T00:00:00")) as [first|];
    [|reflexivity].
  destruct (Date_parse (FreeSlots.endDate params ++ "T00:00:00")) as [last|];
    [|reflexivity].
  specialize (Hrange first last eq_refl eq_refl).
  assert (E : (first <=? last) = false) by (apply Z.leb_gt; lia).
  destruct (daysBetween (Some first) (Some last)); cbn [loopZ]; now rewrite E.
Qed.

End IntervalFacts.

Lemma computeFreeSlots_chronological_witness :
  exists ivs,
    @computeFreeSlots utcHost tuesdayParams = Ok (map (@slotOfPair utcHost) ivs)
    /\ chronological ivs.
Proof.
  apply (@computeFreeSlots_chronological utcHost tuesdayParams).
  - intros b bs be [<-|[]] Hs He. vm_compute in Hs, He.
    injection Hs as <-. injection He as <-. lia.
  - intros a b Ha Hb. vm_compute in Ha, Hb.
    injection Ha as <-. injection Hb as <-. lia.
Defined.

Lemma computeFreeSlots_complete_witness :
  exists ws s' e',
    @computeFreeSlots utcHost tuesdayParams = Ok ws
    /\ In (@slotOf utcHost s' e') ws
    /\ s' <= 1704195000000 /\ 1704198600000 <= e'.
Proof.
  apply (@computeFreeSlots_complete utcHost tuesdayParams
           1704153600000 1704186000000 1704218400000).
  - exists 1704153600000, 1704153600000, 0%nat.
    repeat split; reflexivity || (vm_compute; discriminate).
  - intros t Ht. vm_compute in Ht. injection Ht as <-. vm_compute. discriminate.
  - intros t Ht. vm_compute in Ht. injection Ht as <-. vm_compute. discriminate.
  - reflexivity.
  - reflexivity.
  - lia.
  - lia.
  - lia.
  - exists 30. split; [reflexivity | lia].
  - intros b bs be [<-|[]] Hs He. vm_compute in Hs, He.
    injection Hs as <-. injection He as <-. unfold overlap. lia.
Defined.

Lemma computeFreeSlots_empty_range_witness :
  @computeFreeSlots utcHost backwardsParams = Ok [].
Proof.
  apply (@computeFreeSlots_empty_range utcHost backwardsParams).
  intros first last Hf Hl. vm_compute in Hf, Hl.
  injection Hf as <-. injection Hl as <-. lia.
Defined.

(* ===================================================================== *)
(** ** Availability, from the calendars to the windows                    *)
(* ===================================================================== *)

Section CalendarReadingFacts.

Context `{Host} `{CalendarReader}.

(** The busy blocks handed to the engine are the events that block time,
    with a start that is there. *)
Lemma busyBlock_In (events : list Event.t) (b : TimeSlot) :
  In b (map busyBlockOf (List.filter blocksTime events)) ->
  exists ev st,
    In ev events /\ blocksTime ev = true
    /\ Event.start_dateTime ev = Some st
    /\ b = {| start := st; end_ := Event.end_dateTime ev |}.
Proof.
  rewrite in_map_iff. intros (ev & <- & Hin). apply filter_In in Hin.
  destruct Hin as [Hin Hblocks]. unfold busyBlockOf.
  destruct (Event.start_dateTime ev) as [st|] eqn:Hst.
  - exists ev, st. now rewrite Hst.
  - unfold blocksTime in Hblocks. rewrite Hst in Hblocks. discriminate.
Qed.

Lemma busyBlock_of_event (events : list Event.t) (ev : Event.t) (st : string) :
  In ev events -> blocksTime ev = true -> Event.start_dateTime ev = Some st ->
  In {| start := st; end_ := Event.end_dateTime ev |}
     (map busyBlockOf (List.filter blocksTime events)).
Proof.
  intros Hin Hblocks Hst. apply in_map_iff. exists ev. split.
  - unfold busyBlockOf. now rewrite Hst.
  - apply filter_In. now split.
Qed.

(** X20. When the calendars can be read, the tool answers with the
    owner's time zone and with windows that are long enough and overlap
    no fetched event that blocks time, that is, no timed event that is
    neither cancelled nor declined by the owner. *)
Theorem toolGetAvailability_avoids_events (startDate endDate : string)
    (prefs : Preferences) (durationMinutes : number) (events : list Event.t) :
  fetchEvents startDate endDate = Ok events ->
  exists r,
    toolGetAvailability startDate endDate prefs durationMinutes = Ok r
    /\ AvailabilityResult.timezone r = timezone prefs
    /\ forall w, In w (AvailabilityResult.freeSlots r) ->
       exists s e,
         w = slotOf s e /\ s < e /\ longEnough durationMinutes s e
         /\ forall ev st bs be,
              In ev events -> blocksTime ev = true ->
              Event.start_dateTime ev = Some st ->
              Date_parse st = Some bs ->
              Date_parse (Event.end_dateTime ev) = Some be ->
              ~ overlap s e bs be.
Proof.
  intros Hfetch. unfold toolGetAvailability. rewrite Hfetch. cbn [andThen].
  destruct (computeFreeSlots_sound
              (availabilityParams events startDate endDate prefs durationMinutes))
    as (ws & Hrun & Hws).
  rewrite Hrun. cbn [andThen]. eexists. split; [reflexivity|].
  split; [reflexivity|]. cbn [AvailabilityResult.freeSlots].
  intros w Hw. rewrite List.Forall_forall in Hws.
  destruct (Hws w Hw)
    as (day & _ & ds & de & s & e & _ & _ & -> & _ & Hse & _ & Hlong & _ & Hraw).
  exists s, e. repeat split; try assumption.
  intros ev st bs be Hev Hblocks Hst Hbs Hbe.
  apply (Hraw {| start := st; end_ := Event.end_dateTime ev |});
    [|assumption|assumption].
  cbn [availabilityParams FreeSlots.busyBlocks]. now apply busyBlock_of_event.
Qed.

(** X21. All-day, cancelled and declined events do not take time away: a
    stretch of a walked working day that is long enough and meets no
    event that blocks time is inside one of the returned windows,
    whatever other events cover it. *)
Theorem toolGetAvailability_offers_free_time (startDate endDate : string)
    (prefs : Preferences) (durationMinutes : number) (events : list Event.t)
    (day ds de s e : Z) :
  fetchEvents startDate endDate = Ok events ->
  loopDay (availabilityParams events startDate endDate prefs durationMinutes) day ->
  (forall t, Date_parse (startDate ++ "T00:00:00") = Some t -> Z.abs t <= maxTimeValue) ->
  (forall t, Date_parse (endDate ++ "T00:00:00") = Some t -> Z.abs t <= maxTimeValue) ->
  dayStartOf (availabilityParams events startDate endDate prefs durationMinutes) day
    = Some ds ->
  dayEndOf (availabilityParams events startDate endDate prefs durationMinutes) day
    = Some de ->
  ds <= s -> s < e -> e <= de ->
  longEnough durationMinutes s e ->
  (forall ev st bs be,
     In ev events -> blocksTime ev = true ->
     Event.start_dateTime ev = Some st ->
     Date_parse st = Some bs ->
     Date_parse (Event.end_dateTime ev) = Some be ->
     ~ overlap s e bs be) ->
  exists r s' e',
    toolGetAvailability startDate endDate prefs durationMinutes = Ok r
    /\ In (slotOf s' e') (AvailabilityResult.freeSlots r)
    /\ s' <= s /\ e <= e'.
Proof.
  intros Hfetch Hday Hf Hl Hds Hde Hs Hse He Hlong Hfree.
  set (params := availabilityParams events startDate endDate prefs durationMinutes)
    in *.
  destruct (windowsZ_cover params day ds de s e Hday Hf Hl Hds Hde Hs Hse He Hlong)
    as ([s' e'] & Hin & Hcover).
  { intros b bs be Hb Hbs Hbe. apply busyBlock_In in Hb.
    destruct Hb as (ev & st & Hev & Hblocks & Hst & ->).
    exact (Hfree ev st bs be Hev Hblocks Hst Hbs Hbe). }
  unfold toolGetAvailability. rewrite Hfetch. cbn [andThen]. fold params.
  rewrite (computeFreeSlots_exact params). cbn [andThen].
  eexists _, s', e'. split; [reflexivity|]. split; [|exact Hcover].
  exact (in_map slotOfPair _ (s', e') Hin).
Qed.

(** X22. A start date that cannot be read makes the tool throw a
    [RangeError] before any event is fetched, as soon as there is a
    calendar to query; with no calendar to query it answers with no
    window. *)
Theorem toolGetAvailability_unreadable_date (startDate endDate : string)
    (prefs : Preferences) (durationMinutes : number)
    (items : option (list CalendarListEntry.t)) :
  Date_parse (startDate ++ "T00:00:00") = None ->
  calendarList_list = Ok items ->
  (calendarIdsOf items <> [] ->
   toolGetAvailability startDate endDate prefs durationMinutes = Throw RangeError)
  /\ (calendarIdsOf items = [] ->
      toolGetAvailability startDate endDate prefs durationMinutes
      = Ok {| AvailabilityResult.freeSlots := [];
              AvailabilityResult.timezone := timezone prefs |}).
Proof.
  intros Hdate Hlist. unfold toolGetAvailability, fetchEvents.
  rewrite Hdate, Hlist. cbn [andThen]. split.
  - destruct (calendarIdsOf items) as [|calId rest]; [congruence|]. reflexivity.
  - intros ->. cbn [forEach andThen concat].
    rewrite computeFreeSlots_exact. unfold windowsZ.
    cbn [availabilityParams FreeSlots.startDate]. now rewrite Hdate.
Qed.

End CalendarReadingFacts.

Lemma toolGetAvailability_avoids_events_witness :
  exists r,
    @toolGetAvailability utcHost sampleReader "2024-01-02" "2024-01-02"
      defaultPreferences (Some 30) = Ok r
    /\ forall w, In w (AvailabilityResult.freeSlots r) ->
       exists s e, w = @slotOf utcHost s e
                   /\ ~ overlap s e 1704189600000 1704193200000.
Proof.
  destruct (@toolGetAvailability_avoids_events utcHost sampleReader
              "2024-01-02" "2024-01-02" defaultPreferences (Some 30)
              [acceptedEvent; declinedEvent] eq_refl)
    as (r & Hrun & _ & Hws).
  exists r. split; [exact Hrun|]. intros w Hw.
  destruct (Hws w Hw) as (s & e & -> & _ & _ & Hfree).
  exists s, e. split; [reflexivity|].
  apply (Hfree acceptedEvent "2024-01-02T10:00:00Z");
    [left; reflexivity | reflexivity | reflexivity | reflexivity | reflexivity].
Defined.

Lemma toolGetAvailability_offers_free_time_witness :
  exists r s' e',
    @toolGetAvailability utcHost sampleReader "2024-01-02" "2024-01-02"
      defaultPreferences (Some 30) = Ok r
    /\ In (@slotOf utcHost s' e') (AvailabilityResult.freeSlots r)
    /\ s' <= 1704204000000 /\ 1704207600000 <= e'.
Proof.
  apply (@toolGetAvailability_offers_free_time utcHost sampleReader
           "2024-01-02" "2024-01-02" defaultPreferences (Some 30)
           [acceptedEvent; declinedEvent]
           1704153600000 1704186000000 1704218400000).
  - reflexivity.
  - exists 1704153600000, 1704153600000, 0%nat.
    repeat split; reflexivity || (vm_compute; discriminate).
  - intros t Ht. vm_compute in Ht. injection Ht as <-. vm_compute. discriminate.
  - intros t Ht. vm_compute in Ht. injection Ht as <-. vm_compute. discriminate.
  - reflexivity.
  - reflexivity.
  - lia.
  - lia.
  - lia.
  - exists 30. split; [reflexivity | lia].
  - intros ev st bs be [<-|[<-|[]]] Hblocks Hst Hbs Hbe.
    + injection Hst as <-. vm_compute in Hbs, Hbe.
      injection Hbs as <-. injection Hbe as <-. unfold overlap. lia.
    + vm_compute in Hblocks. discriminate.
Defined.

Lemma toolGetAvailability_unreadable_date_witness :
  @toolGetAvailability utcHost sampleReader "soon" "2024-01-02"
    defaultPreferences (Some 30) = Throw RangeError.
Proof.
  destruct (@toolGetAvailability_unreadable_date utcHost sampleReader
              "soon" "2024-01-02" defaultPreferences (Some 30)
              (Some [ {| CalendarListEntry.id := "primary";
                         CalendarListEntry.accessRole := Some "owner" |};
                      {| CalendarListEntry.id := "holidays";
                         CalendarListEntry.accessRole := Some "freeBusyReader" |} ])
              eq_refl eq_refl) as [Hthrow _].
  apply Hthrow. vm_compute. discriminate.
Defined.

(* ===================================================================== *)
(** ** [escapeHtml]                                                       *)
(* ===================================================================== *)


Lemma append_String (a : ascii) (s t : string) :
  String a s ++ t = String a (s ++ t).
Proof. reflexivity. Qed.

Lemma append_append (s t u : string) : (s ++ t) ++ u = s ++ (t ++ u).
Proof.
  induction s as [|a s IH]; [reflexivity|]. now rewrite !append_String, IH.
Qed.

Lemma replaceAll_app (c : ascii) (by' s1 s2 : string) :
  replaceAll c by' (s1 ++ s2) = replaceAll c by' s1 ++ replaceAll c by' s2.
Proof.
  induction s1 as [|a s1 IH]; [reflexivity|].
  rewrite append_String. cbn [replaceAll]. rewrite IH.
  destruct (Ascii.eqb a c); [|reflexivity].
  now rewrite append_append.
Qed.

Lemma escapeHtml_cons (a : ascii) (s : string) :
  escapeHtml (String a s) = escapeChar a ++ escapeHtml s.
Proof.
  unfold escapeHtml, escapeChar. cbn [replaceAll].
  destruct (Ascii.eqb a "&") eqn:E1.
  { rewrite !replaceAll_app. reflexivity. }
  cbn [replaceAll]. destruct (Ascii.eqb a "<") eqn:E2.
  { rewrite !replaceAll_app. reflexivity. }
  cbn [replaceAll]. now destruct (Ascii.eqb a ">") eqn:E3.
Qed.

Lemma list_ascii_app (s t : string) :
  list_ascii_of_string (s ++ t)
  = (list_ascii_of_string s ++ list_ascii_of_string t)%list.
Proof.
  induction s as [|a s IH]; [reflexivity|].
  rewrite append_String. cbn [list_ascii_of_string app]. now rewrite IH.
Qed.

(** X17. The escaped text holds no [<] and no [>]: whatever the line is,
    it cannot open or close a tag in the HTML part of the message. *)
Theorem escapeHtml_no_markup (str : string) :
  List.Forall (fun a => a <> "<"%char /\ a <> ">"%char)
              (list_ascii_of_string (escapeHtml str)).
Proof.
  induction str as [|b str IH]; [constructor|].
  rewrite escapeHtml_cons, list_ascii_app. apply Forall_app. split; [|exact IH].
  unfold escapeChar.
  destruct (Ascii.eqb b "&") eqn:E1;
    [repeat constructor; discriminate|].
  destruct (Ascii.eqb b "<") eqn:E2;
    [repeat constructor; discriminate|].
  destruct (Ascii.eqb b ">") eqn:E3;
    [repeat constructor; discriminate|].
  apply Ascii.eqb_neq in E2, E3. repeat constructor; assumption.
Qed.

Lemma escapeChar_cases (a : ascii) :
  (a = "&"%char /\ escapeChar a = "&amp;")
  \/ (a = "<"%char /\ escapeChar a = "&lt;")
  \/ (a = ">"%char /\ escapeChar a = "&gt;")
  \/ (a <> "&"%char /\ escapeChar a = String a EmptyString).
Proof.
  unfold escapeChar.
  destruct (Ascii.eqb a "&") eqn:E1; [apply Ascii.eqb_eq in E1; auto|].
  destruct (Ascii.eqb a "<") eqn:E2; [apply Ascii.eqb_eq in E2; auto|].
  destruct (Ascii.eqb a ">") eqn:E3; [apply Ascii.eqb_eq in E3; auto 6|].
  apply Ascii.eqb_neq in E1. auto 6.
Qed.

(** X18. Escaping loses nothing: two texts with the same escaped form are
    the same text. *)
Theorem escapeHtml_injective (s t : string) :
  escapeHtml s = escapeHtml t -> s = t.
Proof.
  revert t. induction s as [|a s IH]; intros [|b t].
  - reflexivity.
  - rewrite escapeHtml_cons.
    destruct (escapeChar_cases b) as [[_ ->]|[[_ ->]|[[_ ->]|[_ ->]]]]; discriminate.
  - rewrite escapeHtml_cons.
    destruct (escapeChar_cases a) as [[_ ->]|[[_ ->]|[[_ ->]|[_ ->]]]]; discriminate.
  - rewrite !escapeHtml_cons.
    destruct (escapeChar_cases a) as [[-> ->]|[[-> ->]|[[-> ->]|[Ha ->]]]];
    destruct (escapeChar_cases b) as [[-> ->]|[[-> ->]|[[-> ->]|[Hb ->]]]];
      rewrite ?append_String; change (EmptyString ++ ?x) with x; intros Heq;
      try discriminate Heq;
      try (injection Heq as Heq; now rewrite (IH t Heq));
      try (injection Heq as -> Heq; try congruence; now rewrite (IH t Heq)).
    all: injection Heq as Hab Heq; congruence.
Qed.

Lemma escapeHtml_injective_witness :
  escapeHtml "a<b" = escapeHtml "a<b" /\ "a<b" = "a<b".
Proof.
  split; [reflexivity|]. apply (escapeHtml_injective "a<b" "a<b"). reflexivity.
Defined.

(* ===================================================================== *)
(** ** The recipients of a reply                                          *)
(* ===================================================================== *)

Section RecipientFacts.

Variable toLowerCase : string -> string.
Variable AGENT_EMAIL : option string.

Lemma external_In (email : Envelope.t) (a : Address.t) :
  In a (external toLowerCase AGENT_EMAIL email)
  <-> In a (Envelope.to email ++ default [] (Envelope.cc email))%list
      /\ toLowerCase (Address.email a) <> agentEmail toLowerCase AGENT_EMAIL
      /\ toLowerCase (Address.email a) <> toLowerCase (Address.email (Envelope.from email)).
Proof.
  unfold external, allParticipants. rewrite !filter_In, !negb_true_iff.
  rewrite !String.eqb_neq. tauto.
Qed.

(** X19. The recipients of [send_email]: there is always a To address;
    the sender of the incoming e-mail is always a recipient, in To or in
    CC; every other participant of the thread that is not the agent is a
    To recipient; and nobody else receives the reply: the agent writes to
    itself only when it is the sender. Addresses are compared in lower
    case. *)
Theorem send_email_recipients (email : Envelope.t) :
  let to := toAddresses toLowerCase AGENT_EMAIL email in
  let cc := ccAddresses toLowerCase AGENT_EMAIL email in
  to <> []
  /\ In (Envelope.from email) (to ++ cc)%list
  /\ (forall a,
        In a (Envelope.to email ++ default [] (Envelope.cc email))%list ->
        toLowerCase (Address.email a) <> agentEmail toLowerCase AGENT_EMAIL -> toLowerCase (Address.email a) <> toLowerCase (Address.email (Envelope.from email)) ->
        In a to)
  /\ (forall a, In a (to ++ cc)%list ->
        a = Envelope.from email
        \/ (In a (Envelope.to email ++ default [] (Envelope.cc email))%list
            /\ toLowerCase (Address.email a) <> agentEmail toLowerCase AGENT_EMAIL /\ toLowerCase (Address.email a) <> toLowerCase (Address.email (Envelope.from email)))).
Proof.
  unfold toAddresses, ccAddresses.
  destruct (external toLowerCase AGENT_EMAIL email) as [|x ext] eqn:Hext.
  - cbn. repeat split.
    + discriminate.
    + now left.
    + intros a Ha Hagent Howner.
      assert (Hin : In a (external toLowerCase AGENT_EMAIL email))
        by (apply external_In; auto).
      rewrite Hext in Hin. destruct Hin.
    + intros a [<-|[]]. now left.
  - assert (E : (0 <? Z.of_nat (List.length (x :: ext))) = true)
      by (apply Z.ltb_lt; cbn [List.length]; lia).
    rewrite E. repeat split.
    + discriminate.
    + apply in_or_app. right. now left.
    + intros a Ha Hagent Howner. rewrite <- Hext. apply external_In. auto.
    + intros a Ha. apply in_app_or in Ha. destruct Ha as [Ha|[<-|[]]].
      * right. rewrite <- Hext in Ha. now apply external_In.
      * now left.
Qed.

End RecipientFacts.
